(** * Lab 4: vector search with clusterisation

    A shallow embedding of [lab_4_retrieval_w_clustering/main.py]:
    the document/vector database, the cluster record, the k-means trainer
    with its cluster-restricted inference, and the clustering search engine.

    Conventions of the embedding.
    - Python [int] is [Z]; a Python [float] score is a rational [Q]
      (no NaN, no infinities, no rounding); float [==], [<], [<=] are
      [Qeq_bool], [Qlt], [Qle_bool].
    - A [Vector] (tuple of floats) is a [list Q].
    - The insertion-ordered [dict[int, Vector]] of the database is an
      association list, in insertion order.
    - An exception is the [Raise] branch of [result].  The object that a
      raising call leaves behind is given for the trainer, by
      [KMeans.run_single_train_iteration_state] and [KMeans.train_state];
      elsewhere it is not tracked.
    - Floats being modelled without rounding, the theorems on computed
      scores (the centroid of [KMeans.update_centroid], the sum of
      [KMeans.calculate_square_sum]) state only what rounding keeps: a sum
      of squares against its terms and against 0, one score divided by 1.
    - The collaborators imported from the earlier labs ([Tokenizer.tokenize],
      [calculate_distance], [calculate_bm25], [Vectorizer.build]) are the
      fields of the class [Collaborators]; every theorem holds for all of
      them. *)

From Stdlib Require Import List ZArith QArith Qabs Ascii String Bool Lia Lqa Sorted Permutation.
Import ListNotations.
Open Scope Z_scope.

(** ** Exceptions *)

Inductive exn : Type :=
| ValueError (msg : string)
| IndexError
| KeyError
| ZeroDivisionError.

Inductive result (A : Type) : Type :=
| Ok (a : A)
| Raise (e : exn).
Arguments Ok {A} a.
Arguments Raise {A} e.

Definition bind {A B} (m : result A) (k : A -> result B) : result B :=
  match m with
  | Ok a => k a
  | Raise e => Raise e
  end.

Notation "x <- m ;; k" := (bind m (fun x => k))
  (at level 61, m at next level, right associativity).
Notation "' p <- m ;; k" := (bind m (fun x => match x with p => k end))
  (at level 61, p pattern, m at next level, right associativity).

(** [for x in xs: acc = f(acc, x)], stopping at the first exception. *)
Fixpoint foldM {A B} (f : A -> B -> result A) (xs : list B) (acc : A) : result A :=
  match xs with
  | [] => Ok acc
  | x :: xs' => acc' <- f acc x ;; foldM f xs' acc'
  end.

(** [[f(x) for x in xs]], stopping at the first exception. *)
Fixpoint mapM {A B} (f : A -> result B) (xs : list A) : result (list B) :=
  match xs with
  | [] => Ok []
  | x :: xs' => y <- f x ;; ys <- mapM f xs' ;; Ok (y :: ys)
  end.

(** The accumulator a loop had reached when it ended, and the exception that
    ended it, if any: what an object that the loop updates is left with. *)
Fixpoint foldM_state {A B} (f : A -> B -> result A) (xs : list B) (acc : A)
  : A * option exn :=
  match xs with
  | [] => (acc, None)
  | x :: xs' =>
      match f acc x with
      | Ok acc' => foldM_state f xs' acc'
      | Raise e => (acc, Some e)
      end
  end.

(** [for x in xs:] with [x] updated in place, stopping at the first
    exception: the elements before it are updated, the others are as they
    were. *)
Fixpoint update_each {A} (f : A -> result A) (xs : list A) : list A * option exn :=
  match xs with
  | [] => ([], None)
  | x :: xs' =>
      match f x with
      | Ok x' => let (ys, e) := update_each f xs' in (x' :: ys, e)
      | Raise e => (x :: xs', Some e)
      end
  end.

(** What the caller of a method sees of the object and the exception it is
    left with. *)
Definition outcome_of {A} (state : A * option exn) : result A :=
  match state with
  | (a, None) => Ok a
  | (_, Some e) => Raise e
  end.

(** ** Python values and sequences *)

(** Arguments whose type the code checks with [isinstance]. *)
Inductive PyVal : Type :=
| PyNone
| PyBool (b : bool)
| PyInt (z : Z)
| PyFloat (q : Q)
| PyStr (s : string).

Definition Vector := list Q.
Definition Corpus := list string.
Definition TokenizedCorpus := list (list string).

Definition is_empty {A} (l : list A) : bool :=
  match l with [] => true | _ => false end.

(** [l[i]], negative indices counting from the end. *)
Definition py_index {A} (l : list A) (i : Z) : result A :=
  let n := Z.of_nat (List.length l) in
  let j := if i <? 0 then i + n else i in
  if (j <? 0) || (n <=? j) then Raise IndexError
  else match nth_error l (Z.to_nat j) with
       | Some x => Ok x
       | None => Raise IndexError
       end.

Fixpoint set_nth {A} (l : list A) (n : nat) (x : A) : list A :=
  match l, n with
  | [], _ => []
  | _ :: t, O => x :: t
  | h :: t, S n' => h :: set_nth t n' x
  end.

(** [l[i] = x]. *)
Definition py_setitem {A} (l : list A) (i : Z) (x : A) : result (list A) :=
  let n := Z.of_nat (List.length l) in
  let j := if i <? 0 then i + n else i in
  if (j <? 0) || (n <=? j) then Raise IndexError
  else Ok (set_nth l (Z.to_nat j) x).

(** [l[:k]]. *)
Definition py_slice_to {A} (l : list A) (k : Z) : list A :=
  if k <? 0 then firstn (Z.to_nat (Z.of_nat (List.length l) + k)) l
  else firstn (Z.to_nat k) l.

(** [enumerate(l)]. *)
Fixpoint enumerate_from {A} (i : Z) (l : list A) : list (Z * A) :=
  match l with
  | [] => []
  | x :: t => (i, x) :: enumerate_from (i + 1) t
  end.
Definition enumerate {A} (l : list A) : list (Z * A) := enumerate_from 0 l.

Definition in_Z (x : Z) (l : list Z) : bool := existsb (Z.eqb x) l.

Fixpoint vec_eqb (u v : Vector) : bool :=
  match u, v with
  | [], [] => true
  | a :: u', b :: v' => Qeq_bool a b && vec_eqb u' v'
  | _, _ => false
  end.

(** [l.index(x)] for an equality test [eqb]; [None] stands for the
    ValueError of a missing element. *)
Fixpoint index_from {A} (eqb : A -> A -> bool) (i : Z) (x : A) (l : list A) : option Z :=
  match l with
  | [] => None
  | y :: t => if eqb y x then Some i else index_from eqb (i + 1) x t
  end.
Definition list_index {A} (eqb : A -> A -> bool) (x : A) (l : list A) : result Z :=
  match index_from eqb 0 x l with
  | Some i => Ok i
  | None => Raise (ValueError "x is not in list")
  end.

(** Comparison of [(float, int)] tuples: lexicographic. *)
Definition pair_ltb (a b : Q * Z) : bool :=
  if Qeq_bool (fst a) (fst b) then snd a <? snd b
  else negb (Qle_bool (fst b) (fst a)).

(** [min(l)]: the first element no other element is smaller than. *)
Fixpoint min_from (best : Q * Z) (l : list (Q * Z)) : Q * Z :=
  match l with
  | [] => best
  | x :: t => min_from (if pair_ltb x best then x else best) t
  end.
Definition py_min (l : list (Q * Z)) : result (Q * Z) :=
  match l with
  | [] => Raise (ValueError "min() arg is an empty sequence")
  | x :: t => Ok (min_from x t)
  end.

(** [sorted(l, key=lambda pair: pair[0])]: a stable sort on the first
    component. *)
Fixpoint insert_by_key {B} (x : Q * B) (l : list (Q * B)) : list (Q * B) :=
  match l with
  | [] => [x]
  | y :: t => if Qle_bool (fst x) (fst y) then x :: y :: t
              else y :: insert_by_key x t
  end.
Definition sorted_by_key {B} (l : list (Q * B)) : list (Q * B) :=
  fold_right insert_by_key [] l.

(** [zip] of the unpacked [rows]: their columns, as long as the shortest
    row; nothing at all for no rows. *)
Fixpoint zip_cons (row : list Q) (cols : list (list Q)) : list (list Q) :=
  match row, cols with
  | x :: row', c :: cols' => (x :: c) :: zip_cons row' cols'
  | _, _ => []
  end.
Fixpoint zip_star (rows : list (list Q)) : list (list Q) :=
  match rows with
  | [] => []
  | [r] => map (fun x => [x]) r
  | r :: rows' => zip_cons r (zip_star rows')
  end.

Definition Qsum (l : list Q) : Q := fold_left Qplus l 0%Q.
Definition Zsum (l : list Z) : Z := fold_left Z.add l 0.
Definition len {A} (l : list A) : Z := Z.of_nat (List.length l).

(** [x / n] for a float [x] and an int [n]. *)
Definition py_div (x : Q) (n : Z) : result Q :=
  if n =? 0 then Raise ZeroDivisionError else Ok (x / inject_Z n)%Q.

(** [d[key]] for a dict with string keys. *)
Fixpoint dict_get {V} (d : list (string * V)) (key : string) : result V :=
  match d with
  | [] => Raise KeyError
  | (k, v) :: d' => if String.eqb k key then Ok v else dict_get d' key
  end.

(** ** get_paragraphs *)

(** The characters of a [string] stand for the code points below 256. *)

(** [c.isspace()]: the white space that [str.strip] removes. *)
Definition is_space (c : ascii) : bool :=
  let n := nat_of_ascii c in
  ((9 <=? n) && (n <=? 13) || (28 <=? n) && (n <=? 31)
   || (n =? 32) || (n =? 133) || (n =? 160))%nat.

(** The line feed. *)
Definition newline : ascii := ascii_of_nat 10.

(** [s.split(sep)] for a separator of one character. *)
Fixpoint split_on (sep : ascii) (s : string) : list string :=
  match s with
  | EmptyString => [EmptyString]
  | String c s' =>
      if Ascii.eqb c sep then EmptyString :: split_on sep s'
      else match split_on sep s' with
           | line :: rest => String c line :: rest
           | [] => [String c EmptyString]
           end
  end.

(** [s.lstrip()]. *)
Fixpoint lstrip (s : string) : string :=
  match s with
  | EmptyString => EmptyString
  | String c s' => if is_space c then lstrip s' else s
  end.

(** [s.rstrip()]. *)
Fixpoint rstrip (s : string) : string :=
  match s with
  | EmptyString => EmptyString
  | String c s' =>
      match rstrip s' with
      | EmptyString => if is_space c then EmptyString else String c EmptyString
      | rest => String c rest
      end
  end.

(** [s.strip()]. *)
Definition strip (s : string) : string := rstrip (lstrip s).

Definition get_paragraphs (text : PyVal) : result (list string) :=
  match text with
  | PyStr EmptyString => Raise (ValueError "Invalid input argument")
  | PyStr text =>
      let paragraphs := split_on newline text in
      Ok (map strip (filter (fun paragraph => negb (String.eqb paragraph " ")) paragraphs))
  | _ => Raise (ValueError "Invalid input argument")
  end.

(** ** Collaborators from the earlier labs *)

Record VectorizerFields : Type := {
  _vocabulary : list string;
  _idf_values : list (string * Q);
  _token2ind : list (string * Z);
  _corpus : TokenizedCorpus;
  _avg_doc_len : Q
}.

Class Collaborators : Type := {
  (** [Tokenizer.tokenize]: the tokens of a text, or [None]. *)
  tokenize : string -> option (list string);
  (** [calculate_distance]: the distance of two vectors, or [None]. *)
  calculate_distance : Vector -> Vector -> option Q;
  (** [calculate_bm25(vocab, document, idf, avg_doc_len=, doc_len=)]. *)
  calculate_bm25 :
    list string -> list string -> list (string * Q) -> Q -> Z -> option (list (string * Q));
  (** [Vectorizer.build]: fits vocabulary, IDF values and token positions. *)
  build : VectorizerFields -> VectorizerFields
}.

(** ** BM25Vectorizer *)

Module BM25Vectorizer.
Section Methods.
Context `{Collaborators}.

Definition t := VectorizerFields.

(** [__init__]: the base class is given an empty corpus. *)
Definition init : t :=
  {| _vocabulary := []; _idf_values := []; _token2ind := [];
     _corpus := []; _avg_doc_len := (-1)%Q |}.

Definition set_tokenized_corpus (self : t) (tokenized_corpus : TokenizedCorpus)
  : result t :=
  if is_empty tokenized_corpus then Raise (ValueError "Invalid input argument")
  else
    avg <- py_div (inject_Z (Zsum (map len tokenized_corpus))) (len tokenized_corpus) ;;
    Ok {| _vocabulary := _vocabulary self; _idf_values := _idf_values self;
          _token2ind := _token2ind self;
          _corpus := tokenized_corpus; _avg_doc_len := avg |}.

Definition _calculate_bm25 (self : t) (tokenized_document : list string)
  : result Vector :=
  if is_empty tokenized_document then Raise (ValueError "Invalid input argument")
  else
    let vector := repeat 0%Q (List.length (_vocabulary self)) in
    match calculate_bm25 (_vocabulary self) tokenized_document (_idf_values self)
                         (_avg_doc_len self) (len tokenized_document) with
    | None | Some [] => Ok vector
    | Some bm25 =>
        foldM (fun vector '(term, index) =>
                 score <- dict_get bm25 term ;;
                 py_setitem vector index score)
              (_token2ind self) vector
    end.

Definition vectorize (self : t) (tokenized_document : list string) : result Vector :=
  if is_empty tokenized_document then Raise (ValueError "Invalid input argument")
  else
    bm25_vector <- _calculate_bm25 self tokenized_document ;;
    if is_empty bm25_vector
    then Raise (ValueError "Failed to vectorize. BM-25 values are None")
    else Ok bm25_vector.

End Methods.
End BM25Vectorizer.

(** ** DocumentVectorDB *)

Module DocumentVectorDB.

Record t : Type := {
  __vectors : list (Z * Vector);
  __documents : Corpus;
  _vectorizer : BM25Vectorizer.t
}.

Section Methods.
Context `{Collaborators}.

Definition init : t :=
  {| __vectors := []; __documents := []; _vectorizer := BM25Vectorizer.init |}.

(** The first loop of [put_corpus]: the documents kept so far and their
    tokens. *)
Fixpoint tokenize_corpus (corpus : Corpus) (documents : Corpus)
    (tokenized_docs : TokenizedCorpus) : Corpus * TokenizedCorpus :=
  match corpus with
  | [] => (documents, tokenized_docs)
  | doc :: rest =>
      match tokenize doc with
      | Some (tok :: toks) =>
          tokenize_corpus rest (documents ++ [doc]) (tokenized_docs ++ [tok :: toks])
      | _ => tokenize_corpus rest documents tokenized_docs
      end
  end.

(** The dict comprehension of [put_corpus]. *)
Definition vectorize_all (vectorizer : BM25Vectorizer.t)
    (tokenized_docs : TokenizedCorpus) : result (list (Z * Vector)) :=
  foldM (fun vectors '(ind, doc) =>
           vector <- BM25Vectorizer.vectorize vectorizer doc ;;
           Ok (if is_empty vector then vectors else vectors ++ [(ind, vector)]))
        (enumerate tokenized_docs) [].

Definition put_corpus (self : t) (corpus : Corpus) : result t :=
  if is_empty corpus then Raise (ValueError "Invalid input argument")
  else
    let '(documents, tokenized_docs) := tokenize_corpus corpus (__documents self) [] in
    if is_empty tokenized_docs
    then Raise (ValueError "Tokenized documents are either None or empty")
    else
      vectorizer <- BM25Vectorizer.set_tokenized_corpus (_vectorizer self) tokenized_docs ;;
      let vectorizer := build vectorizer in
      vectors <- vectorize_all vectorizer tokenized_docs ;;
      Ok {| __vectors := vectors; __documents := documents; _vectorizer := vectorizer |}.

Definition get_vectorizer (self : t) : BM25Vectorizer.t := _vectorizer self.

Definition get_vectors (self : t) (indices : option (list Z)) : list (Z * Vector) :=
  match indices with
  | None | Some [] => __vectors self
  | Some indices => filter (fun pair => in_Z (fst pair) indices) (__vectors self)
  end.

(** The loop of [get_raw_documents] that collects [unique_indices]. *)
Definition unique_indices (indices : list Z) : list Z :=
  fold_left (fun unique ind => if in_Z ind unique then unique else unique ++ [ind])
            indices [].

Definition get_raw_documents (self : t) (indices : option (list Z)) : result Corpus :=
  match indices with
  | None | Some [] => Ok (__documents self)
  | Some indices => mapM (py_index (__documents self)) (unique_indices indices)
  end.

End Methods.
End DocumentVectorDB.

(** ** ClusterDTO *)

Module ClusterDTO.

Record t : Type := {
  __centroid : Vector;
  __indices : list Z
}.

Definition init (centroid_vector : Vector) : t :=
  {| __centroid := centroid_vector; __indices := [] |}.

Definition get_centroid (self : t) : Vector := __centroid self.

Definition set_new_centroid (self : t) (new_centroid : Vector) : result t :=
  if is_empty new_centroid then Raise (ValueError "Invalid input argument")
  else Ok {| __centroid := new_centroid; __indices := __indices self |}.

Definition erase_indices (self : t) : t :=
  {| __centroid := __centroid self; __indices := [] |}.

Definition add_document_index (self : t) (index : Z) : result t :=
  if index <? 0 then Raise (ValueError "Invalid input argument")
  else if in_Z index (__indices self) then Ok self
  else Ok {| __centroid := __centroid self; __indices := __indices self ++ [index] |}.

Definition get_indices (self : t) : list Z := __indices self.

Definition __len__ (self : t) : Z := len (__indices self).

End ClusterDTO.

(** ** KMeans *)

Module KMeans.

Record t : Type := {
  __clusters : list ClusterDTO.t;
  _db : DocumentVectorDB.t;
  _n_clusters : Z
}.

Definition init (db : DocumentVectorDB.t) (n_clusters : Z) : t :=
  {| __clusters := []; _db := db; _n_clusters := n_clusters |}.

Definition set_clusters (self : t) (clusters : list ClusterDTO.t) : t :=
  {| __clusters := clusters; _db := _db self; _n_clusters := _n_clusters self |}.

(** [==] on [(index, vector)] pairs, as [vectors.index(vector)] uses it. *)
Definition pair_eqb (a b : Z * Vector) : bool :=
  (fst a =? fst b) && vec_eqb (snd a) (snd b).

(** The default [threshold] of [_is_convergence_reached], 1e-07. *)
Definition default_threshold : PyVal := PyFloat (1 # 10000000).

(** An entry of [get_clusters_info]: the dict with the keys [cluster_id] and
    [documents]. *)
Record ClusterInfo : Type := {
  cluster_id : Z;
  documents : list string
}.

Section Methods.
Context `{Collaborators}.

(** The inner loop of the assignment step: one [(distance, index)] pair per
    centroid. *)
Definition centroid_distances (centroids : list Vector) (vector : Z * Vector)
  : result (list (Q * Z)) :=
  mapM (fun centroid =>
          match calculate_distance (snd vector) centroid with
          | None =>
              Raise (ValueError "Failed to calculate distance between vector and centroid")
          | Some distance =>
              i <- list_index vec_eqb centroid centroids ;;
              Ok (distance, i)
          end)
       centroids.

(** [closest_centroid = min(distances)[1]]. *)
Definition closest_centroid_of (centroids : list Vector) (vector : Z * Vector)
  : result Z :=
  distances <- centroid_distances centroids vector ;;
  closest <- py_min distances ;;
  Ok (snd closest).

(** The body of [for vector in vectors]: the cluster list after the vector's
    position has been added to its closest cluster. *)
Definition assign_vector (centroids : list Vector) (vectors : list (Z * Vector))
    (clusters : list ClusterDTO.t) (vector : Z * Vector) : result (list ClusterDTO.t) :=
  closest_centroid <- closest_centroid_of centroids vector ;;
  cluster <- py_index clusters closest_centroid ;;
  position <- list_index pair_eqb vector vectors ;;
  cluster <- ClusterDTO.add_document_index cluster position ;;
  py_setitem clusters closest_centroid cluster.

(** The body of the last loop: the mean of the cluster's vectors becomes its
    centroid. *)
Definition update_centroid (vectors : list (Z * Vector)) (cluster : ClusterDTO.t)
  : result ClusterDTO.t :=
  cluster_vectors <-
    mapM (fun ind => pair <- py_index vectors ind ;; Ok (snd pair))
         (ClusterDTO.get_indices cluster) ;;
  new_centroid <-
    mapM (fun scores => py_div (Qsum scores) (len scores)) (zip_star cluster_vectors) ;;
  ClusterDTO.set_new_centroid cluster new_centroid.

(** The returned list is [self.__clusters] itself: it is the cluster list of
    the returned state. *)
Definition run_single_train_iteration (self : t) : result t :=
  let centroids := map ClusterDTO.get_centroid (__clusters self) in
  let clusters := map ClusterDTO.erase_indices (__clusters self) in
  let vectors := DocumentVectorDB.get_vectors (_db self) None in
  clusters <- foldM (assign_vector centroids vectors) vectors clusters ;;
  clusters <- mapM (update_centroid vectors) clusters ;;
  Ok (set_clusters self clusters).

(** The loop of [_is_convergence_reached] over [zip(old, new)]. *)
Fixpoint compare_centroids (threshold : Q) (pairs : list (Vector * Vector))
  : result bool :=
  match pairs with
  | [] => Ok true
  | (old, new) :: rest =>
      match calculate_distance old new with
      | None => Raise (ValueError "Failed to calculate distance")
      | Some distance =>
          if negb (Qle_bool distance threshold) then Ok false
          else compare_centroids threshold rest
      end
  end.

Definition _is_convergence_reached (self : t) (new_clusters : list ClusterDTO.t)
    (threshold : PyVal) : result bool :=
  match threshold with
  | PyFloat threshold =>
      if is_empty new_clusters || Qeq_bool threshold 0
      then Raise (ValueError "Invalid input argument(s)")
      else
        let old_centroids := map ClusterDTO.get_centroid (__clusters self) in
        let new_centroids := map ClusterDTO.get_centroid new_clusters in
        compare_centroids threshold (combine old_centroids new_centroids)
  | _ => Raise (ValueError "Invalid input argument(s)")
  end.

(** [while True] of [train]; [None] when the fuel runs out.  The list that
    [run_single_train_iteration] returns is the list the object holds, so the
    check reads the updated clusters on both sides. *)
Fixpoint train_loop (fuel : nat) (self : t) : option (result t) :=
  match fuel with
  | O => None
  | S fuel' =>
      match run_single_train_iteration self with
      | Raise e => Some (Raise e)
      | Ok self' =>
          let new_clusters := __clusters self' in
          match _is_convergence_reached self' new_clusters default_threshold with
          | Raise e => Some (Raise e)
          | Ok true => Some (Ok self')
          | Ok false => train_loop fuel' self'
          end
      end
  end.

Definition seed_clusters (self : t) : t :=
  let start_centroids :=
    py_slice_to (DocumentVectorDB.get_vectors (_db self) None) (_n_clusters self) in
  set_clusters self
    (__clusters self ++ map (fun centroid => ClusterDTO.init (snd centroid)) start_centroids).

Definition train (fuel : nat) (self : t) : option (result t) :=
  train_loop fuel (seed_clusters self).

(** [run_single_train_iteration] assigns to the clusters that the object
    holds, one after the other, and [train] appends its seeds to them before
    the first iteration: a call that raises leaves the object with what had
    been done until then.  The functions below give the object after the
    call, together with the exception if one was raised. *)
Definition run_single_train_iteration_state (self : t) : t * option exn :=
  let centroids := map ClusterDTO.get_centroid (__clusters self) in
  let clusters := map ClusterDTO.erase_indices (__clusters self) in
  let vectors := DocumentVectorDB.get_vectors (_db self) None in
  match foldM_state (assign_vector centroids vectors) vectors clusters with
  | (clusters, Some e) => (set_clusters self clusters, Some e)
  | (clusters, None) =>
      let (clusters, e) := update_each (update_centroid vectors) clusters in
      (set_clusters self clusters, e)
  end.

Fixpoint train_loop_state (fuel : nat) (self : t) : option (t * option exn) :=
  match fuel with
  | O => None
  | S fuel' =>
      match run_single_train_iteration_state self with
      | (self', Some e) => Some (self', Some e)
      | (self', None) =>
          let new_clusters := __clusters self' in
          match _is_convergence_reached self' new_clusters default_threshold with
          | Raise e => Some (self', Some e)
          | Ok true => Some (self', None)
          | Ok false => train_loop_state fuel' self'
          end
      end
  end.

Definition train_state (fuel : nat) (self : t) : option (t * option exn) :=
  train_loop_state fuel (seed_clusters self).

(** The body of the first loop of [infer]. *)
Definition add_cent_distance (query_vector : Vector) (cent_distances : list (Q * Z))
    (entry : Z * ClusterDTO.t) : result (list (Q * Z)) :=
  let '(ind, cluster) := entry in
  let centroid := ClusterDTO.get_centroid cluster in
  if is_empty centroid then Ok cent_distances
  else match calculate_distance query_vector centroid with
       | None =>
           Raise (ValueError
                    "Failed to calculate distance between query vector and centroid")
       | Some cent_distance => Ok (cent_distances ++ [(cent_distance, ind)])
       end.

Definition cent_distances_of (query_vector : Vector) (clusters : list ClusterDTO.t)
  : result (list (Q * Z)) :=
  foldM (add_cent_distance query_vector) (enumerate clusters) [].

Definition closest_cluster_of (query_vector : Vector) (clusters : list ClusterDTO.t)
  : result Z :=
  cent_distances <- cent_distances_of query_vector clusters ;;
  if is_empty cent_distances then Ok 0
  else closest <- py_min cent_distances ;; Ok (snd closest).

Definition doc_distances_of (query_vector : Vector) (doc_vectors : list (Z * Vector))
  : result (list (Q * Z)) :=
  mapM (fun vector =>
          match calculate_distance query_vector (snd vector) with
          | None =>
              Raise (ValueError
                       "Failed to calculate distance between query and document vectors")
          | Some doc_distance => Ok (doc_distance, fst vector)
          end)
       doc_vectors.

Definition infer (self : t) (query_vector : Vector) (n_neighbours : Z)
  : result (list (Q * Z)) :=
  if is_empty query_vector || (n_neighbours <=? 0)
  then Raise (ValueError "Invalid input argument(s)")
  else
    closest_cluster <- closest_cluster_of query_vector (__clusters self) ;;
    cluster <- py_index (__clusters self) closest_cluster ;;
    let doc_indices := ClusterDTO.get_indices cluster in
    let doc_vectors := DocumentVectorDB.get_vectors (_db self) (Some doc_indices) in
    doc_distances <- doc_distances_of query_vector doc_vectors ;;
    Ok (firstn (Z.to_nat n_neighbours) (sorted_by_key doc_distances)).

(** The body of the loop of [get_clusters_info]: the entry of one
    cluster. *)
Definition cluster_info (self : t) (num_examples : Z) (entry : Z * ClusterDTO.t)
  : result ClusterInfo :=
  let '(index, cluster) := entry in
  let vectors :=
    DocumentVectorDB.get_vectors (_db self) (Some (ClusterDTO.get_indices cluster)) in
  distances <-
    mapM (fun vector =>
            match calculate_distance (ClusterDTO.get_centroid cluster) (snd vector) with
            | None => Raise (ValueError "Failed to calculate distance")
            | Some distance => Ok (distance, fst vector)
            end)
         vectors ;;
  let distances := sorted_by_key distances in
  docs <- DocumentVectorDB.get_raw_documents (_db self) (Some (map snd distances)) ;;
  Ok {| cluster_id := index; documents := py_slice_to docs num_examples |}.

Definition get_clusters_info (self : t) (num_examples : PyVal)
  : result (list ClusterInfo) :=
  match num_examples with
  | PyInt m =>
      if m <=? 0 then Raise (ValueError "Invalid input argument")
      else mapM (cluster_info self m) (enumerate (__clusters self))
  | PyBool true => mapM (cluster_info self 1) (enumerate (__clusters self))
  | _ => Raise (ValueError "Invalid input argument")
  end.

(** [sum((cent - vect) ** 2 for cent, vect in zip(centroid, vector[1]))]. *)
Definition squared_distance (centroid vector : Vector) : Q :=
  Qsum (map (fun pair => ((fst pair - snd pair) ^ 2)%Q) (combine centroid vector)).

Definition calculate_square_sum (self : t) : Q :=
  fold_left
    (fun sse cluster =>
       let centroid := ClusterDTO.get_centroid cluster in
       let vectors :=
         DocumentVectorDB.get_vectors (_db self)
           (Some (ClusterDTO.get_indices cluster)) in
       fold_left (fun sse vector => (sse + squared_distance centroid (snd vector))%Q)
                 vectors sse)
    (__clusters self) 0%Q.

End Methods.
End KMeans.

(** ** ClusteringSearchEngine *)

Module ClusteringSearchEngine.

(** The engine and its [KMeans] hold the same database object; the record
    keeps it once, inside [__algo]. *)
Record t : Type := {
  __algo : KMeans.t
}.

Definition init (db : DocumentVectorDB.t) (n_clusters : Z) : t :=
  {| __algo := KMeans.init db n_clusters |}.

Definition _db (self : t) : DocumentVectorDB.t := KMeans._db (__algo self).

(** [isinstance(query, str) and query]: the text of a non-empty string. *)
Definition checked_query (query : PyVal) : option string :=
  match query with
  | PyStr EmptyString => None
  | PyStr s => Some s
  | _ => None
  end.

(** [isinstance(n, int) and n > 0]: the value of a positive integer
    ([bool] is a subclass of [int]). *)
Definition checked_count (n_neighbours : PyVal) : option Z :=
  match n_neighbours with
  | PyInt n => if n <=? 0 then None else Some n
  | PyBool true => Some 1
  | _ => None
  end.

Section Methods.
Context `{Collaborators}.

(** What precedes [self.__algo.train()]: the checked arguments and the query
    vector. *)
Definition prepare_query (self : t) (query n_neighbours : PyVal)
  : result (Vector * Z) :=
  match checked_query query, checked_count n_neighbours with
  | Some query, Some n_neighbours =>
      match tokenize query with
      | None | Some [] => Raise (ValueError "Failed to tokenize query")
      | Some query_tokens =>
          query_vector <-
            BM25Vectorizer.vectorize (DocumentVectorDB.get_vectorizer (_db self))
                                     query_tokens ;;
          if is_empty query_vector then Raise (ValueError "Failed to vectorize query")
          else Ok (query_vector, n_neighbours)
      end
  | _, _ => Raise (ValueError "Invalid Input argument(s)")
  end.

(** What follows the training: inference and the mapping back to texts. *)
Definition rank_documents (algo : KMeans.t) (query_vector : Vector) (n_neighbours : Z)
  : result (list (Q * string)) :=
  inference <- KMeans.infer algo query_vector n_neighbours ;;
  docs <- DocumentVectorDB.get_raw_documents (KMeans._db algo)
            (Some (map snd inference)) ;;
  mapM (fun '(ind, dist) => doc <- py_index docs ind ;; Ok (fst dist, doc))
       (enumerate inference).

(** The engine after the call and the ranked documents; [None] when the
    training loop runs out of fuel. *)
Definition retrieve_relevant_documents (fuel : nat) (self : t)
    (query n_neighbours : PyVal) : option (result (t * list (Q * string))) :=
  match prepare_query self query n_neighbours with
  | Raise e => Some (Raise e)
  | Ok (query_vector, n_neighbours) =>
      match KMeans.train fuel (__algo self) with
      | None => None
      | Some (Raise e) => Some (Raise e)
      | Some (Ok algo) =>
          Some (docs <- rank_documents algo query_vector n_neighbours ;;
                Ok ({| __algo := algo |}, docs))
      end
  end.

Definition calculate_square_sum (self : t) : Q :=
  KMeans.calculate_square_sum (__algo self).

End Methods.
End ClusteringSearchEngine.

(** ** VectorDBSearchEngine *)

(** [BasicSearchEngine._calculate_knn] of the earlier lab: (index, distance)
    pairs of the nearest vectors, or [None]. *)
Class KnnSearch : Type := {
  _calculate_knn : Vector -> list Vector -> Z -> option (list (Z * Q))
}.

Module VectorDBSearchEngine.

(** The tokenizer and the vectorizer of the engine are those of the
    database. *)
Record t : Type := {
  _db : DocumentVectorDB.t
}.

Definition init (db : DocumentVectorDB.t) : t := {| _db := db |}.

Section Methods.
Context `{Collaborators} `{KnnSearch}.

(** The last comprehension of [retrieve_relevant_documents]. *)
Definition pair_documents (docs : Corpus) (knn : list (Z * Q))
  : result (list (Q * string)) :=
  mapM (fun '(ind, neighbour) => doc <- py_index docs ind ;; Ok (snd neighbour, doc))
       (enumerate knn).

Definition retrieve_relevant_documents (self : t) (query n_neighbours : PyVal)
  : result (list (Q * string)) :=
  match ClusteringSearchEngine.checked_query query,
        ClusteringSearchEngine.checked_count n_neighbours with
  | Some query, Some n_neighbours =>
      match tokenize query with
      | None | Some [] => Raise (ValueError "Failed to tokenize query (None or empty)")
      | Some query_tokens =>
          query_vector <-
            BM25Vectorizer.vectorize (DocumentVectorDB.get_vectorizer (_db self))
                                     query_tokens ;;
          if is_empty query_vector
          then Raise (ValueError "Failed to vectorize query (None or empty)")
          else
            let vectors := map snd (DocumentVectorDB.get_vectors (_db self) None) in
            match _calculate_knn query_vector vectors n_neighbours with
            | None | Some [] =>
                Raise (ValueError
                         "Failed to calculate k nearest neighbours (None or empty)")
            | Some knn =>
                let knn_indices := map fst knn in
                docs <- DocumentVectorDB.get_raw_documents (_db self) (Some knn_indices) ;;
                pair_documents docs knn
            end
      end
  | _, _ => Raise (ValueError "Invalid input argument(s)")
  end.

End Methods.
End VectorDBSearchEngine.

(** ** A concrete set of collaborators, for running the code *)

Module Sample.

(** Splits at spaces; no tokens for a text without any. *)
Fixpoint split_words (s : string) (word : string) : list string :=
  match s with
  | EmptyString => if String.eqb word "" then [] else [word]
  | String c s' =>
      if Ascii.eqb c " "%char
      then (if String.eqb word "" then [] else [word]) ++ split_words s' ""
      else split_words s' (word ++ String c "")
  end.

Definition sample_tokenize (s : string) : option (list string) :=
  match split_words s "" with
  | [] => None
  | toks => Some toks
  end.

(** Sum of the absolute coordinate differences; on vectors of one
    coordinate this is the Euclidean distance. *)
Fixpoint manhattan (u v : Vector) : option Q :=
  match u, v with
  | [], [] => Some 0%Q
  | a :: u', b :: v' =>
      match manhattan u' v' with
      | Some d => Some (Qred (Qabs (a - b) + d))
      | None => None
      end
  | _, _ => None
  end.

Definition count_occ_str (tok : string) (doc : list string) : Z :=
  len (filter (String.eqb tok) doc).

(** Term counts in place of BM25 scores. *)
Definition sample_bm25 (vocab : list string) (doc : list string)
    (idf : list (string * Q)) (avg_doc_len : Q) (doc_len : Z)
  : option (list (string * Q)) :=
  Some (map (fun term => (term, inject_Z (count_occ_str term doc))) vocab).

Definition sample_build (v : VectorizerFields) : VectorizerFields :=
  let vocab := nodup string_dec (List.concat (_corpus v)) in
  {| _vocabulary := vocab;
     _idf_values := map (fun term => (term, 1%Q)) vocab;
     _token2ind := map (fun p => (snd p, fst p)) (enumerate vocab);
     _corpus := _corpus v;
     _avg_doc_len := _avg_doc_len v |}.

#[export] Instance collaborators : Collaborators :=
  {| tokenize := sample_tokenize;
     calculate_distance := manhattan;
     calculate_bm25 := sample_bm25;
     build := sample_build |}.

(** A database holding the one-coordinate vectors [xs], in order. *)
Definition db_of (xs : list Q) : DocumentVectorDB.t :=
  {| DocumentVectorDB.__vectors := enumerate (map (fun x => [x]) xs);
     DocumentVectorDB.__documents := map (fun _ => "doc"%string) xs;
     DocumentVectorDB._vectorizer := BM25Vectorizer.init |}.

(** A corpus of five texts over one term; the third one has no tokens. *)
Definition sample_corpus : Corpus :=
  ["a"; "a a a a a a"; " "; "a a a"; "a a a a a"]%string.

Definition sample_db : DocumentVectorDB.t :=
  Eval vm_compute in
    match DocumentVectorDB.put_corpus DocumentVectorDB.init sample_corpus with
    | Ok db => db
    | Raise _ => DocumentVectorDB.init
    end.

Definition sample_engine : ClusteringSearchEngine.t :=
  ClusteringSearchEngine.init sample_db 2.

(** The engine after one retrieval. *)
Definition sample_engine_1 : ClusteringSearchEngine.t :=
  Eval vm_compute in
    match ClusteringSearchEngine.retrieve_relevant_documents
            1 sample_engine (PyStr "a a a a") (PyInt 1) with
    | Some (Ok (engine, _)) => engine
    | _ => sample_engine
    end.

(** The engine after two retrievals. *)
Definition sample_engine_2 : ClusteringSearchEngine.t :=
  Eval vm_compute in
    match ClusteringSearchEngine.retrieve_relevant_documents
            1 sample_engine_1 (PyStr "a a a a") (PyInt 1) with
    | Some (Ok (engine, _)) => engine
    | _ => sample_engine_1
    end.

(** A [KMeans] over the vectors (1), (6), (3), (5), before and after
    [train]. *)
Definition sample_kmeans : KMeans.t := KMeans.init (db_of [1; 6; 3; 5]%Q) 2.

Definition sample_trained : KMeans.t :=
  Eval vm_compute in
    match KMeans.train 1 sample_kmeans with
    | Some (Ok self) => self
    | _ => sample_kmeans
    end.

(** A [KMeans] over two equal vectors, seeded with both. *)
Definition twin_kmeans : KMeans.t := KMeans.seed_clusters (KMeans.init (db_of [1; 1]%Q) 2).

(** The database of a corpus that holds the same text twice. *)
Definition twin_db : DocumentVectorDB.t :=
  Eval vm_compute in
    match DocumentVectorDB.put_corpus DocumentVectorDB.init ["a"; "a"]%string with
    | Ok db => db
    | Raise _ => DocumentVectorDB.init
    end.

(** The database of a corpus whose first two texts are the same. *)
Definition echo_db : DocumentVectorDB.t :=
  Eval vm_compute in
    match DocumentVectorDB.put_corpus DocumentVectorDB.init
            ["a"; "a"; "a a a a a"]%string with
    | Ok db => db
    | Raise _ => DocumentVectorDB.init
    end.

(** The [KMeans] over it with two clusters, as a [train] call leaves it. *)
Definition aborted_kmeans : KMeans.t :=
  Eval vm_compute in
    match KMeans.train_state 1 (KMeans.init echo_db 2) with
    | Some (self, _) => self
    | None => KMeans.init echo_db 2
    end.

(** A state that no training returns: the one cluster has a centroid and no
    member. *)
Definition memberless_kmeans : KMeans.t :=
  {| KMeans.__clusters := [ClusterDTO.init [5%Q]];
     KMeans._db := db_of [1; 6; 3; 5]%Q;
     KMeans._n_clusters := 1 |}.

(** The nearest vectors by position and distance, found by ranking all of
    them. *)
Definition sample_knn (query_vector : Vector) (vectors : list Vector) (n : Z)
  : option (list (Z * Q)) :=
  let distances :=
    map (fun entry => match manhattan query_vector (snd entry) with
                      | Some d => (d, fst entry)
                      | None => (0%Q, fst entry)
                      end)
        (enumerate vectors) in
  Some (map (fun entry => (snd entry, fst entry))
            (firstn (Z.to_nat n) (sorted_by_key distances))).

#[export] Instance knn_search : KnnSearch := {| _calculate_knn := sample_knn |}.

(** The sample database after a second corpus has been put into it. *)
Definition sample_db_twice : DocumentVectorDB.t :=
  Eval vm_compute in
    match DocumentVectorDB.put_corpus sample_db ["a a"; "a a a a"]%string with
    | Ok db => db
    | Raise _ => sample_db
    end.

(** A text of five lines: the second is empty, the third one space, the
    fourth two spaces. *)
Definition sample_text : string :=
  ("first " ++ String newline (String newline (" " ++ String newline
     ("  " ++ String newline " last"))))%string.

(** A cluster over the vectors of positions 0 and 2. *)
Definition sample_cluster : ClusterDTO.t :=
  {| ClusterDTO.__centroid := [1%Q]; ClusterDTO.__indices := [0; 2] |}.

End Sample.

(** * Vocabulary of the statements *)

(** The indices of a filter in the order of their first occurrence, each
    once: what is left when the later repetitions are crossed out. *)
Definition first_occurrences (indices : list Z) : list Z :=
  rev (nodup Z.eq_dec (rev indices)).

(** The query is not a string, or is the empty string, or the count is an
    integer that is not positive. *)
Definition invalid_arguments (query n_neighbours : PyVal) : Prop :=
  (forall s, query <> PyStr s)
  \/ query = PyStr ""
  \/ (exists z, n_neighbours = PyInt z /\ z <= 0).

(** A threshold the check accepts: a float other than zero. *)
Definition valid_threshold (threshold : PyVal) : Prop :=
  exists thr, threshold = PyFloat thr /\ ~ (thr == 0)%Q.

(** The keys of the vector mapping are the positions [0, 1, 2, ...], in
    order. *)
Definition dense_keys (vectors : list (Z * Vector)) : Prop :=
  vectors = enumerate (map snd vectors).

(** The order of [(float, int)] tuples. *)
Definition pair_le (a b : Q * Z) : Prop :=
  (fst a < fst b)%Q \/ ((fst a == fst b)%Q /\ snd a <= snd b).

Definition key_le {B : Type} (a b : Q * B) : Prop := (fst a <= fst b)%Q.

(** A cluster with members and with a centroid. *)
Definition populated (cluster : ClusterDTO.t) : Prop :=
  ClusterDTO.get_indices cluster <> [] /\ ClusterDTO.get_centroid cluster <> [].

(** The keys of the vector mapping are distinct, as the keys of a dict are,
    and each is the position of a stored document. *)
Definition keys_valid (db : DocumentVectorDB.t) : Prop :=
  NoDup (map fst (DocumentVectorDB.__vectors db))
  /\ forall i, In i (map fst (DocumentVectorDB.__vectors db)) ->
               0 <= i < len (DocumentVectorDB.__documents db).

(** The document at a valid position. *)
Definition doc_at (db : DocumentVectorDB.t) (i : Z) : string :=
  nth (Z.to_nat i) (DocumentVectorDB.__documents db) ""%string.

(** The first character of [s] is white space. *)
Definition starts_with_space (s : string) : bool :=
  match s with
  | EmptyString => false
  | String c _ => is_space c
  end.

(** The last character of [s] is white space. *)
Fixpoint ends_with_space (s : string) : bool :=
  match s with
  | EmptyString => false
  | String c EmptyString => is_space c
  | String _ s' => ends_with_space s'
  end.

(** How often [c] occurs in [s]. *)
Fixpoint count_char (c : ascii) (s : string) : nat :=
  match s with
  | EmptyString => O
  | String c' s' => if Ascii.eqb c' c then S (count_char c s') else count_char c s'
  end.

(** [s] is made of white space only: [s.strip()] is empty. *)
Fixpoint all_space (s : string) : bool :=
  match s with
  | EmptyString => true
  | String c s' => is_space c && all_space s'
  end.

(** A paragraph as [get_paragraphs] returns it: stripped on both sides, and
    within one line. *)
Definition clean_paragraph (p : string) : Prop :=
  starts_with_space p = false /\ ends_with_space p = false
  /\ count_char newline p = O.

(** An index that a list of [n] elements accepts, counting from the front
    or, negative, from the end. *)
Definition in_bounds (n i : Z) : Prop := - n <= i < n.

(** The [j]-th coordinates of the vectors [rows]. *)
Definition column (j : nat) (rows : list Vector) : list Q :=
  map (fun row => nth j row 0%Q) rows.

(** A member list as the assignment step builds it: without repetitions and
    made of positions of the list of [n] stored vectors. *)
Definition valid_members (n : Z) (cluster : ClusterDTO.t) : Prop :=
  NoDup (ClusterDTO.get_indices cluster)
  /\ forall p, In p (ClusterDTO.get_indices cluster) -> 0 <= p < n.

Section Vocabulary.
Context `{Collaborators}.

(** The query is a string that the tokenizer turns into nothing, or into
    tokens that the vectorizer turns into the empty vector. *)
Definition empty_query_vector (self : ClusteringSearchEngine.t) (query : PyVal) : Prop :=
  exists s, query = PyStr s /\
    (tokenize s = None
     \/ tokenize s = Some []
     \/ exists toks, tokenize s = Some toks /\
          BM25Vectorizer._calculate_bm25
            (DocumentVectorDB.get_vectorizer (ClusteringSearchEngine._db self)) toks
          = Ok []).

(** Every pair of centroids has a distance, and it is within the
    threshold. *)
Definition centroids_within (thr : Q) (pairs : list (Vector * Vector)) : Prop :=
  Forall (fun pair => exists d, calculate_distance (fst pair) (snd pair) = Some d
                                /\ (d <= thr)%Q) pairs.

Definition has_tokens (doc : string) : bool :=
  match tokenize doc with
  | Some (_ :: _) => true
  | _ => false
  end.

Definition tokens_of (doc : string) : list string :=
  match tokenize doc with
  | Some toks => toks
  | None => []
  end.

(** The documents of a corpus that survive tokenization. *)
Definition kept_documents (corpus : Corpus) : Corpus := filter has_tokens corpus.

(** [cluster], at position [j], is the first of the clusters with a centroid
    whose centroid is at minimum distance from [query_vector]. *)
Definition nearest_cluster (query_vector : Vector) (clusters : list ClusterDTO.t)
    (j : Z) (cluster : ClusterDTO.t) : Prop :=
  0 <= j
  /\ nth_error clusters (Z.to_nat j) = Some cluster
  /\ ClusterDTO.get_centroid cluster <> []
  /\ exists dj,
       calculate_distance query_vector (ClusterDTO.get_centroid cluster) = Some dj
       /\ forall j' cluster' d',
            nth_error clusters j' = Some cluster' ->
            ClusterDTO.get_centroid cluster' <> [] ->
            calculate_distance query_vector (ClusterDTO.get_centroid cluster') = Some d' ->
            (dj <= d')%Q /\ ((d' == dj)%Q -> j <= Z.of_nat j').

(** [cluster], at position [j], is the cluster whose members [infer] looks
    up: the nearest one, or cluster 0 when no cluster has a centroid. *)
Definition selected_cluster (query_vector : Vector) (clusters : list ClusterDTO.t)
    (j : Z) (cluster : ClusterDTO.t) : Prop :=
  py_index clusters j = Ok cluster
  /\ (nearest_cluster query_vector clusters j cluster
      \/ (j = 0 /\ forall c, In c clusters -> ClusterDTO.get_centroid c = [])).

(** The cluster restriction of [infer] at one call: every index it returns
    is a member of the nearest cluster. *)
Definition restricted_to_nearest_cluster (self : KMeans.t) (query_vector : Vector)
    (n_neighbours : Z) : Prop :=
  forall res j cluster,
    KMeans.infer self query_vector n_neighbours = Ok res ->
    nearest_cluster query_vector (KMeans.__clusters self) j cluster ->
    forall d i, In (d, i) res -> In i (ClusterDTO.get_indices cluster).

(** Numerically equal centroids are at equal distances. *)
Definition distance_respects_equality : Prop :=
  forall v c c' d,
    vec_eqb c c' = true -> calculate_distance v c' = Some d ->
    exists d', calculate_distance v c = Some d' /\ (d' == d)%Q.

(** [k] is the lowest position of a centroid at minimum distance from [v]. *)
Definition nearest_centroid (centroids : list Vector) (v : Vector) (k : Z) : Prop :=
  0 <= k
  /\ exists c dk,
       nth_error centroids (Z.to_nat k) = Some c
       /\ calculate_distance v c = Some dk
       /\ forall j cj dj,
            nth_error centroids j = Some cj -> calculate_distance v cj = Some dj ->
            (dk <= dj)%Q /\ ((dj == dk)%Q -> k <= Z.of_nat j).

(** What the assignment loop maintains: the members of the clusters are
    exactly the positions of the vectors processed so far, each in the
    cluster of its closest centroid. *)
Definition assigned (centroids : list Vector) (vectors processed : list (Z * Vector))
    (clusters : list ClusterDTO.t) : Prop :=
  (forall vector, In vector processed ->
     exists k position cluster,
       KMeans.closest_centroid_of centroids vector = Ok k
       /\ list_index KMeans.pair_eqb vector vectors = Ok position
       /\ nth_error clusters (Z.to_nat k) = Some cluster
       /\ In position (ClusterDTO.get_indices cluster))
  /\ (forall n cluster position,
        nth_error clusters n = Some cluster ->
        In position (ClusterDTO.get_indices cluster) ->
        exists vector,
          In vector processed
          /\ list_index KMeans.pair_eqb vector vectors = Ok position
          /\ KMeans.closest_centroid_of centroids vector = Ok (Z.of_nat n)).

(** The vectorizer of the database after [put_corpus] has set the kept
    token lists and rebuilt it. *)
Definition fitted_vectorizer (self : DocumentVectorDB.t) (corpus : Corpus)
  : result BM25Vectorizer.t :=
  vectorizer <-
    BM25Vectorizer.set_tokenized_corpus (DocumentVectorDB._vectorizer self)
      (map tokens_of (kept_documents corpus)) ;;
  Ok (build vectorizer).

(** Every vector is within 1e-07 of itself. *)
Definition self_distance_small : Prop :=
  forall v, exists d, calculate_distance v v = Some d /\ (d <= 1 # 10000000)%Q.

End Vocabulary.

(** * Properties *)

(** ** The error monad and the sequence helpers *)

Lemma bind_ok {A B} (m : result A) (k : A -> result B) (b : B) :
  bind m k = Ok b -> exists a, m = Ok a /\ k a = Ok b.
Proof. destruct m as [a|e]; simpl; [eauto | discriminate]. Qed.

(** Splits a hypothesis [bind m k = Ok b] into its two steps. *)
Ltac bind_inv H :=
  let a := fresh "a" in
  let Ha := fresh "Hstep" in
  apply bind_ok in H; destruct H as (a & Ha & H).

(** A loop returns the accumulator it is left with, or raises the exception
    that ended it. *)
Lemma foldM_state_outcome {A B} (f : A -> B -> result A) xs : forall acc,
  foldM f xs acc = outcome_of (foldM_state f xs acc).
Proof.
  induction xs as [|x xs IH]; intros acc; simpl; [reflexivity|].
  destruct (f acc x) as [acc'|e]; simpl; [apply IH | reflexivity].
Qed.

Lemma update_each_outcome {A} (f : A -> result A) xs :
  mapM f xs = outcome_of (update_each f xs).
Proof.
  induction xs as [|x xs IH]; simpl; [reflexivity|].
  destruct (f x) as [x'|e]; simpl; [|reflexivity].
  rewrite IH. destruct (update_each f xs) as [ys [e|]]; reflexivity.
Qed.

Lemma mapM_ok_length {A B} (f : A -> result B) xs ys :
  mapM f xs = Ok ys -> List.length ys = List.length xs.
Proof.
  revert ys; induction xs as [|x xs IH]; simpl; intros ys Hm.
  - now inversion Hm.
  - bind_inv Hm. bind_inv Hm. inversion Hm; subst; simpl. f_equal; eauto.
Qed.

Lemma mapM_ok_Forall2 {A B} (f : A -> result B) xs ys :
  mapM f xs = Ok ys <-> Forall2 (fun x y => f x = Ok y) xs ys.
Proof.
  split.
  - revert ys; induction xs as [|x xs IH]; simpl; intros ys Hm.
    + inversion Hm; constructor.
    + bind_inv Hm. bind_inv Hm. inversion Hm; subst. constructor; auto.
  - induction 1 as [|x y xs ys Hxy _ IH]; simpl; [reflexivity|].
    now rewrite Hxy, IH.
Qed.

Lemma mapM_total {A B} (f : A -> result B) (g : A -> B) xs :
  (forall x, In x xs -> f x = Ok (g x)) -> mapM f xs = Ok (map g xs).
Proof.
  induction xs as [|x xs IH]; simpl; intros Hfg; [reflexivity|].
  rewrite Hfg by auto. simpl. rewrite IH by auto. reflexivity.
Qed.

Lemma in_Z_iff x l : in_Z x l = true <-> In x l.
Proof.
  unfold in_Z. rewrite existsb_exists. split.
  - intros (y & Hy & Heq). apply Z.eqb_eq in Heq. now subst.
  - intros Hin. exists x. split; [assumption | apply Z.eqb_refl].
Qed.

Lemma in_Z_false_iff x l : in_Z x l = false <-> ~ In x l.
Proof.
  rewrite <- in_Z_iff. destruct (in_Z x l); split; intros; congruence.
Qed.

Lemma py_index_ok {A} (l : list A) i x :
  py_index l i = Ok x ->
  nth_error l (Z.to_nat (if i <? 0 then i + len l else i)) = Some x.
Proof.
  unfold py_index, len. destruct (_ || _); [discriminate|].
  destruct (nth_error _ _) eqn:E; intros Hx; inversion Hx; subst; auto.
Qed.

Lemma py_index_nonneg {A} (l : list A) i x :
  0 <= i -> nth_error l (Z.to_nat i) = Some x -> py_index l i = Ok x.
Proof.
  intros Hi Hn. unfold py_index.
  assert (Hlt : (Z.to_nat i < List.length l)%nat)
    by (apply nth_error_Some; congruence).
  destruct (i <? 0) eqn:E; [apply Z.ltb_lt in E; lia|]. rewrite E.
  replace (Z.of_nat (List.length l) <=? i) with false
    by (symmetry; apply Z.leb_gt; lia).
  simpl. now rewrite Hn.
Qed.

Lemma py_index_nonneg_inv {A} (l : list A) i x :
  0 <= i -> py_index l i = Ok x -> nth_error l (Z.to_nat i) = Some x.
Proof.
  intros Hi Hx. apply py_index_ok in Hx.
  destruct (i <? 0) eqn:E; [apply Z.ltb_lt in E; lia | assumption].
Qed.

(** ** DocumentVectorDB: the accessors *)

Section Accessors.

Lemma unique_indices_snoc l x :
  DocumentVectorDB.unique_indices (l ++ [x]) =
  if in_Z x (DocumentVectorDB.unique_indices l)
  then DocumentVectorDB.unique_indices l
  else DocumentVectorDB.unique_indices l ++ [x].
Proof. unfold DocumentVectorDB.unique_indices. now rewrite fold_left_app. Qed.

Lemma unique_indices_first_occurrences l :
  DocumentVectorDB.unique_indices l = first_occurrences l.
Proof.
  unfold first_occurrences.
  induction l as [|x l IH] using rev_ind; [reflexivity|].
  rewrite unique_indices_snoc, rev_app_distr. simpl.
  rewrite IH. destruct (in_dec Z.eq_dec x (rev l)) as [Hin|Hnin].
  - replace (in_Z x (rev (nodup Z.eq_dec (rev l)))) with true; [reflexivity|].
    symmetry. apply in_Z_iff. rewrite <- in_rev. now apply nodup_In.
  - replace (in_Z x (rev (nodup Z.eq_dec (rev l)))) with false; [reflexivity|].
    symmetry. apply in_Z_false_iff. rewrite <- in_rev. now rewrite nodup_In.
Qed.

Lemma first_occurrences_NoDup l : NoDup (first_occurrences l).
Proof. unfold first_occurrences. apply NoDup_rev, NoDup_nodup. Qed.

Lemma first_occurrences_In l x : In x (first_occurrences l) <-> In x l.
Proof.
  unfold first_occurrences. now rewrite <- in_rev, nodup_In, <- in_rev.
Qed.

Lemma unique_indices_NoDup_id l :
  NoDup l -> DocumentVectorDB.unique_indices l = l.
Proof.
  induction l as [|x l IH] using rev_ind; intros Hnd; [reflexivity|].
  rewrite unique_indices_snoc.
  apply NoDup_remove in Hnd. rewrite app_nil_r in Hnd. destruct Hnd as [Hnd Hx].
  rewrite IH by assumption.
  replace (in_Z x l) with false; [reflexivity|].
  symmetry. now apply in_Z_false_iff.
Qed.

(** C8. [get_raw_documents] reads the database and assigns nothing, so it is
    a function of the database and the filter, and a second call with the
    same filter returns what the first one did.  Without a filter it returns
    the whole document list.  With a non-empty filter it returns the
    documents at the indices of the filter in the order of their first
    occurrence, each index once; the repetitions are dropped once: the filter
    without them selects the same documents, and nothing is re-sorted. *)
Theorem get_raw_documents_first_occurrence_order
    (db : DocumentVectorDB.t) (ind : Z) (indices : list Z) :
  DocumentVectorDB.get_raw_documents db None = Ok (DocumentVectorDB.__documents db)
  /\ DocumentVectorDB.get_raw_documents db (Some (ind :: indices)) =
     mapM (py_index (DocumentVectorDB.__documents db))
          (first_occurrences (ind :: indices))
  /\ DocumentVectorDB.get_raw_documents db (Some (first_occurrences (ind :: indices))) =
     DocumentVectorDB.get_raw_documents db (Some (ind :: indices))
  /\ NoDup (first_occurrences (ind :: indices))
  /\ (forall i, In i (first_occurrences (ind :: indices)) <-> In i (ind :: indices))
  /\ (forall prefix suffix, ind :: indices = prefix ++ suffix ->
        exists rest, first_occurrences (ind :: indices) =
                     first_occurrences prefix ++ rest).
Proof.
  repeat split.
  - unfold DocumentVectorDB.get_raw_documents.
    now rewrite unique_indices_first_occurrences.
  - assert (Hne : first_occurrences (ind :: indices) <> []).
    { intros Hnil. assert (Hin : In ind (first_occurrences (ind :: indices)))
        by (apply first_occurrences_In; now left).
      rewrite Hnil in Hin. destruct Hin. }
    unfold DocumentVectorDB.get_raw_documents at 1.
    destruct (first_occurrences (ind :: indices)) as [|i0 rest0] eqn:E;
      [congruence|].
    rewrite <- E.
    rewrite (unique_indices_NoDup_id (first_occurrences (ind :: indices)))
      by apply first_occurrences_NoDup.
    unfold DocumentVectorDB.get_raw_documents.
    now rewrite unique_indices_first_occurrences.
  - apply first_occurrences_NoDup.
  - apply first_occurrences_In.
  - apply first_occurrences_In.
  - intros prefix suffix Hsplit. rewrite Hsplit.
    rewrite <- !unique_indices_first_occurrences.
    clear Hsplit. induction suffix as [|x suffix IH] using rev_ind.
    + exists []. now rewrite !app_nil_r.
    + destruct IH as [rest IH]. rewrite app_assoc, unique_indices_snoc, IH.
      destruct (in_Z x _).
      * now exists rest.
      * exists (rest ++ [x]). now rewrite app_assoc.
Qed.

(** C10. An empty filter selects everything: [get_vectors] with an empty
    index list returns the complete list of (index, vector) pairs, as it
    does without a filter, and [get_raw_documents] with an empty tuple
    returns the whole document list. *)
Theorem empty_filter_selects_everything (db : DocumentVectorDB.t) :
  DocumentVectorDB.get_vectors db (Some []) = DocumentVectorDB.get_vectors db None
  /\ DocumentVectorDB.get_vectors db (Some []) = DocumentVectorDB.__vectors db
  /\ DocumentVectorDB.get_raw_documents db (Some []) =
     DocumentVectorDB.get_raw_documents db None
  /\ DocumentVectorDB.get_raw_documents db (Some []) =
     Ok (DocumentVectorDB.__documents db).
Proof. repeat split. Qed.

End Accessors.

(** ** ClusteringSearchEngine: rejected input *)

Section RejectedInput.
Context `{Collaborators}.

Lemma invalid_arguments_unchecked query n_neighbours :
  invalid_arguments query n_neighbours ->
  ClusteringSearchEngine.checked_query query = None
  \/ ClusteringSearchEngine.checked_count n_neighbours = None.
Proof.
  intros [Hns | [He | (z & Hz & Hle)]].
  - left. destruct query as [| | | |s]; try reflexivity.
    exfalso. now apply (Hns s).
  - left. now subst.
  - right. subst. simpl. now apply Z.leb_le in Hle as ->.
Qed.

Lemma prepare_query_invalid self query n_neighbours :
  invalid_arguments query n_neighbours ->
  ClusteringSearchEngine.prepare_query self query n_neighbours =
  Raise (ValueError "Invalid Input argument(s)").
Proof.
  intros Hinv. apply invalid_arguments_unchecked in Hinv.
  unfold ClusteringSearchEngine.prepare_query.
  destruct Hinv as [-> | Hn]; [reflexivity|].
  rewrite Hn. now destruct (ClusteringSearchEngine.checked_query query).
Qed.

Lemma prepare_query_empty self query n_neighbours :
  empty_query_vector self query ->
  exists msg,
    ClusteringSearchEngine.prepare_query self query n_neighbours =
    Raise (ValueError msg).
Proof.
  intros (s & -> & Hempty).
  unfold ClusteringSearchEngine.prepare_query.
  destruct s as [|c s]; [simpl; now eauto|].
  simpl ClusteringSearchEngine.checked_query.
  destruct (ClusteringSearchEngine.checked_count n_neighbours); [|now eauto].
  destruct Hempty as [-> | [-> | (toks & -> & Hv)]]; [now eauto | now eauto |].
  destruct toks as [|tok toks]; [now eauto|].
  unfold BM25Vectorizer.vectorize. rewrite Hv. simpl. eauto.
Qed.

(** C9. [retrieve_relevant_documents] raises a [ValueError] and returns
    nothing for a query that is not a string or is empty, for a count
    [n <= 0], and for a query whose tokens or whose vector come out empty;
    for the first three the error is the input error of the argument check.
    The training is not reached, whatever the fuel. *)
Theorem retrieve_rejects_bad_input
    (fuel : nat) (self : ClusteringSearchEngine.t) (query n_neighbours : PyVal) :
  invalid_arguments query n_neighbours \/ empty_query_vector self query ->
  (exists msg,
     ClusteringSearchEngine.retrieve_relevant_documents fuel self query n_neighbours
     = Some (Raise (ValueError msg)))
  /\ (invalid_arguments query n_neighbours ->
      ClusteringSearchEngine.retrieve_relevant_documents fuel self query n_neighbours
      = Some (Raise (ValueError "Invalid Input argument(s)"))).
Proof.
  intros Hbad. split.
  - unfold ClusteringSearchEngine.retrieve_relevant_documents.
    destruct Hbad as [Hinv | Hempty].
    + rewrite (prepare_query_invalid self _ _ Hinv). eauto.
    + destruct (prepare_query_empty self query n_neighbours Hempty) as [msg ->].
      eauto.
  - intros Hinv. unfold ClusteringSearchEngine.retrieve_relevant_documents.
    now rewrite (prepare_query_invalid self _ _ Hinv).
Qed.

End RejectedInput.

(** ** KMeans: the convergence check *)

Section Convergence.
Context `{Collaborators}.

Lemma compare_centroids_true thr pairs :
  KMeans.compare_centroids thr pairs = Ok true <-> centroids_within thr pairs.
Proof.
  unfold centroids_within. induction pairs as [|[old new] rest IH]; simpl.
  - split; [constructor | reflexivity].
  - destruct (calculate_distance old new) as [d|] eqn:Hd.
    + destruct (Qle_bool d thr) eqn:Hle; simpl.
      * rewrite IH. split.
        -- intros Hrest. constructor; [|assumption].
           exists d. split; [assumption | now apply Qle_bool_iff].
        -- intros Hall. now inversion Hall.
      * split; [discriminate|]. intros Hall. inversion Hall as [|? ? (d' & Hd' & Hle') _].
        simpl in Hd'. rewrite Hd in Hd'. inversion Hd'; subst.
        apply Qle_bool_iff in Hle'. congruence.
    + split; [discriminate|]. intros Hall. inversion Hall as [|? ? (d' & Hd' & _) _].
      simpl in Hd'. congruence.
Qed.

(** C4. The convergence check returns [True] exactly when the threshold is
    valid, the new cluster list is not empty and, cluster by cluster in list
    order, the distance between the old and the new centroid is at most the
    threshold; it raises the input error for an empty new cluster list and
    for an invalid threshold; the default threshold is 1e-07. *)
Theorem convergence_check_spec
    (self : KMeans.t) (new_clusters : list ClusterDTO.t) (threshold : PyVal) :
  (KMeans._is_convergence_reached self new_clusters threshold = Ok true <->
   exists thr, threshold = PyFloat thr /\ ~ (thr == 0)%Q /\ new_clusters <> [] /\
     centroids_within thr
       (combine (map ClusterDTO.get_centroid (KMeans.__clusters self))
                (map ClusterDTO.get_centroid new_clusters)))
  /\ (new_clusters = [] ->
      KMeans._is_convergence_reached self new_clusters threshold =
      Raise (ValueError "Invalid input argument(s)"))
  /\ (~ valid_threshold threshold ->
      KMeans._is_convergence_reached self new_clusters threshold =
      Raise (ValueError "Invalid input argument(s)"))
  /\ KMeans.default_threshold = PyFloat (1 # 10000000).
Proof.
  repeat split.
  - unfold KMeans._is_convergence_reached.
    destruct threshold as [| | |thr|]; try discriminate.
    destruct new_clusters as [|c cs]; [discriminate|]. simpl is_empty. simpl orb.
    destruct (Qeq_bool thr 0) eqn:Hz; [discriminate|].
    intros Hc. exists thr. repeat split.
    + intros Heq. apply Qeq_bool_iff in Heq. congruence.
    + discriminate.
    + now apply compare_centroids_true.
  - intros (thr & -> & Hnz & Hne & Hall).
    unfold KMeans._is_convergence_reached.
    destruct new_clusters as [|c cs]; [congruence|]. simpl is_empty. simpl orb.
    destruct (Qeq_bool thr 0) eqn:Hz; [apply Qeq_bool_iff in Hz; contradiction|].
    now apply compare_centroids_true.
  - intros ->. unfold KMeans._is_convergence_reached.
    now destruct threshold.
  - intros Hinv. unfold KMeans._is_convergence_reached.
    destruct threshold as [| | |thr|]; try reflexivity.
    destruct (Qeq_bool thr 0) eqn:Hz.
    + now rewrite orb_true_r.
    + exfalso. apply Hinv. exists thr. split; [reflexivity|].
      intros Heq. apply Qeq_bool_iff in Heq. congruence.
Qed.

End Convergence.

(** ** DocumentVectorDB: ingestion *)

Lemma In_enumerate_from {A} (l : list A) k i x :
  In (i, x) (enumerate_from k l) <->
  k <= i /\ nth_error l (Z.to_nat (i - k)) = Some x.
Proof.
  revert k; induction l as [|y l IH]; intros k; simpl.
  - split; [tauto|]. intros [_ Hn]. now destruct (Z.to_nat (i - k)).
  - rewrite IH. split.
    + intros [Heq | [Hle Hn]].
      * inversion Heq; subst. split; [lia|]. now rewrite Z.sub_diag.
      * split; [lia|]. replace (Z.to_nat (i - k)) with (S (Z.to_nat (i - (k + 1)))) by lia.
        assumption.
    + intros [Hle Hn]. destruct (Z.eq_dec i k) as [->|Hne].
      * left. rewrite Z.sub_diag in Hn. simpl in Hn. congruence.
      * right. split; [lia|].
        replace (Z.to_nat (i - k)) with (S (Z.to_nat (i - (k + 1)))) in Hn by lia.
        assumption.
Qed.

Lemma enumerate_from_length {A} (l : list A) k :
  List.length (enumerate_from k l) = List.length l.
Proof. revert k; induction l; simpl; intros; [reflexivity | now rewrite IHl]. Qed.

Lemma enumerate_from_snd {A} (l : list A) k : map snd (enumerate_from k l) = l.
Proof. revert k; induction l; simpl; intros; [reflexivity | now rewrite IHl]. Qed.

Lemma Forall2_nth_error_r {A B} (R : A -> B -> Prop) xs ys n y :
  Forall2 R xs ys -> nth_error ys n = Some y ->
  exists x, nth_error xs n = Some x /\ R x y.
Proof.
  intros Hall; revert n; induction Hall as [|x0 y0 xs ys HR _ IH]; intros n Hn.
  - now destruct n.
  - destruct n as [|n]; simpl in *.
    + inversion Hn; subst. eauto.
    + eauto.
Qed.

Lemma Forall2_nth_error_l {A B} (R : A -> B -> Prop) xs ys n x :
  Forall2 R xs ys -> nth_error xs n = Some x ->
  exists y, nth_error ys n = Some y /\ R x y.
Proof.
  intros Hall; revert n; induction Hall as [|x0 y0 xs ys HR _ IH]; intros n Hn.
  - now destruct n.
  - destruct n as [|n]; simpl in *.
    + inversion Hn; subst. eauto.
    + eauto.
Qed.

Section Ingestion.
Context `{Collaborators}.

Lemma tokenize_corpus_spec corpus documents tokenized_docs :
  DocumentVectorDB.tokenize_corpus corpus documents tokenized_docs =
  (documents ++ kept_documents corpus,
   tokenized_docs ++ map tokens_of (kept_documents corpus)).
Proof.
  revert documents tokenized_docs.
  induction corpus as [|doc rest IH]; intros documents tokenized_docs; simpl.
  - now rewrite !app_nil_r.
  - unfold has_tokens, tokens_of.
    destruct (tokenize doc) as [[|tok toks]|] eqn:Htok; rewrite IH; simpl.
    + reflexivity.
    + unfold tokens_of at 1. rewrite Htok. now rewrite <- !app_assoc.
    + reflexivity.
Qed.

Lemma vectorize_ok_nonempty vectorizer doc v :
  BM25Vectorizer.vectorize vectorizer doc = Ok v -> is_empty v = false.
Proof.
  unfold BM25Vectorizer.vectorize. destruct (is_empty doc); [discriminate|].
  intros Hv. bind_inv Hv. destruct (is_empty a) eqn:E; [discriminate|].
  now inversion Hv; subst.
Qed.

Lemma vectorize_all_from vectorizer tokenized_docs k acc vectors :
  foldM (fun vectors '(ind, doc) =>
           vector <- BM25Vectorizer.vectorize vectorizer doc ;;
           Ok (if is_empty vector then vectors else vectors ++ [(ind, vector)]))
        (enumerate_from k tokenized_docs) acc = Ok vectors ->
  exists vs, vectors = acc ++ enumerate_from k vs
             /\ Forall2 (fun doc v => BM25Vectorizer.vectorize vectorizer doc = Ok v)
                        tokenized_docs vs.
Proof.
  revert k acc; induction tokenized_docs as [|doc rest IH]; intros k acc; simpl.
  - intros Hv. inversion Hv; subst. exists []. simpl. now rewrite app_nil_r.
  - intros Hv. bind_inv Hv. bind_inv Hstep. inversion Hstep; subst a; clear Hstep.
    rewrite (vectorize_ok_nonempty _ _ _ Hstep0) in Hv.
    apply IH in Hv. destruct Hv as (vs & -> & Hall).
    exists (a0 :: vs). simpl. rewrite <- app_assoc. split; [reflexivity|].
    now constructor.
Qed.

Lemma put_corpus_ok self corpus self' :
  DocumentVectorDB.put_corpus self corpus = Ok self' ->
  exists vs,
    DocumentVectorDB.__vectors self' = enumerate vs
    /\ DocumentVectorDB.__documents self' =
       DocumentVectorDB.__documents self ++ kept_documents corpus
    /\ Forall2 (fun doc v =>
                  BM25Vectorizer.vectorize (DocumentVectorDB._vectorizer self') doc = Ok v)
               (map tokens_of (kept_documents corpus)) vs.
Proof.
  unfold DocumentVectorDB.put_corpus. destruct (is_empty corpus); [discriminate|].
  rewrite tokenize_corpus_spec. simpl app.
  destruct (is_empty _); [discriminate|].
  intros Hput. bind_inv Hput. bind_inv Hput. inversion Hput; subst; clear Hput.
  simpl. unfold DocumentVectorDB.vectorize_all, enumerate in Hstep0.
  apply vectorize_all_from in Hstep0. destruct Hstep0 as (vs & -> & Hall).
  exists vs. auto.
Qed.

(** Every ingestion leaves the keys of the vector mapping dense. *)
Lemma put_corpus_dense_keys self corpus self' :
  DocumentVectorDB.put_corpus self corpus = Ok self' ->
  dense_keys (DocumentVectorDB.__vectors self').
Proof.
  intros Hput. apply put_corpus_ok in Hput. destruct Hput as (vs & -> & _).
  unfold dense_keys, enumerate. now rewrite enumerate_from_snd.
Qed.

(** C7. After a successful [put_corpus], there are at most as many stored
    vectors as documents kept after tokenization, and every key of the vector
    mapping is the position of a document in the document list, a kept one
    when the documents held before were kept ones.  In a database that held
    no documents before, that document is the kept document of the same
    position in the corpus, and the stored vector is the vector of its
    tokens. *)
Theorem put_corpus_index_alignment
    (self : DocumentVectorDB.t) (corpus : Corpus) (self' : DocumentVectorDB.t) :
  DocumentVectorDB.put_corpus self corpus = Ok self' ->
  (List.length (DocumentVectorDB.__vectors self')
     <= List.length (kept_documents corpus))%nat
  /\ DocumentVectorDB.__documents self' =
     DocumentVectorDB.__documents self ++ kept_documents corpus
  /\ forall i v, In (i, v) (DocumentVectorDB.__vectors self') ->
       0 <= i < len (kept_documents corpus)
       /\ (exists doc,
             py_index (DocumentVectorDB.__documents self') i = Ok doc
             /\ (Forall (fun old => has_tokens old = true)
                        (DocumentVectorDB.__documents self) ->
                 has_tokens doc = true))
       /\ (DocumentVectorDB.__documents self = [] ->
           exists doc toks,
             py_index (DocumentVectorDB.__documents self') i = Ok doc
             /\ nth_error (kept_documents corpus) (Z.to_nat i) = Some doc
             /\ tokenize doc = Some toks
             /\ BM25Vectorizer.vectorize (DocumentVectorDB._vectorizer self') toks = Ok v).
Proof.
  intros Hput. apply put_corpus_ok in Hput.
  destruct Hput as (vs & Hvec & Hdocs & Hall).
  assert (Hlen : List.length vs = List.length (kept_documents corpus)).
  { apply Forall2_length in Hall. now rewrite length_map in Hall. }
  split; [|split; [assumption|]].
  - rewrite Hvec. unfold enumerate. rewrite enumerate_from_length. lia.
  - intros i v Hin. rewrite Hvec in Hin. apply In_enumerate_from in Hin.
    destruct Hin as [Hi Hn]. rewrite Z.sub_0_r in Hn.
    assert (Hlt : (Z.to_nat i < List.length vs)%nat)
      by (apply nth_error_Some; congruence).
    destruct (Forall2_nth_error_r _ _ _ _ _ Hall Hn) as (toks & Htoks & Hv).
    destruct (nth_error (kept_documents corpus) (Z.to_nat i)) as [doc|] eqn:Hdoc;
      [|apply nth_error_None in Hdoc; lia].
    split; [unfold len; lia|]. split.
    + destruct (nth_error (DocumentVectorDB.__documents self') (Z.to_nat i))
        as [doc'|] eqn:Hdoc'.
      * exists doc'. split; [now apply py_index_nonneg|].
        intros Hold. apply nth_error_In in Hdoc'. rewrite Hdocs in Hdoc'.
        apply in_app_or in Hdoc'. destruct Hdoc' as [Hin | Hin].
        -- now apply (proj1 (Forall_forall _ _) Hold).
        -- unfold kept_documents in Hin. now apply filter_In in Hin.
      * apply nth_error_None in Hdoc'. rewrite Hdocs, length_app in Hdoc'. lia.
    + intros Hfresh. rewrite Hfresh in Hdocs. simpl in Hdocs.
      exists doc, toks. rewrite Hdocs. split; [now apply py_index_nonneg|].
      split; [reflexivity|]. split; [|assumption].
      rewrite (map_nth_error tokens_of _ _ Hdoc) in Htoks.
      inversion Htoks as [Htok].
      assert (Hkept : has_tokens doc = true).
      { apply nth_error_In in Hdoc. unfold kept_documents in Hdoc.
        now apply filter_In in Hdoc. }
      unfold has_tokens in Hkept. unfold tokens_of.
      now destruct (tokenize doc) as [[|tok rest]|].
Qed.

End Ingestion.

(** ** Minimum and sorting of scored pairs *)

Lemma In_firstn {A} (x : A) n l : In x (firstn n l) -> In x l.
Proof.
  revert n; induction l as [|y t IH]; intros n; [now rewrite firstn_nil|].
  destruct n as [|n]; simpl; [tauto|]. intros [-> | Hin]; eauto.
Qed.

Lemma NoDup_firstn {A} n (l : list A) : NoDup l -> NoDup (firstn n l).
Proof.
  intros Hnd; revert n; induction Hnd as [|x t Hx Hnd IH]; intros n.
  - rewrite firstn_nil. constructor.
  - destruct n as [|n]; simpl; constructor; [|apply IH].
    intros Hin. apply Hx. eapply In_firstn; eassumption.
Qed.

Section ScoredPairs.

Lemma pair_ltb_false a b : pair_ltb a b = false <-> pair_le b a.
Proof.
  unfold pair_ltb, pair_le. destruct (Qeq_bool (fst a) (fst b)) eqn:Heq.
  - apply Qeq_bool_iff in Heq. rewrite Z.ltb_ge. split.
    + intros Hle. right. split; [now symmetry | assumption].
    + intros [Hlt | [_ Hle]]; [lra | assumption].
  - apply Qeq_bool_neq in Heq. rewrite negb_false_iff, Qle_bool_iff. split.
    + intros Hle. left. apply Qle_lteq in Hle. destruct Hle as [Hlt|He]; [assumption|].
      exfalso. apply Heq. now symmetry.
    + intros [Hlt | [He _]]; [lra|]. exfalso. apply Heq. now symmetry.
Qed.

Lemma pair_ltb_true a b : pair_ltb a b = true -> pair_le a b.
Proof.
  unfold pair_ltb, pair_le. destruct (Qeq_bool (fst a) (fst b)) eqn:Heq.
  - apply Qeq_bool_iff in Heq. rewrite Z.ltb_lt. intros Hlt. right. split; [assumption | lia].
  - rewrite negb_true_iff. intros Hle. left.
    apply Qnot_le_lt. intros Hle'. apply Qle_bool_iff in Hle'. congruence.
Qed.

Lemma pair_le_trans a b c : pair_le a b -> pair_le b c -> pair_le a c.
Proof.
  unfold pair_le. intros [Hab | [Hab Hab']] [Hbc | [Hbc Hbc']].
  - left; lra.
  - left; lra.
  - left; lra.
  - right. split; [lra | lia].
Qed.

Lemma min_from_spec l : forall best,
  (min_from best l = best \/ In (min_from best l) l)
  /\ pair_le (min_from best l) best
  /\ forall x, In x l -> pair_le (min_from best l) x.
Proof.
  induction l as [|x t IH]; intros best; simpl.
  - split; [now left|]. split; [|tauto]. right. split; [reflexivity | lia].
  - destruct (pair_ltb x best) eqn:Hlt.
    + destruct (IH x) as (Hin & Hle & Hall). split; [|split].
      * destruct Hin as [-> | Hin]; auto.
      * eapply pair_le_trans; [exact Hle | now apply pair_ltb_true].
      * intros y [<- | Hy]; auto.
    + destruct (IH best) as (Hin & Hle & Hall). split; [|split].
      * destruct Hin as [-> | Hin]; auto.
      * assumption.
      * intros y [<- | Hy]; auto.
        eapply pair_le_trans; [exact Hle | now apply pair_ltb_false].
Qed.

Lemma py_min_spec l m :
  py_min l = Ok m -> In m l /\ forall x, In x l -> pair_le m x.
Proof.
  destruct l as [|x t]; simpl; [discriminate|]. intros Hm. inversion Hm; subst.
  destruct (min_from_spec t x) as (Hin & Hle & Hall). split.
  - destruct Hin as [-> | Hin]; auto.
  - intros y [<- | Hy]; auto.
Qed.

Context {B : Type}.

Lemma insert_by_key_perm (x : Q * B) l : Permutation (insert_by_key x l) (x :: l).
Proof.
  induction l as [|y t IH]; simpl; [reflexivity|].
  destruct (Qle_bool (fst x) (fst y)); [reflexivity|].
  rewrite IH. apply perm_swap.
Qed.

Lemma sorted_by_key_perm (l : list (Q * B)) : Permutation (sorted_by_key l) l.
Proof.
  induction l as [|x t IH]; simpl; [reflexivity|].
  rewrite insert_by_key_perm. now constructor.
Qed.

Lemma insert_by_key_sorted (x : Q * B) l :
  StronglySorted key_le l -> StronglySorted key_le (insert_by_key x l).
Proof.
  induction 1 as [|y t Hs IH Hy]; simpl.
  - constructor; constructor.
  - destruct (Qle_bool (fst x) (fst y)) eqn:Hle.
    + apply Qle_bool_iff in Hle. constructor; [now constructor|].
      constructor; [exact Hle|].
      eapply Forall_impl; [|exact Hy]. unfold key_le. intros z Hz. lra.
    + constructor; [assumption|].
      eapply Permutation_Forall; [symmetry; apply insert_by_key_perm|].
      constructor; [|assumption]. unfold key_le.
      apply Qlt_le_weak, Qnot_le_lt. intros Hle'. apply Qle_bool_iff in Hle'. congruence.
Qed.

Lemma sorted_by_key_sorted (l : list (Q * B)) : StronglySorted key_le (sorted_by_key l).
Proof.
  induction l as [|x t IH]; simpl; [constructor | now apply insert_by_key_sorted].
Qed.

Lemma StronglySorted_firstn {A} (R : A -> A -> Prop) n l :
  StronglySorted R l -> StronglySorted R (firstn n l).
Proof.
  intros Hs; revert n; induction Hs as [|x t Hs IH Hx]; intros n.
  - rewrite firstn_nil. constructor.
  - destruct n as [|n]; simpl; constructor; [apply IH|].
    apply Forall_forall. intros y Hy. apply In_firstn in Hy.
    now apply (proj1 (Forall_forall _ _) Hx).
Qed.

Lemma StronglySorted_scores (l : list (Q * B)) :
  StronglySorted key_le l -> StronglySorted Qle (map fst l).
Proof.
  induction 1 as [|x t Hs IH Hx]; simpl; constructor; [assumption|].
  apply Forall_map. exact Hx.
Qed.

End ScoredPairs.

(** ** KMeans: what a training leaves behind *)

Lemma is_empty_false {A} (l : list A) : is_empty l = false <-> l <> [].
Proof. destruct l; simpl; split; congruence. Qed.

Lemma set_nth_length {A} (l : list A) n x :
  List.length (set_nth l n x) = List.length l.
Proof.
  revert n; induction l as [|y t IH]; intros n; [reflexivity|].
  destruct n; simpl; [reflexivity | now rewrite IH].
Qed.

Lemma py_setitem_length {A} (l l' : list A) i x :
  py_setitem l i x = Ok l' -> List.length l' = List.length l.
Proof.
  unfold py_setitem. destruct (_ || _); [discriminate|].
  intros Hs. inversion Hs. apply set_nth_length.
Qed.

Lemma foldM_invariant {A B} (P : A -> Prop) (f : A -> B -> result A) xs :
  (forall a x a', P a -> f a x = Ok a' -> P a') ->
  forall acc acc', P acc -> foldM f xs acc = Ok acc' -> P acc'.
Proof.
  intros Hstep. induction xs as [|x xs IH]; simpl; intros acc acc' Hacc Hf.
  - inversion Hf; now subst.
  - bind_inv Hf. eauto.
Qed.

Section Training.
Context `{Collaborators}.

Lemma update_centroid_ok vectors cluster cluster' :
  KMeans.update_centroid vectors cluster = Ok cluster' ->
  ClusterDTO.get_indices cluster' = ClusterDTO.get_indices cluster
  /\ populated cluster'.
Proof.
  unfold KMeans.update_centroid, populated. intros Hu.
  bind_inv Hu. rename a into cluster_vectors.
  bind_inv Hu. rename a into new_centroid.
  unfold ClusterDTO.set_new_centroid in Hu.
  destruct (is_empty new_centroid) eqn:Hne; [discriminate|].
  inversion Hu; subst; clear Hu. simpl. split; [reflexivity|].
  apply is_empty_false in Hne. split; [|assumption].
  apply mapM_ok_length in Hstep, Hstep0.
  intros Hnil. unfold ClusterDTO.get_indices in Hnil, Hstep.
  rewrite Hnil in Hstep. destruct cluster_vectors; [|discriminate].
  simpl in Hstep0. destruct new_centroid; [congruence | discriminate].
Qed.

(** A cluster without members is refused by the centroid update. *)
Lemma update_centroid_no_members vectors cluster :
  ClusterDTO.get_indices cluster = [] ->
  KMeans.update_centroid vectors cluster =
  Raise (ValueError "Invalid input argument").
Proof.
  unfold KMeans.update_centroid, ClusterDTO.get_indices. now intros ->.
Qed.

Lemma assign_vector_length centroids vectors clusters vector clusters' :
  KMeans.assign_vector centroids vectors clusters vector = Ok clusters' ->
  List.length clusters' = List.length clusters.
Proof.
  unfold KMeans.assign_vector. intros Ha. do 4 bind_inv Ha.
  eapply py_setitem_length; eassumption.
Qed.

Lemma run_single_train_iteration_ok self self' :
  KMeans.run_single_train_iteration self = Ok self' ->
  Forall populated (KMeans.__clusters self')
  /\ List.length (KMeans.__clusters self') = List.length (KMeans.__clusters self)
  /\ KMeans._db self' = KMeans._db self
  /\ KMeans._n_clusters self' = KMeans._n_clusters self.
Proof.
  unfold KMeans.run_single_train_iteration. intros Hr.
  bind_inv Hr. rename a into assigned. bind_inv Hr. rename a into updated.
  inversion Hr; subst; clear Hr. simpl. split; [|split; [|split; reflexivity]].
  - apply mapM_ok_Forall2 in Hstep0. clear Hstep.
    induction Hstep0 as [|c c' cs cs' Hc _ IH]; constructor; [|assumption].
    now apply update_centroid_ok in Hc.
  - apply mapM_ok_length in Hstep0. rewrite Hstep0.
    rewrite <- (length_map ClusterDTO.erase_indices (KMeans.__clusters self)).
    refine (foldM_invariant
              (fun cl => List.length cl =
                         List.length (map ClusterDTO.erase_indices (KMeans.__clusters self)))
              _ _ _ _ _ eq_refl Hstep).
    intros a x a' Ha Hx. apply assign_vector_length in Hx. congruence.
Qed.

(** The state a training returns is the state its last iteration returned. *)
Lemma train_loop_ok fuel : forall self self',
  KMeans.train_loop fuel self = Some (Ok self') ->
  exists last, KMeans.run_single_train_iteration last = Ok self'
               /\ KMeans._db last = KMeans._db self
               /\ KMeans._n_clusters last = KMeans._n_clusters self
               /\ List.length (KMeans.__clusters last) =
                  List.length (KMeans.__clusters self).
Proof.
  induction fuel as [|fuel IH]; intros self self'; cbn [KMeans.train_loop];
    [discriminate|].
  destruct (KMeans.run_single_train_iteration self) as [next|e] eqn:Hrun;
    [|discriminate].
  destruct (KMeans._is_convergence_reached next (KMeans.__clusters next)
              KMeans.default_threshold) as [[|]|e].
  3: discriminate.
  - intros Hs. inversion Hs; subst. exists self. auto.
  - intros Hs. apply IH in Hs. destruct Hs as (last & Hlast & Hdb & Hn & Hlen).
    apply run_single_train_iteration_ok in Hrun.
    destruct Hrun as (_ & Hlen' & Hdb' & Hn').
    exists last. repeat split; congruence.
Qed.

(** Every cluster of a trained state has members and a centroid: a training
    that leaves a cluster without members does not return. *)
Lemma trained_clusters_populated fuel self self' :
  KMeans.train fuel self = Some (Ok self') ->
  Forall populated (KMeans.__clusters self')
  /\ KMeans._db self' = KMeans._db self.
Proof.
  unfold KMeans.train. intros Ht. apply train_loop_ok in Ht.
  destruct Ht as (last & Hlast & Hdb & _).
  apply run_single_train_iteration_ok in Hlast.
  destruct Hlast as (Hpop & _ & Hdb' & _). split; [assumption|].
  rewrite Hdb', Hdb. reflexivity.
Qed.

(** The iteration step keeps the number of clusters; the seeding of [train]
    appends one cluster per seed vector to the clusters already there. *)
Lemma train_cluster_count fuel self self' :
  KMeans.train fuel self = Some (Ok self') ->
  List.length (KMeans.__clusters self') =
  (List.length (KMeans.__clusters self)
   + List.length (py_slice_to (DocumentVectorDB.__vectors (KMeans._db self))
                              (KMeans._n_clusters self)))%nat.
Proof.
  unfold KMeans.train. intros Ht. apply train_loop_ok in Ht.
  destruct Ht as (last & Hlast & _ & _ & Hlen).
  apply run_single_train_iteration_ok in Hlast.
  destruct Hlast as (_ & Hlen' & _). rewrite Hlen', Hlen.
  unfold KMeans.seed_clusters. simpl. now rewrite length_app, length_map.
Qed.

Lemma compare_centroids_self threshold centroids :
  (forall v, exists d, calculate_distance v v = Some d /\ (d <= threshold)%Q) ->
  KMeans.compare_centroids threshold (combine centroids centroids) = Ok true.
Proof.
  intros Hself. induction centroids as [|c cs IH]; simpl; [reflexivity|].
  destruct (Hself c) as (d & -> & Hle). apply Qle_bool_iff in Hle. now rewrite Hle.
Qed.

(** The check inside [train] reads the updated clusters on both sides.  With
    a distance that puts every vector within 1e-07 of itself, the loop
    therefore ends with its first iteration: it never runs out of fuel. *)
Lemma train_loop_first_iteration fuel self :
  (forall v, exists d, calculate_distance v v = Some d /\ (d <= 1 # 10000000)%Q) ->
  KMeans.train_loop (S fuel) self =
  match KMeans.run_single_train_iteration self with
  | Raise e => Some (Raise e)
  | Ok self' =>
      if is_empty (KMeans.__clusters self')
      then Some (Raise (ValueError "Invalid input argument(s)"))
      else Some (Ok self')
  end.
Proof.
  intros Hself. cbn [KMeans.train_loop].
  destruct (KMeans.run_single_train_iteration self) as [self'|e]; [|reflexivity].
  unfold KMeans._is_convergence_reached, KMeans.default_threshold.
  destruct (is_empty (KMeans.__clusters self')); [reflexivity|].
  cbn [orb]. replace (Qeq_bool (1 # 10000000) 0) with false by reflexivity.
  now rewrite (compare_centroids_self _ _ Hself).
Qed.

(** The object after a call and the outcome of the call belong together: a
    call returns the object it leaves, or raises what the object records. *)
Lemma run_single_train_iteration_state_outcome self :
  KMeans.run_single_train_iteration self
  = outcome_of (KMeans.run_single_train_iteration_state self).
Proof.
  unfold KMeans.run_single_train_iteration, KMeans.run_single_train_iteration_state.
  rewrite foldM_state_outcome.
  destruct (foldM_state _ _ _) as [clusters [e|]]; cbn [outcome_of bind]; [reflexivity|].
  rewrite update_each_outcome.
  destruct (update_each _ clusters) as [updated [e|]]; reflexivity.
Qed.

Lemma train_state_outcome fuel self :
  KMeans.train fuel self = option_map outcome_of (KMeans.train_state fuel self).
Proof.
  unfold KMeans.train, KMeans.train_state.
  generalize (KMeans.seed_clusters self). clear self.
  induction fuel as [|fuel IH]; intros self; [reflexivity|].
  cbn [KMeans.train_loop KMeans.train_loop_state].
  rewrite run_single_train_iteration_state_outcome.
  destruct (KMeans.run_single_train_iteration_state self) as [self' [e|]];
    cbn [outcome_of]; [reflexivity|].
  destruct (KMeans._is_convergence_reached _ _ _) as [[|]|e]; try reflexivity.
  apply IH.
Qed.

End Training.

(** ** KMeans: inference *)

Section Inference.
Context `{Collaborators}.

Lemma cent_distances_from query_vector clusters : forall k acc cent_distances,
  foldM (KMeans.add_cent_distance query_vector) (enumerate_from k clusters) acc
  = Ok cent_distances ->
  exists new,
    cent_distances = acc ++ new
    /\ (forall d i,
          In (d, i) new <->
          exists cluster,
            In (i, cluster) (enumerate_from k clusters)
            /\ ClusterDTO.get_centroid cluster <> []
            /\ calculate_distance query_vector (ClusterDTO.get_centroid cluster) = Some d)
    /\ (forall i cluster,
          In (i, cluster) (enumerate_from k clusters) ->
          ClusterDTO.get_centroid cluster <> [] ->
          exists d, In (d, i) new).
Proof.
  induction clusters as [|c rest IH]; intros k acc cent_distances; simpl.
  - intros Hf. inversion Hf; subst. exists []. rewrite app_nil_r.
    split; [reflexivity|]. split.
    + intros d i. split; [intros [] | intros (? & [] & _)].
    + intros i cluster [].
  - intros Hf. bind_inv Hf. unfold KMeans.add_cent_distance in Hstep.
    destruct (is_empty (ClusterDTO.get_centroid c)) eqn:Hce.
    + inversion Hstep; subst a; clear Hstep.
      apply IH in Hf. destruct Hf as (new & -> & Hnew & Hall).
      exists new. split; [reflexivity|].
      assert (Hc : ClusterDTO.get_centroid c = [])
        by (destruct (ClusterDTO.get_centroid c); [reflexivity | discriminate]).
      split.
      * intros d i. rewrite Hnew. split.
        -- intros (cl & Hin & Hrest). exists cl. auto.
        -- intros (cl & [Heq | Hin] & Hne & Hd); [|now exists cl].
           inversion Heq; subst. contradiction.
      * intros i cl [Heq | Hin] Hne; [|eauto].
        inversion Heq; subst. contradiction.
    + destruct (calculate_distance query_vector (ClusterDTO.get_centroid c))
        as [d0|] eqn:Hd0; [|discriminate].
      inversion Hstep; subst a; clear Hstep.
      apply IH in Hf. destruct Hf as (new & -> & Hnew & Hall).
      exists ((d0, k) :: new). rewrite <- app_assoc. split; [reflexivity|].
      split.
      * intros d i. simpl. rewrite Hnew. split.
        -- intros [Heq | (cl & Hin & Hrest)].
           ++ inversion Heq; subst. exists c. apply is_empty_false in Hce. auto.
           ++ exists cl. auto.
        -- intros (cl & [Heq | Hin] & Hne & Hd).
           ++ inversion Heq; subst. left. congruence.
           ++ right. now exists cl.
      * intros i cl [Heq | Hin] Hne.
        -- inversion Heq; subst. exists d0. now left.
        -- destruct (Hall i cl Hin Hne) as [d Hd]. exists d. now right.
Qed.

(** The cluster [infer] selects: the nearest one, or cluster 0 when no
    cluster has a centroid. *)
Lemma closest_cluster_of_spec query_vector clusters j :
  KMeans.closest_cluster_of query_vector clusters = Ok j ->
  (j = 0 /\ forall cluster, In cluster clusters -> ClusterDTO.get_centroid cluster = [])
  \/ exists cluster, nearest_cluster query_vector clusters j cluster.
Proof.
  unfold KMeans.closest_cluster_of, KMeans.cent_distances_of, enumerate.
  intros Hc. bind_inv Hc. rename a into cent_distances.
  apply cent_distances_from in Hstep. destruct Hstep as (new & -> & Hnew & Hall).
  simpl in Hc. destruct (is_empty new) eqn:Enew.
  - left. inversion Hc; subst. split; [reflexivity|]. intros cluster Hin.
    destruct (ClusterDTO.get_centroid cluster) as [|x v] eqn:Hce; [reflexivity|].
    exfalso. apply In_nth_error in Hin. destruct Hin as [n Hn].
    destruct (Hall (Z.of_nat n) cluster) as [d Hd].
    + apply In_enumerate_from. split; [lia|]. now rewrite Z.sub_0_r, Nat2Z.id.
    + congruence.
    + destruct new; [destruct Hd | discriminate].
  - right. bind_inv Hc. rename a into m. inversion Hc; subst j; clear Hc.
    apply py_min_spec in Hstep. destruct Hstep as [Hin Hmin].
    destruct m as [dj j]. apply Hnew in Hin. destruct Hin as (cluster & Hen & Hne & Hd).
    apply In_enumerate_from in Hen. rewrite Z.sub_0_r in Hen. destruct Hen as [Hj Hn].
    exists cluster. unfold nearest_cluster. simpl. repeat split; try assumption.
    exists dj. split; [assumption|]. intros j' cluster' d' Hn' Hne' Hd'.
    assert (Hin' : In (d', Z.of_nat j') new).
    { apply Hnew. exists cluster'. repeat split; try assumption.
      apply In_enumerate_from. split; [lia|]. now rewrite Z.sub_0_r, Nat2Z.id. }
    apply Hmin in Hin'. unfold pair_le in Hin'. simpl in Hin'.
    destruct Hin' as [Hlt | [Heq Hle]]; split; try lra; try (intros; assumption).
Qed.

Lemma doc_distances_of_keys query_vector doc_vectors doc_distances :
  KMeans.doc_distances_of query_vector doc_vectors = Ok doc_distances ->
  map snd doc_distances = map fst doc_vectors.
Proof.
  unfold KMeans.doc_distances_of. rewrite mapM_ok_Forall2.
  induction 1 as [|vector pair vs ps Hv _ IH]; simpl; [reflexivity|].
  destruct (calculate_distance query_vector (snd vector)); [|discriminate].
  inversion Hv; subst. simpl. now rewrite IH.
Qed.

Lemma infer_ok self query_vector n_neighbours res :
  KMeans.infer self query_vector n_neighbours = Ok res ->
  exists j cluster doc_distances,
    query_vector <> [] /\ 0 < n_neighbours
    /\ KMeans.closest_cluster_of query_vector (KMeans.__clusters self) = Ok j
    /\ py_index (KMeans.__clusters self) j = Ok cluster
    /\ KMeans.doc_distances_of query_vector
         (DocumentVectorDB.get_vectors (KMeans._db self)
            (Some (ClusterDTO.get_indices cluster))) = Ok doc_distances
    /\ res = firstn (Z.to_nat n_neighbours) (sorted_by_key doc_distances).
Proof.
  unfold KMeans.infer.
  destruct (is_empty query_vector) eqn:Hq; [discriminate|].
  destruct (n_neighbours <=? 0) eqn:Hn; [discriminate|]. simpl.
  intros Hi. bind_inv Hi. rename a into j. bind_inv Hi. rename a into cluster.
  bind_inv Hi. rename a into doc_distances. inversion Hi; subst; clear Hi.
  exists j, cluster, doc_distances. apply is_empty_false in Hq. apply Z.leb_gt in Hn.
  repeat split; assumption.
Qed.

(** The indices [infer] returns are keys of stored vectors, and members of
    the selected cluster when it has any. *)
Lemma infer_result_indices self query_vector cluster doc_distances d i n :
  KMeans.doc_distances_of query_vector
    (DocumentVectorDB.get_vectors (KMeans._db self)
       (Some (ClusterDTO.get_indices cluster))) = Ok doc_distances ->
  In (d, i) (firstn n (sorted_by_key doc_distances)) ->
  In i (map fst (DocumentVectorDB.__vectors (KMeans._db self)))
  /\ (ClusterDTO.get_indices cluster <> [] -> In i (ClusterDTO.get_indices cluster)).
Proof.
  intros Hdd Hin. apply In_firstn in Hin.
  apply (Permutation_in _ (sorted_by_key_perm doc_distances)) in Hin.
  apply (in_map snd) in Hin. simpl in Hin.
  rewrite (doc_distances_of_keys _ _ _ Hdd) in Hin.
  apply in_map_iff in Hin. destruct Hin as ([i' v] & Hi & Hin). simpl in Hi. subst i'.
  unfold DocumentVectorDB.get_vectors in Hin.
  destruct (ClusterDTO.get_indices cluster) as [|i0 rest] eqn:Hidx.
  - split; [|congruence]. apply in_map_iff. now exists (i, v).
  - apply filter_In in Hin. destruct Hin as [Hin Hmem]. simpl fst in Hmem. split.
    + apply in_map_iff. now exists (i, v).
    + intros _. now apply in_Z_iff.
Qed.

(** Before any training there is no cluster to select: [infer] raises. *)
Lemma infer_untrained_raises db n_clusters query_vector n_neighbours :
  exists e, KMeans.infer (KMeans.init db n_clusters) query_vector n_neighbours = Raise e.
Proof.
  unfold KMeans.infer. destruct (_ || _); [eauto|]. simpl. eauto.
Qed.

(** C1. Whenever [infer] returns, it has looked up the members of one
    cluster: the first cluster whose centroid is at minimum distance from
    the query, or cluster 0 when no cluster has a centroid.  When that
    cluster has a member, every index returned is one of its members.  That
    is the case on every state that [train] returns, where all clusters have
    a centroid and at least one member.  When the cluster has no member, its
    empty member list is no filter for [get_vectors]: the result is the head
    of the ranking of all stored vectors. *)
Theorem infer_restricted_to_nearest_cluster
    (self : KMeans.t) (query_vector : Vector) (n_neighbours : Z)
    (res : list (Q * Z)) :
  KMeans.infer self query_vector n_neighbours = Ok res ->
  exists j cluster,
    selected_cluster query_vector (KMeans.__clusters self) j cluster
    /\ (ClusterDTO.get_indices cluster <> [] ->
        forall d i, In (d, i) res -> In i (ClusterDTO.get_indices cluster))
    /\ (ClusterDTO.get_indices cluster = [] ->
        exists doc_distances,
          KMeans.doc_distances_of query_vector
            (DocumentVectorDB.__vectors (KMeans._db self)) = Ok doc_distances
          /\ res = firstn (Z.to_nat n_neighbours) (sorted_by_key doc_distances))
    /\ (forall fuel untrained,
          KMeans.train fuel untrained = Some (Ok self) ->
          Forall populated (KMeans.__clusters self)
          /\ nearest_cluster query_vector (KMeans.__clusters self) j cluster
          /\ ClusterDTO.get_indices cluster <> []).
Proof.
  intros Hinfer. apply infer_ok in Hinfer.
  destruct Hinfer as (j & cluster & doc_distances & _ & _ & Hj & Hc & Hdd & ->).
  exists j, cluster.
  assert (Hsel : selected_cluster query_vector (KMeans.__clusters self) j cluster).
  { split; [assumption|]. apply closest_cluster_of_spec in Hj.
    destruct Hj as [Hzero | (cluster' & Hnear)]; [now right | left].
    destruct Hnear as (Hj0 & Hn & Hrest).
    apply (py_index_nonneg_inv _ _ _ Hj0) in Hc.
    assert (cluster' = cluster) by congruence. subst cluster'.
    exact (conj Hj0 (conj Hn Hrest)). }
  split; [assumption|]. split; [|split].
  - intros Hne d i Hin.
    exact (proj2 (infer_result_indices _ _ _ _ _ _ _ Hdd Hin) Hne).
  - intros Hnone. exists doc_distances. rewrite Hnone in Hdd.
    split; [exact Hdd | reflexivity].
  - intros fuel untrained Htrain.
    apply trained_clusters_populated in Htrain. destruct Htrain as [Hpop _].
    assert (Hcl : populated cluster).
    { apply py_index_ok in Hc. apply nth_error_In in Hc.
      now apply (proj1 (Forall_forall _ _) Hpop). }
    destruct Hcl as [Hmem Hcent]. split; [assumption|]. split; [|assumption].
    destruct Hsel as [Hc' [Hnear | [_ Hnone]]]; [assumption|].
    exfalso. apply Hcent. apply Hnone.
    apply py_index_ok in Hc. eapply nth_error_In; eassumption.
Qed.

End Inference.

(** ** ClusteringSearchEngine: the ranked result *)

Lemma NoDup_map_filter {A B} (f : A -> B) (p : A -> bool) l :
  NoDup (map f l) -> NoDup (map f (filter p l)).
Proof.
  induction l as [|x t IH]; simpl; intros Hnd; [constructor|].
  inversion Hnd as [|? ? Hx Hnd']; subst.
  destruct (p x); simpl; [constructor|]; auto.
  intros Hin. apply Hx. apply in_map_iff in Hin. destruct Hin as (y & Hy & Hin).
  apply filter_In in Hin. apply in_map_iff. exists y. tauto.
Qed.

Lemma enumerate_from_keys_NoDup {A} (l : list A) k :
  NoDup (map fst (enumerate_from k l)).
Proof.
  revert k; induction l as [|x t IH]; intros k; simpl; constructor; [|apply IH].
  intros Hin. apply in_map_iff in Hin. destruct Hin as ([i y] & Hi & Hin).
  simpl in Hi. subst i. apply In_enumerate_from in Hin. lia.
Qed.

Lemma py_index_doc_at db i :
  0 <= i < len (DocumentVectorDB.__documents db) ->
  py_index (DocumentVectorDB.__documents db) i = Ok (doc_at db i).
Proof.
  intros Hi. apply py_index_nonneg; [lia|]. unfold doc_at.
  apply nth_error_nth'. unfold len in Hi. lia.
Qed.

Lemma py_index_middle {A} (prefix : list A) x rest :
  py_index (prefix ++ x :: rest) (len prefix) = Ok x.
Proof.
  apply py_index_nonneg; [unfold len; lia|]. unfold len. rewrite Nat2Z.id.
  now rewrite nth_error_app2, Nat.sub_diag by lia.
Qed.

(** The last comprehension of [retrieve_relevant_documents], over documents
    that were fetched in the order of the inference. *)
Lemma pair_with_documents {S : Type} (g : Z -> S) (inference : list (Q * Z)) :
  forall prefix,
    mapM (fun '(ind, dist) =>
            doc <- py_index (prefix ++ map g (map snd inference)) ind ;;
            Ok (fst dist, doc))
         (enumerate_from (len prefix) inference)
    = Ok (map (fun dist => (fst dist, g (snd dist))) inference).
Proof.
  induction inference as [|dist rest IH]; intros prefix; [reflexivity|].
  cbn [enumerate_from mapM map]. rewrite py_index_middle. cbn [bind].
  specialize (IH (prefix ++ [g (snd dist)])).
  rewrite <- app_assoc in IH. cbn [app] in IH.
  replace (len (prefix ++ [g (snd dist)])) with (len prefix + 1) in IH
    by (unfold len; rewrite length_app; simpl; lia).
  now rewrite IH.
Qed.

(** The scores of the result are the distances of the inference, whatever
    the documents. *)
Lemma paired_scores {S : Type} (docs : list S) (inference : list (Q * Z)) : forall k res,
  mapM (fun '(ind, dist) => doc <- py_index docs ind ;; Ok (fst dist, doc))
       (enumerate_from k inference) = Ok res ->
  map fst res = map fst inference.
Proof.
  induction inference as [|dist rest IH]; intros k res; simpl.
  - intros Hr. now inversion Hr.
  - intros Hr. bind_inv Hr. bind_inv Hstep. inversion Hstep; subst; clear Hstep.
    bind_inv Hr. inversion Hr; subst; clear Hr. simpl. f_equal. eauto.
Qed.

Section Retrieval.
Context `{Collaborators}.

Lemma put_corpus_keys_valid self corpus self' :
  DocumentVectorDB.put_corpus self corpus = Ok self' -> keys_valid self'.
Proof.
  intros Hput. apply put_corpus_ok in Hput.
  destruct Hput as (vs & Hvec & Hdocs & Hall).
  apply Forall2_length in Hall. rewrite length_map in Hall.
  split.
  - rewrite Hvec. apply enumerate_from_keys_NoDup.
  - intros i Hin. rewrite Hvec in Hin. apply in_map_iff in Hin.
    destruct Hin as ([i' v] & Hi & Hin). simpl in Hi. subst i'.
    apply In_enumerate_from in Hin. destruct Hin as [Hi Hn].
    rewrite Z.sub_0_r in Hn.
    assert (Hlt : (Z.to_nat i < List.length vs)%nat)
      by (apply nth_error_Some; congruence).
    rewrite Hdocs. unfold len. rewrite length_app. lia.
Qed.

Lemma infer_any_count self query_vector n res :
  KMeans.infer self query_vector n = Ok res ->
  exists doc_distances cluster,
    In cluster (KMeans.__clusters self)
    /\ KMeans.doc_distances_of query_vector
         (DocumentVectorDB.get_vectors (KMeans._db self)
            (Some (ClusterDTO.get_indices cluster))) = Ok doc_distances
    /\ forall n', 0 < n' ->
         KMeans.infer self query_vector n' =
         Ok (firstn (Z.to_nat n') (sorted_by_key doc_distances)).
Proof.
  intros Hi. apply infer_ok in Hi.
  destruct Hi as (j & cluster & doc_distances & Hq & _ & Hj & Hc & Hdd & _).
  exists doc_distances, cluster.
  split; [apply py_index_ok in Hc; eapply nth_error_In; eassumption|].
  split; [assumption|]. intros n' Hn'.
  unfold KMeans.infer. apply is_empty_false in Hq. rewrite Hq.
  replace (n' <=? 0) with false by (symmetry; apply Z.leb_gt; lia).
  cbn [orb]. rewrite Hj. cbn [bind]. rewrite Hc. cbn [bind]. now rewrite Hdd.
Qed.

(** With valid keys, the texts are found for every inference. *)
Lemma rank_documents_valid algo query_vector n inference :
  keys_valid (KMeans._db algo) ->
  KMeans.infer algo query_vector n = Ok inference ->
  ClusteringSearchEngine.rank_documents algo query_vector n =
  Ok (map (fun dist => (fst dist, doc_at (KMeans._db algo) (snd dist))) inference).
Proof.
  intros [Hnd Hrange] Hinfer.
  unfold ClusteringSearchEngine.rank_documents. rewrite Hinfer. cbn [bind].
  apply infer_ok in Hinfer.
  destruct Hinfer as (j & cluster & doc_distances & _ & _ & _ & _ & Hdd & Hres).
  assert (Hkeys : forall i, In i (map snd inference) ->
                            In i (map fst (DocumentVectorDB.__vectors (KMeans._db algo)))).
  { intros i Hin. apply in_map_iff in Hin. destruct Hin as ([d i'] & Hi & Hin).
    simpl in Hi. subst i'. rewrite Hres in Hin.
    now apply (infer_result_indices _ _ _ _ _ _ _ Hdd Hin). }
  assert (Hnd' : NoDup (map snd inference)).
  { rewrite Hres, <- firstn_map. apply NoDup_firstn.
    apply (Permutation_NoDup (l := map snd doc_distances)).
    - apply Permutation_map. symmetry. apply sorted_by_key_perm.
    - rewrite (doc_distances_of_keys _ _ _ Hdd).
      unfold DocumentVectorDB.get_vectors.
      destruct (ClusterDTO.get_indices cluster); [assumption|].
      now apply NoDup_map_filter. }
  destruct inference as [|dist rest] eqn:Einf; [reflexivity|]. rewrite <- Einf in *.
  assert (Hdocs : DocumentVectorDB.get_raw_documents (KMeans._db algo)
                    (Some (map snd inference)) =
                  Ok (map (doc_at (KMeans._db algo)) (map snd inference))).
  { unfold DocumentVectorDB.get_raw_documents.
    destruct (map snd inference) as [|i0 others] eqn:Ekeys; [now rewrite Einf in Ekeys|].
    rewrite <- Ekeys in *. rewrite (unique_indices_NoDup_id _ Hnd').
    apply mapM_total. intros i Hin. apply py_index_doc_at. auto. }
  rewrite Hdocs. cbn [bind].
  apply (pair_with_documents (doc_at (KMeans._db algo)) inference []).
Qed.

Lemma prepare_query_count self query n query_vector m :
  ClusteringSearchEngine.prepare_query self query (PyInt n) = Ok (query_vector, m) ->
  m = n /\ 0 < n
  /\ forall n', 0 < n' ->
       ClusteringSearchEngine.prepare_query self query (PyInt n') =
       Ok (query_vector, n').
Proof.
  unfold ClusteringSearchEngine.prepare_query.
  destruct (ClusteringSearchEngine.checked_query query) as [s|]; [|discriminate].
  cbn [ClusteringSearchEngine.checked_count].
  destruct (n <=? 0) eqn:Hn; [discriminate|]. apply Z.leb_gt in Hn.
  destruct (tokenize s) as [[|tok toks]|]; [discriminate| |discriminate].
  destruct (BM25Vectorizer.vectorize _ _) as [v|e]; [|discriminate]. cbn [bind].
  destruct (is_empty v); [discriminate|].
  intros Hp. inversion Hp; subst. split; [reflexivity|]. split; [assumption|].
  intros n' Hn'. now replace (n' <=? 0) with false by (symmetry; apply Z.leb_gt; lia).
Qed.

(** C6. With a distance that puts every vector within 1e-07 of itself, a
    call of [retrieve_relevant_documents] comes back whatever the fuel, and
    over a database with valid keys it returns a result as soon as the query
    is accepted, the first training iteration returns at least one cluster
    and the inference returns.  A result has at most [n] pairs and is
    sorted ascending by score.  With valid keys, it is the first [n] of the
    ranking of all vectors of the chosen cluster, and the call returns for
    every other positive count too: a count larger than that ranking
    returns all of it. *)
Theorem retrieve_sorted_and_bounded
    (fuel : nat) (self : ClusteringSearchEngine.t) (query : PyVal) (n : Z) :
  (self_distance_small ->
   ClusteringSearchEngine.retrieve_relevant_documents (S fuel) self query (PyInt n)
   = ClusteringSearchEngine.retrieve_relevant_documents 1 self query (PyInt n)
   /\ ClusteringSearchEngine.retrieve_relevant_documents 1 self query (PyInt n) <> None
   /\ (keys_valid (ClusteringSearchEngine._db self) ->
       forall query_vector algo inference,
         ClusteringSearchEngine.prepare_query self query (PyInt n)
         = Ok (query_vector, n) ->
         KMeans.run_single_train_iteration
           (KMeans.seed_clusters (ClusteringSearchEngine.__algo self)) = Ok algo ->
         KMeans.__clusters algo <> [] ->
         KMeans.infer algo query_vector n = Ok inference ->
         ClusteringSearchEngine.retrieve_relevant_documents (S fuel) self query (PyInt n)
         = Some (Ok ({| ClusteringSearchEngine.__algo := algo |},
                     map (fun dist =>
                            (fst dist,
                             doc_at (ClusteringSearchEngine._db self) (snd dist)))
                         inference))))
  /\ forall fuel' self' res,
       ClusteringSearchEngine.retrieve_relevant_documents fuel' self query (PyInt n)
       = Some (Ok (self', res)) ->
       0 < n
       /\ (List.length res <= Z.to_nat n)%nat
       /\ StronglySorted Qle (map fst res)
       /\ (keys_valid (ClusteringSearchEngine._db self) ->
           exists cluster available,
             In cluster (KMeans.__clusters (ClusteringSearchEngine.__algo self'))
             /\ List.length available =
                List.length (DocumentVectorDB.get_vectors
                               (ClusteringSearchEngine._db self')
                               (Some (ClusterDTO.get_indices cluster)))
             /\ res = firstn (Z.to_nat n) available
             /\ forall n', 0 < n' ->
                  ClusteringSearchEngine.retrieve_relevant_documents
                    fuel' self query (PyInt n')
                  = Some (Ok (self', firstn (Z.to_nat n') available))
                  /\ (Z.of_nat (List.length available) <= n' ->
                      firstn (Z.to_nat n') available = available)).
Proof.
  split.
  { intros Hself. unfold ClusteringSearchEngine.retrieve_relevant_documents.
    destruct (ClusteringSearchEngine.prepare_query self query (PyInt n))
      as [[query_vector m]|e] eqn:Hprep.
    2: { split; [reflexivity|]. split; [discriminate|].
         intros _ qv algo inference Hq. discriminate Hq. }
    unfold KMeans.train. rewrite !(train_loop_first_iteration _ _ Hself).
    split; [reflexivity|]. split.
    { destruct (KMeans.run_single_train_iteration _) as [algo|e]; [|discriminate].
      destruct (is_empty (KMeans.__clusters algo)); discriminate. }
    intros Hvalid qv algo inference Hq Hiter Hne Hinfer.
    injection Hq as <- <-. rewrite Hiter.
    replace (is_empty (KMeans.__clusters algo)) with false
      by (destruct (KMeans.__clusters algo); [congruence | reflexivity]).
    apply run_single_train_iteration_ok in Hiter.
    destruct Hiter as (_ & _ & Hdb & _).
    unfold ClusteringSearchEngine._db in *.
    assert (Hdb' : KMeans._db algo = KMeans._db (ClusteringSearchEngine.__algo self))
      by (rewrite Hdb; reflexivity).
    rewrite <- Hdb' in Hvalid |- *.
    now rewrite (rank_documents_valid _ _ _ _ Hvalid Hinfer). }
  intros fuel' self' res.
  unfold ClusteringSearchEngine.retrieve_relevant_documents.
  destruct (ClusteringSearchEngine.prepare_query self query (PyInt n))
    as [[query_vector m]|e] eqn:Hprep; [|discriminate].
  apply prepare_query_count in Hprep. destruct Hprep as (-> & Hn & Hprep).
  destruct (KMeans.train fuel' (ClusteringSearchEngine.__algo self))
    as [[algo|e]|] eqn:Htrain; [|discriminate|discriminate].
  destruct (ClusteringSearchEngine.rank_documents algo query_vector n)
    as [docs|e] eqn:Hrank; [|discriminate].
  cbn [bind]. intros Hres. inversion Hres; subst; clear Hres.
  assert (Hrank' := Hrank). unfold ClusteringSearchEngine.rank_documents in Hrank'.
  bind_inv Hrank'. rename a into inference. bind_inv Hrank'. rename a into texts.
  assert (Hscores := paired_scores _ _ _ _ Hrank').
  assert (Hlen : List.length res = List.length inference)
    by (rewrite <- (length_map fst res), Hscores; apply length_map).
  destruct (infer_any_count _ _ _ _ Hstep)
    as (doc_distances & cluster & Hc & Hdd & Hany).
  assert (Hinf' : inference = firstn (Z.to_nat n) (sorted_by_key doc_distances))
    by (specialize (Hany n Hn); congruence).
  split; [assumption|]. split; [|split].
  - rewrite Hlen, Hinf', length_firstn. lia.
  - rewrite Hscores, Hinf'. apply StronglySorted_scores, StronglySorted_firstn.
    apply sorted_by_key_sorted.
  - intros Hvalid. unfold ClusteringSearchEngine._db in *.
    cbn [ClusteringSearchEngine.__algo].
    destruct (trained_clusters_populated _ _ _ Htrain) as [_ Hdb].
    rewrite <- Hdb in Hvalid.
    exists cluster,
      (map (fun dist => (fst dist, doc_at (KMeans._db algo) (snd dist)))
           (sorted_by_key doc_distances)).
    split; [assumption|]. split.
    { rewrite length_map, (Permutation_length (sorted_by_key_perm doc_distances)).
      rewrite <- (length_map snd doc_distances), (doc_distances_of_keys _ _ _ Hdd).
      apply length_map. }
    split.
    { rewrite (rank_documents_valid _ _ _ _ Hvalid Hstep) in Hrank.
      injection Hrank as <-. now rewrite Hinf', firstn_map. }
    intros n' Hn'. rewrite (Hprep n' Hn').
    rewrite (rank_documents_valid _ _ _ _ Hvalid (Hany n' Hn')). cbn [bind].
    split; [now rewrite firstn_map|].
    intros Hall. apply firstn_all2. lia.
Qed.

End Retrieval.

(** ** KMeans: the assignment step *)

Lemma Qeq_bool_refl_true (x : Q) : Qeq_bool x x = true.
Proof. apply Qeq_bool_iff. reflexivity. Qed.

Lemma vec_eqb_refl (v : Vector) : vec_eqb v v = true.
Proof. induction v as [|x v IH]; simpl; [reflexivity|]. now rewrite Qeq_bool_refl_true. Qed.

Lemma index_from_spec {A} (eqb : A -> A -> bool) x l : forall k i,
  index_from eqb k x l = Some i ->
  k <= i
  /\ (exists y, nth_error l (Z.to_nat (i - k)) = Some y /\ eqb y x = true)
  /\ forall n y, nth_error l n = Some y -> eqb y x = true -> i <= k + Z.of_nat n.
Proof.
  induction l as [|y t IH]; intros k i; simpl; [discriminate|].
  destruct (eqb y x) eqn:Hy.
  - intros Hi. inversion Hi; subst. split; [lia|]. split.
    + exists y. now rewrite Z.sub_diag.
    + intros; lia.
  - intros Hi. apply IH in Hi. destruct Hi as (Hle & (z & Hz & Hzx) & Hfirst).
    split; [lia|]. split.
    + exists z. split; [|assumption].
      now replace (Z.to_nat (i - k)) with (S (Z.to_nat (i - (k + 1)))) by lia.
    + intros [|n] y' Hn Hy'; simpl in Hn.
      * inversion Hn; subst. congruence.
      * specialize (Hfirst n y' Hn Hy'). lia.
Qed.

Lemma list_index_spec {A} (eqb : A -> A -> bool) x l i :
  list_index eqb x l = Ok i ->
  0 <= i
  /\ (exists y, nth_error l (Z.to_nat i) = Some y /\ eqb y x = true)
  /\ forall n y, nth_error l n = Some y -> eqb y x = true -> i <= Z.of_nat n.
Proof.
  unfold list_index. destruct (index_from eqb 0 x l) as [i'|] eqn:Hi; [|discriminate].
  intros Hok. inversion Hok; subst. apply index_from_spec in Hi.
  now rewrite Z.sub_0_r in Hi.
Qed.

Lemma set_nth_same {A} (l : list A) n x :
  (n < List.length l)%nat -> nth_error (set_nth l n x) n = Some x.
Proof.
  revert n; induction l as [|y t IH]; intros n Hn; simpl in Hn; [lia|].
  destruct n; simpl; [reflexivity | apply IH; lia].
Qed.

Lemma set_nth_other {A} (l : list A) n m x :
  m <> n -> nth_error (set_nth l n x) m = nth_error l m.
Proof.
  revert n m; induction l as [|y t IH]; intros n m Hne; [reflexivity|].
  destruct n, m; simpl; try reflexivity; try congruence. apply IH. congruence.
Qed.

Lemma add_document_index_ok cluster index cluster' :
  ClusterDTO.add_document_index cluster index = Ok cluster' ->
  In index (ClusterDTO.get_indices cluster')
  /\ forall p, In p (ClusterDTO.get_indices cluster') <->
               In p (ClusterDTO.get_indices cluster) \/ p = index.
Proof.
  unfold ClusterDTO.add_document_index, ClusterDTO.get_indices.
  destruct (index <? 0); [discriminate|].
  destruct (in_Z index (ClusterDTO.__indices cluster)) eqn:Hin.
  - intros Hok. inversion Hok; subst. apply in_Z_iff in Hin. split; [assumption|].
    intros p. split; [tauto|]. intros [Hp | ->]; assumption.
  - intros Hok. inversion Hok; subst. simpl. split.
    + apply in_or_app. right. now left.
    + intros p. rewrite in_app_iff. simpl. intuition.
Qed.

Lemma nth_error_enumerate_from {A} (l : list A) : forall k n p,
  nth_error (enumerate_from k l) n = Some p -> fst p = k + Z.of_nat n.
Proof.
  induction l as [|x t IH]; intros k n p; [now destruct n|].
  destruct n as [|n]; simpl.
  - intros Hp. inversion Hp. simpl. lia.
  - intros Hp. apply IH in Hp. lia.
Qed.

Lemma dense_keys_functional vectors i (v v' : Vector) :
  dense_keys vectors -> In (i, v') vectors -> In (i, v) vectors -> v' = v.
Proof.
  unfold dense_keys, enumerate. intros Hdense Hin' Hin.
  rewrite Hdense in Hin, Hin'.
  apply In_enumerate_from in Hin, Hin'. destruct Hin as [_ Hv], Hin' as [_ Hv'].
  congruence.
Qed.

Section Assignment.
Context `{Collaborators}.

Lemma closest_centroid_of_spec centroids vector k :
  distance_respects_equality ->
  KMeans.closest_centroid_of centroids vector = Ok k ->
  nearest_centroid centroids (snd vector) k.
Proof.
  intros Hresp. unfold KMeans.closest_centroid_of, KMeans.centroid_distances.
  intros Hc. bind_inv Hc. rename a into distances. bind_inv Hc. rename a into m.
  inversion Hc; subst k; clear Hc.
  apply mapM_ok_Forall2 in Hstep. apply py_min_spec in Hstep0.
  destruct Hstep0 as [Hin Hmin].
  apply In_nth_error in Hin. destruct Hin as [n Hn].
  destruct (Forall2_nth_error_r _ _ _ _ _ Hstep Hn) as (cm & Hcm & Hentry).
  destruct (calculate_distance (snd vector) cm) as [dm|] eqn:Hdm; [|discriminate].
  bind_inv Hentry. rename a into km. inversion Hentry; subst m; clear Hentry.
  apply list_index_spec in Hstep0. destruct Hstep0 as (Hk0 & (ck & Hck & Heq) & _).
  destruct (Hresp _ _ _ _ Heq Hdm) as (dk & Hdk & Hdkm).
  split; [assumption|]. exists ck, dk. simpl.
  split; [assumption|]. split; [assumption|].
  intros j cj dj Hj Hdj.
  destruct (Forall2_nth_error_l _ _ _ _ _ Hstep Hj) as (pj & Hpj & Hentry).
  rewrite Hdj in Hentry. bind_inv Hentry. rename a into kj.
  inversion Hentry; subst pj; clear Hentry.
  apply list_index_spec in Hstep0. destruct Hstep0 as (_ & _ & Hfirst).
  specialize (Hfirst j cj Hj (vec_eqb_refl cj)).
  apply nth_error_In in Hpj. apply Hmin in Hpj. unfold pair_le in Hpj. simpl in Hpj.
  split; [lra|]. intros Heq'. destruct Hpj as [Hlt | [_ Hle]]; [lra | lia].
Qed.

Lemma assign_vector_ok centroids vectors clusters vector clusters' :
  KMeans.assign_vector centroids vectors clusters vector = Ok clusters' ->
  exists k position cluster cluster',
    KMeans.closest_centroid_of centroids vector = Ok k
    /\ list_index KMeans.pair_eqb vector vectors = Ok position
    /\ py_index clusters k = Ok cluster
    /\ ClusterDTO.add_document_index cluster position = Ok cluster'
    /\ py_setitem clusters k cluster' = Ok clusters'.
Proof.
  unfold KMeans.assign_vector. intros Ha.
  bind_inv Ha. rename a into k. bind_inv Ha. rename a into cluster.
  bind_inv Ha. rename a into position. bind_inv Ha. rename a into cluster'.
  exists k, position, cluster, cluster'. auto.
Qed.

Lemma closest_centroid_of_nonneg centroids vector k :
  KMeans.closest_centroid_of centroids vector = Ok k -> 0 <= k.
Proof.
  unfold KMeans.closest_centroid_of, KMeans.centroid_distances.
  intros Hc. bind_inv Hc. rename a into distances. bind_inv Hc. rename a into m.
  inversion Hc; subst k; clear Hc.
  apply mapM_ok_Forall2 in Hstep. apply py_min_spec in Hstep0.
  destruct Hstep0 as [Hin _]. apply In_nth_error in Hin. destruct Hin as [n Hn].
  destruct (Forall2_nth_error_r _ _ _ _ _ Hstep Hn) as (cm & Hcm & Hentry).
  destruct (calculate_distance (snd vector) cm); [|discriminate].
  bind_inv Hentry. inversion Hentry; subst m. simpl.
  now apply list_index_spec in Hstep0.
Qed.

Lemma assign_vector_assigned centroids vectors processed clusters vector clusters' :
  assigned centroids vectors processed clusters ->
  KMeans.assign_vector centroids vectors clusters vector = Ok clusters' ->
  assigned centroids vectors (processed ++ [vector]) clusters'.
Proof.
  intros [Hfwd Hbwd] Ha. apply assign_vector_ok in Ha.
  destruct Ha as (k & position & cluster & cluster' & Hk & Hpos & Hc & Hadd & Hset).
  assert (Hk0 := closest_centroid_of_nonneg _ _ _ Hk).
  apply (py_index_nonneg_inv _ _ _ Hk0) in Hc.
  assert (Hlt : (Z.to_nat k < List.length clusters)%nat)
    by (apply nth_error_Some; congruence).
  assert (Hcl' : clusters' = set_nth clusters (Z.to_nat k) cluster').
  { unfold py_setitem in Hset. destruct (k <? 0) eqn:E; [apply Z.ltb_lt in E; lia|].
    destruct (_ || _); [discriminate|]. now inversion Hset. }
  subst clusters'. apply add_document_index_ok in Hadd. destruct Hadd as [Hin Hmem].
  split.
  - intros vec Hvec. apply in_app_or in Hvec. destruct Hvec as [Hold | [<- | []]].
    + destruct (Hfwd vec Hold) as (k1 & p1 & c1 & Hk1 & Hp1 & Hc1 & Hin1).
      exists k1, p1. destruct (Nat.eq_dec (Z.to_nat k1) (Z.to_nat k)) as [Heq | Hne].
      * exists cluster'. rewrite Heq, set_nth_same by assumption.
        repeat split; try assumption. apply Hmem. left. congruence.
      * exists c1. rewrite set_nth_other by assumption. auto.
    + exists k, position, cluster'. rewrite set_nth_same by assumption. auto.
  - intros n c p Hn Hp. destruct (Nat.eq_dec n (Z.to_nat k)) as [-> | Hne].
    + rewrite set_nth_same in Hn by assumption. inversion Hn; subst c.
      apply Hmem in Hp. destruct Hp as [Hp | ->].
      * destruct (Hbwd _ _ _ Hc Hp) as (vec & Hvec & Hrest).
        exists vec. split; [apply in_or_app; now left | assumption].
      * exists vector. split; [apply in_or_app; right; now left|].
        split; [assumption|]. now rewrite Z2Nat.id.
    + rewrite set_nth_other in Hn by assumption.
      destruct (Hbwd _ _ _ Hn Hp) as (vec & Hvec & Hrest).
      exists vec. split; [apply in_or_app; now left | assumption].
Qed.

Lemma assignment_loop centroids vectors : forall todo processed clusters clusters',
  assigned centroids vectors processed clusters ->
  foldM (KMeans.assign_vector centroids vectors) todo clusters = Ok clusters' ->
  assigned centroids vectors (processed ++ todo) clusters'.
Proof.
  induction todo as [|vector todo IH]; intros processed clusters clusters' Hinv; simpl.
  - intros Hf. inversion Hf; subst. now rewrite app_nil_r.
  - intros Hf. bind_inv Hf.
    replace (processed ++ vector :: todo) with ((processed ++ [vector]) ++ todo)
      by (now rewrite <- app_assoc).
    eapply IH; [|eassumption]. eapply assign_vector_assigned; eassumption.
Qed.

Lemma erased_clusters_assigned centroids vectors clusters :
  assigned centroids vectors [] (map ClusterDTO.erase_indices clusters).
Proof.
  split; [intros vector []|].
  intros n cluster position Hn Hp. rewrite nth_error_map in Hn.
  destruct (nth_error clusters n); simpl in Hn; [|discriminate].
  inversion Hn; subst. destruct Hp.
Qed.

(** A position found by [vectors.index] in a mapping with dense keys is the
    key of the vector. *)
Lemma dense_position vectors i v position :
  dense_keys vectors ->
  list_index KMeans.pair_eqb (i, v) vectors = Ok position -> position = i.
Proof.
  intros Hdense Hpos. apply list_index_spec in Hpos.
  destruct Hpos as (Hp0 & ([i' v'] & Hn & Heq) & _).
  unfold KMeans.pair_eqb in Heq. simpl in Heq. apply andb_prop in Heq.
  destruct Heq as [Heq _]. apply Z.eqb_eq in Heq. subst i'.
  rewrite Hdense in Hn. apply nth_error_enumerate_from in Hn. simpl in Hn. lia.
Qed.

(** C5. In a training iteration that returns, over a database with dense
    keys and with a distance that respects equality, the document index of
    every stored vector is a member of the cluster at the lowest position
    among those whose centroid (the centroid the iteration started from) is
    at minimum distance from the vector, and of no other cluster. *)
Theorem vectors_assigned_to_nearest_centroid
    (self self' : KMeans.t) (i : Z) (v : Vector) :
  dense_keys (DocumentVectorDB.__vectors (KMeans._db self)) ->
  distance_respects_equality ->
  KMeans.run_single_train_iteration self = Ok self' ->
  In (i, v) (DocumentVectorDB.__vectors (KMeans._db self)) ->
  exists k cluster',
    nearest_centroid (map ClusterDTO.get_centroid (KMeans.__clusters self)) v k
    /\ nth_error (KMeans.__clusters self') (Z.to_nat k) = Some cluster'
    /\ In i (ClusterDTO.get_indices cluster')
    /\ forall n cluster,
         nth_error (KMeans.__clusters self') n = Some cluster ->
         In i (ClusterDTO.get_indices cluster) -> n = Z.to_nat k.
Proof.
  intros Hdense Hresp Hrun Hin. unfold KMeans.run_single_train_iteration in Hrun.
  bind_inv Hrun. rename a into assigned_clusters.
  bind_inv Hrun. rename a into updated.
  inversion Hrun; subst self'; clear Hrun. cbn [KMeans.set_clusters KMeans.__clusters].
  cbn [DocumentVectorDB.get_vectors] in Hstep, Hstep0.
  set (centroids := map ClusterDTO.get_centroid (KMeans.__clusters self)) in *.
  set (vectors := DocumentVectorDB.__vectors (KMeans._db self)) in *.
  assert (Hassigned : assigned centroids vectors vectors assigned_clusters).
  { apply (assignment_loop centroids vectors vectors [] _ _
             (erased_clusters_assigned centroids vectors (KMeans.__clusters self))
             Hstep). }
  destruct Hassigned as [Hfwd Hbwd].
  apply mapM_ok_Forall2 in Hstep0.
  destruct (Hfwd _ Hin) as (k & position & cluster & Hk & Hpos & Hc & Hmem).
  apply (dense_position _ _ _ _ Hdense) in Hpos. subst position.
  destruct (Forall2_nth_error_l _ _ _ _ _ Hstep0 Hc) as (cluster' & Hc' & Hup).
  apply update_centroid_ok in Hup. destruct Hup as [Hidx _].
  exists k, cluster'. split; [|split; [assumption|split; [congruence|]]].
  - apply (closest_centroid_of_spec centroids (i, v) k Hresp Hk).
  - intros n c Hn Hi.
    destruct (Forall2_nth_error_r _ _ _ _ _ Hstep0 Hn) as (c0 & Hc0 & Hup).
    apply update_centroid_ok in Hup. destruct Hup as [Hidx0 _]. rewrite Hidx0 in Hi.
    destruct (Hbwd _ _ _ Hc0 Hi) as ([i' v'] & Hin' & Hpos' & Hk').
    apply (dense_position _ _ _ _ Hdense) in Hpos' as Heq. subst i'.
    assert (v' = v) by (eapply dense_keys_functional; eassumption).
    subst v'. assert (k = Z.of_nat n) by congruence. lia.
Qed.

End Assignment.

(** * Further properties *)

(** ** get_paragraphs *)

Lemma split_on_length sep s :
  List.length (split_on sep s) = S (count_char sep s).
Proof.
  induction s as [|c s IH]; simpl; [reflexivity|].
  destruct (Ascii.eqb c sep); simpl; [now rewrite IH|].
  destruct (split_on sep s); simpl in *; [discriminate | assumption].
Qed.

Lemma split_on_no_sep sep s :
  Forall (fun line => count_char sep line = O) (split_on sep s).
Proof.
  induction s as [|c s IH]; simpl.
  - constructor; [reflexivity | constructor].
  - destruct (Ascii.eqb c sep) eqn:Hc.
    + constructor; [reflexivity | assumption].
    + destruct (split_on sep s) as [|line rest].
      * constructor; [simpl; now rewrite Hc | constructor].
      * inversion IH; subst. constructor; [simpl; now rewrite Hc | assumption].
Qed.

Lemma lstrip_no_leading s : starts_with_space (lstrip s) = false.
Proof.
  induction s as [|c s IH]; simpl; [reflexivity|].
  destruct (is_space c) eqn:Hc; [assumption | simpl; assumption].
Qed.

Lemma rstrip_no_trailing s : ends_with_space (rstrip s) = false.
Proof.
  induction s as [|c s IH]; simpl; [reflexivity|].
  destruct (rstrip s) as [|c' r] eqn:Hr.
  - destruct (is_space c) eqn:Hc; [reflexivity | simpl; assumption].
  - simpl in *. assumption.
Qed.

Lemma rstrip_keeps_start s :
  starts_with_space s = false -> starts_with_space (rstrip s) = false.
Proof.
  destruct s as [|c s]; simpl; [reflexivity|]. intros Hc.
  destruct (rstrip s); [rewrite Hc|]; simpl; assumption.
Qed.

Lemma lstrip_count c s : (count_char c (lstrip s) <= count_char c s)%nat.
Proof.
  induction s as [|c' s IH]; simpl; [lia|].
  destruct (is_space c'); simpl; destruct (Ascii.eqb c' c); lia.
Qed.

Lemma rstrip_count c s : (count_char c (rstrip s) <= count_char c s)%nat.
Proof.
  induction s as [|c' s IH]; simpl; [lia|].
  destruct (rstrip s) as [|c'' r] eqn:Hr.
  - destruct (is_space c'); simpl; destruct (Ascii.eqb c' c); simpl; lia.
  - simpl in *. destruct (Ascii.eqb c' c); lia.
Qed.

Lemma strip_clean line :
  count_char newline line = O -> clean_paragraph (strip line).
Proof.
  intros Hnl. unfold clean_paragraph, strip. split; [|split].
  - apply rstrip_keeps_start, lstrip_no_leading.
  - apply rstrip_no_trailing.
  - pose proof (rstrip_count newline (lstrip line)).
    pose proof (lstrip_count newline line). lia.
Qed.

Lemma lstrip_all_space s : all_space s = true -> lstrip s = EmptyString.
Proof.
  induction s as [|c s IH]; simpl; [reflexivity|].
  destruct (is_space c); simpl; [assumption | discriminate].
Qed.

Lemma get_paragraphs_ok s paragraphs :
  get_paragraphs (PyStr s) = Ok paragraphs ->
  s <> EmptyString
  /\ paragraphs =
     map strip (filter (fun paragraph => negb (String.eqb paragraph " "))
                       (split_on newline s)).
Proof.
  destruct s as [|c s]; [discriminate|]. intros Hps. split; [discriminate|].
  unfold get_paragraphs in Hps. remember (split_on newline (String c s)) as lines.
  congruence.
Qed.

(** X1. [get_paragraphs] returns for exactly the non-empty strings.  Every
    paragraph it returns is stripped of white space on both sides and holds
    no line feed, and there is one paragraph per line of the text except for
    the lines that are exactly one space. *)
Theorem get_paragraphs_shape (text : PyVal) :
  ((exists paragraphs, get_paragraphs text = Ok paragraphs) <->
   (exists s, text = PyStr s /\ s <> EmptyString))
  /\ (forall paragraphs, get_paragraphs text = Ok paragraphs ->
        exists s, text = PyStr s
          /\ Forall clean_paragraph paragraphs
          /\ (List.length paragraphs
              + List.length (filter (fun line => String.eqb line " ")
                                    (split_on newline s))
              = S (count_char newline s))%nat)
  /\ ((forall paragraphs, get_paragraphs text <> Ok paragraphs) ->
      get_paragraphs text = Raise (ValueError "Invalid input argument")).
Proof.
  split; [|split].
  - split.
    + intros [ps Hps]. destruct text as [| | | |s]; try discriminate.
      exists s. split; [reflexivity|]. intros ->. discriminate.
    + intros (s & -> & Hne). destruct s as [|c s]; [congruence|].
      eexists. reflexivity.
  - intros ps Hps. destruct text as [| | | |s]; try discriminate.
    exists s. split; [reflexivity|].
    apply get_paragraphs_ok in Hps. destruct Hps as [_ ->]. split.
    + apply Forall_map. apply Forall_forall. intros line Hin.
      apply filter_In in Hin. destruct Hin as [Hin _].
      apply strip_clean.
      now apply (proj1 (Forall_forall _ _) (split_on_no_sep newline s)).
    + rewrite length_map, <- (split_on_length newline s).
      induction (split_on newline s) as [|line rest IH]; simpl; [reflexivity|].
      destruct (String.eqb line " "); simpl; lia.
  - intros Hnone. destruct text as [| | | |s]; try reflexivity.
    destruct s as [|c s]; [reflexivity|]. exfalso. eapply Hnone. reflexivity.
Qed.

(** X2. Blank lines are not dropped: a line of the text that is empty, or
    made of white space other than a single space, comes back as an empty
    paragraph.  Only lines that are exactly one space are left out, so a
    text in which every line is one space gives no paragraph at all. *)
Theorem get_paragraphs_blank_lines (s : string) (paragraphs : list string) :
  get_paragraphs (PyStr s) = Ok paragraphs ->
  (forall line, In line (split_on newline s) -> all_space line = true ->
                line <> " "%string -> In EmptyString paragraphs)
  /\ (Forall (fun line => line = " "%string) (split_on newline s) ->
      paragraphs = []).
Proof.
  intros Hps. apply get_paragraphs_ok in Hps. destruct Hps as [_ ->]. split.
  - intros line Hin Hsp Hne. apply in_map_iff. exists line. split.
    + unfold strip. now rewrite (lstrip_all_space _ Hsp).
    + apply filter_In. split; [assumption|].
      apply negb_true_iff. now apply String.eqb_neq.
  - intros Hall. induction (split_on newline s) as [|line rest IH];
      [reflexivity|].
    inversion Hall; subst. simpl. now apply IH.
Qed.

(** ** ClusterDTO *)

(** X3. [add_document_index] refuses exactly the negative indices.
    Otherwise it keeps the centroid, and makes the index a member: the
    members afterwards are the members before and the index, an index
    already there changes nothing (adding twice is adding once), a new one
    goes to the end and raises the length by one, and a member list without
    repetitions stays without. *)
Theorem add_document_index_members (cluster : ClusterDTO.t) (index : Z) :
  (index < 0 ->
   ClusterDTO.add_document_index cluster index =
   Raise (ValueError "Invalid input argument"))
  /\ (0 <= index ->
      exists cluster',
        ClusterDTO.add_document_index cluster index = Ok cluster'
        /\ ClusterDTO.get_centroid cluster' = ClusterDTO.get_centroid cluster
        /\ (forall p, In p (ClusterDTO.get_indices cluster') <->
                      In p (ClusterDTO.get_indices cluster) \/ p = index)
        /\ ClusterDTO.add_document_index cluster' index = Ok cluster'
        /\ (In index (ClusterDTO.get_indices cluster) -> cluster' = cluster)
        /\ (~ In index (ClusterDTO.get_indices cluster) ->
            ClusterDTO.get_indices cluster' = ClusterDTO.get_indices cluster ++ [index]
            /\ ClusterDTO.__len__ cluster' = ClusterDTO.__len__ cluster + 1)
        /\ (NoDup (ClusterDTO.get_indices cluster) ->
            NoDup (ClusterDTO.get_indices cluster'))).
Proof.
  unfold ClusterDTO.add_document_index, ClusterDTO.get_indices,
    ClusterDTO.get_centroid, ClusterDTO.__len__.
  split.
  - intros Hneg. now apply Z.ltb_lt in Hneg as ->.
  - intros Hpos. replace (index <? 0) with false by (symmetry; apply Z.ltb_ge; lia).
    destruct (in_Z index (ClusterDTO.__indices cluster)) eqn:Hin.
    + apply in_Z_iff in Hin as Hin'. exists cluster. rewrite Hin.
      repeat split; try tauto.
      intros [Hp | ->]; assumption.
    + apply in_Z_false_iff in Hin as Hin'. eexists. split; [reflexivity|]. simpl.
      split; [reflexivity|].
      split. { intros p. rewrite in_app_iff. simpl. intuition congruence. }
      split.
      { replace (in_Z index (ClusterDTO.__indices cluster ++ [index])) with true;
          [reflexivity|].
        symmetry. apply in_Z_iff, in_or_app. right. now left. }
      split. { intros Hc. contradiction. }
      split.
      { intros _. split; [reflexivity|]. unfold len. rewrite length_app. simpl. lia. }
      intros Hnd. apply NoDup_app; [assumption | repeat constructor; auto |].
      intros x Hx [-> | []]. contradiction.
Qed.

(** ** BM25Vectorizer *)

Section VectorizerFacts.
Context `{Collaborators}.

Lemma calculate_bm25_length self doc v :
  BM25Vectorizer._calculate_bm25 self doc = Ok v ->
  List.length v = List.length (_vocabulary self).
Proof.
  unfold BM25Vectorizer._calculate_bm25. destruct (is_empty doc); [discriminate|].
  destruct (calculate_bm25 _ _ _ _ _) as [[|entry bm25]|].
  - intros Hv. inversion Hv. apply repeat_length.
  - intros Hv.
    refine (foldM_invariant
              (fun vec : Vector => List.length vec = List.length (_vocabulary self))
              _ _ _ _ _ (repeat_length _ _) Hv).
    intros vec [term index] vec' Hlen Hstep. bind_inv Hstep.
    apply py_setitem_length in Hstep. congruence.
  - intros Hv. inversion Hv. apply repeat_length.
Qed.

(** X4. A vector that [vectorize] returns has one score per term of the
    vocabulary and is not empty.  [vectorize] raises the input error for a
    document without tokens, and raises for every document while the
    vocabulary is empty, as it is before the vectorizer is built. *)
Theorem vectorize_vocabulary_length (self : BM25Vectorizer.t) (doc : list string) :
  (forall v, BM25Vectorizer.vectorize self doc = Ok v ->
             doc <> [] /\ v <> []
             /\ List.length v = List.length (_vocabulary self))
  /\ (doc = [] ->
      BM25Vectorizer.vectorize self doc = Raise (ValueError "Invalid input argument"))
  /\ (_vocabulary self = [] ->
      exists e, BM25Vectorizer.vectorize self doc = Raise e).
Proof.
  assert (Hok : forall v, BM25Vectorizer.vectorize self doc = Ok v ->
                          doc <> [] /\ v <> []
                          /\ List.length v = List.length (_vocabulary self)).
  { intros v Hv. assert (Hne := vectorize_ok_nonempty _ _ _ Hv).
    apply is_empty_false in Hne. unfold BM25Vectorizer.vectorize in Hv.
    destruct (is_empty doc) eqn:Hd; [discriminate|]. apply is_empty_false in Hd.
    bind_inv Hv. destruct (is_empty a); [discriminate|]. inversion Hv; subst a.
    split; [assumption|]. split; [assumption|].
    exact (calculate_bm25_length _ _ _ Hstep). }
  split; [exact Hok|]. split.
  - now intros ->.
  - intros Hvoc. destruct (BM25Vectorizer.vectorize self doc) as [v|e] eqn:Hv; [|eauto].
    destruct (Hok v eq_refl) as (_ & Hne & Hlen). rewrite Hvoc in Hlen.
    destruct v; [congruence | discriminate].
Qed.

End VectorizerFacts.

(** ** DocumentVectorDB: more on ingestion *)

Lemma enumerate_from_keys {A} (l : list A) : forall k,
  map fst (enumerate_from (Z.of_nat k) l) = map Z.of_nat (seq k (List.length l)).
Proof.
  induction l as [|x t IH]; intros k; simpl; [reflexivity|].
  f_equal. rewrite <- IH. f_equal. f_equal. lia.
Qed.

Section IngestionFacts.
Context `{Collaborators}.

Lemma vectorize_all_from_total vectorizer tokenized_docs vs :
  Forall2 (fun doc v => BM25Vectorizer.vectorize vectorizer doc = Ok v)
          tokenized_docs vs ->
  forall k acc,
    foldM (fun vectors '(ind, doc) =>
             vector <- BM25Vectorizer.vectorize vectorizer doc ;;
             Ok (if is_empty vector then vectors else vectors ++ [(ind, vector)]))
          (enumerate_from k tokenized_docs) acc
    = Ok (acc ++ enumerate_from k vs).
Proof.
  induction 1 as [|doc v docs vs Hv _ IH]; intros k acc; simpl.
  - now rewrite app_nil_r.
  - rewrite Hv. cbn [bind]. rewrite (vectorize_ok_nonempty _ _ _ Hv).
    rewrite IH, <- app_assoc. reflexivity.
Qed.

(** X5. [put_corpus] returns exactly when the corpus has a document with
    tokens, the vectorizer can be set and rebuilt on the kept token lists,
    and every kept token list has a vector.  The database it returns then
    holds the old documents followed by the kept ones, the rebuilt
    vectorizer, and the vectors of the kept documents under the keys
    0, 1, 2, ...: the old vectors are gone. *)
Theorem put_corpus_succeeds_iff
    (self : DocumentVectorDB.t) (corpus : Corpus) (self' : DocumentVectorDB.t) :
  DocumentVectorDB.put_corpus self corpus = Ok self' <->
  exists vectorizer vs,
    kept_documents corpus <> []
    /\ fitted_vectorizer self corpus = Ok vectorizer
    /\ Forall2 (fun doc v => BM25Vectorizer.vectorize vectorizer doc = Ok v)
               (map tokens_of (kept_documents corpus)) vs
    /\ self' = {| DocumentVectorDB.__vectors := enumerate vs;
                  DocumentVectorDB.__documents :=
                    DocumentVectorDB.__documents self ++ kept_documents corpus;
                  DocumentVectorDB._vectorizer := vectorizer |}.
Proof.
  unfold DocumentVectorDB.put_corpus, fitted_vectorizer. split.
  - destruct (is_empty corpus); [discriminate|].
    rewrite tokenize_corpus_spec. cbn [app].
    destruct (is_empty (map tokens_of (kept_documents corpus))) eqn:Hkept;
      [discriminate|].
    intros Hput. bind_inv Hput. rename a into fitted. bind_inv Hput.
    inversion Hput; subst self'; clear Hput.
    unfold DocumentVectorDB.vectorize_all, enumerate in Hstep0.
    apply vectorize_all_from in Hstep0. destruct Hstep0 as (vs & -> & Hall).
    exists (build fitted), vs. rewrite Hstep. cbn [bind].
    split; [|auto].
    apply is_empty_false in Hkept. intros Hnil. apply Hkept. now rewrite Hnil.
  - intros (vectorizer & vs & Hkept & Hfit & Hall & ->).
    assert (Hcorpus : is_empty corpus = false).
    { apply is_empty_false. intros ->. now apply Hkept. }
    rewrite Hcorpus, tokenize_corpus_spec. cbn [app].
    assert (Htoks : is_empty (map tokens_of (kept_documents corpus)) = false).
    { apply is_empty_false. intros Hnil. apply Hkept.
      now destruct (kept_documents corpus). }
    rewrite Htoks. bind_inv Hfit. rename a into fitted.
    inversion Hfit; subst vectorizer. rewrite Hstep. cbn [bind].
    unfold DocumentVectorDB.vectorize_all, enumerate.
    rewrite (vectorize_all_from_total _ _ _ Hall). reflexivity.
Qed.

(** X6. The vector mapping never has a gap: after a successful [put_corpus]
    its keys are 0, 1, ..., k - 1 in this order, for the k documents of the
    corpus that have tokens, and the document list has grown by these k
    documents. *)
Theorem put_corpus_keys_without_gaps
    (self : DocumentVectorDB.t) (corpus : Corpus) (self' : DocumentVectorDB.t) :
  DocumentVectorDB.put_corpus self corpus = Ok self' ->
  map fst (DocumentVectorDB.__vectors self') =
  map Z.of_nat (seq 0 (List.length (kept_documents corpus)))
  /\ List.length (DocumentVectorDB.__documents self') =
     (List.length (DocumentVectorDB.__documents self)
      + List.length (kept_documents corpus))%nat.
Proof.
  intros Hput. apply put_corpus_ok in Hput.
  destruct Hput as (vs & -> & -> & Hall).
  apply Forall2_length in Hall. rewrite length_map in Hall. split.
  - unfold enumerate. rewrite Hall. exact (enumerate_from_keys vs 0).
  - apply length_app.
Qed.

(** X7. [put_corpus] raises the input error for an empty corpus, and a
    [ValueError] of its own for a corpus in which no document has tokens;
    and it stores nothing at all when a single kept document cannot be
    vectorized: it raises then. *)
Theorem put_corpus_rejects (self : DocumentVectorDB.t) (corpus : Corpus) :
  (corpus = [] ->
   DocumentVectorDB.put_corpus self corpus = Raise (ValueError "Invalid input argument"))
  /\ (corpus <> [] -> kept_documents corpus = [] ->
      DocumentVectorDB.put_corpus self corpus =
      Raise (ValueError "Tokenized documents are either None or empty"))
  /\ (forall vectorizer doc e,
        fitted_vectorizer self corpus = Ok vectorizer ->
        In doc (kept_documents corpus) ->
        BM25Vectorizer.vectorize vectorizer (tokens_of doc) = Raise e ->
        exists e', DocumentVectorDB.put_corpus self corpus = Raise e').
Proof.
  split; [|split].
  - now intros ->.
  - intros Hne Hkept. unfold DocumentVectorDB.put_corpus.
    apply is_empty_false in Hne. rewrite Hne, tokenize_corpus_spec, Hkept.
    reflexivity.
  - intros vectorizer doc e Hfit Hin Hraise.
    destruct (DocumentVectorDB.put_corpus self corpus) as [self'|e'] eqn:Hput; [|eauto].
    exfalso. apply put_corpus_succeeds_iff in Hput.
    destruct Hput as (vectorizer' & vs & _ & Hfit' & Hall & _).
    assert (vectorizer' = vectorizer) by congruence. subst vectorizer'.
    apply (in_map tokens_of) in Hin. apply In_nth_error in Hin.
    destruct Hin as [n Hn].
    destruct (Forall2_nth_error_l _ _ _ _ _ Hall Hn) as (v & _ & Hv). congruence.
Qed.

(** X8. A second [put_corpus] on the same database keeps the documents of
    the first and appends its own, while its vectors replace the first ones
    and are keyed from 0 again: a key then is the position of a document of
    the first corpus, whose vector it is not. *)
Theorem put_corpus_twice
    (first second : Corpus) (db1 db2 : DocumentVectorDB.t) :
  DocumentVectorDB.put_corpus DocumentVectorDB.init first = Ok db1 ->
  DocumentVectorDB.put_corpus db1 second = Ok db2 ->
  DocumentVectorDB.__documents db2 = kept_documents first ++ kept_documents second
  /\ forall i v, In (i, v) (DocumentVectorDB.__vectors db2) ->
       (exists doc,
          nth_error (kept_documents second) (Z.to_nat i) = Some doc
          /\ BM25Vectorizer.vectorize (DocumentVectorDB._vectorizer db2) (tokens_of doc)
             = Ok v)
       /\ (i < len (kept_documents first) ->
           exists old, nth_error (kept_documents first) (Z.to_nat i) = Some old
                       /\ py_index (DocumentVectorDB.__documents db2) i = Ok old).
Proof.
  intros H1 H2. apply put_corpus_ok in H1, H2.
  destruct H1 as (vs1 & _ & Hdocs1 & _). destruct H2 as (vs2 & Hvec2 & Hdocs2 & Hall2).
  simpl in Hdocs1. rewrite Hdocs1 in Hdocs2. split; [assumption|].
  intros i v Hin. rewrite Hvec2 in Hin. apply In_enumerate_from in Hin.
  destruct Hin as [Hi Hn]. rewrite Z.sub_0_r in Hn. split.
  - destruct (Forall2_nth_error_r _ _ _ _ _ Hall2 Hn) as (toks & Htoks & Hv).
    rewrite nth_error_map in Htoks.
    destruct (nth_error (kept_documents second) (Z.to_nat i)) as [doc|];
      simpl in Htoks; [|discriminate].
    inversion Htoks; subst toks. eauto.
  - intros Hlt. unfold len in Hlt.
    destruct (nth_error (kept_documents first) (Z.to_nat i)) as [old|] eqn:Hold;
      [|apply nth_error_None in Hold; lia].
    exists old. split; [reflexivity|]. rewrite Hdocs2.
    apply py_index_nonneg; [assumption|].
    rewrite nth_error_app1; [assumption|]. apply nth_error_Some. congruence.
Qed.

End IngestionFacts.

(** ** DocumentVectorDB: more on the accessors *)


Lemma py_index_in_bounds {A} (l : list A) i :
  in_bounds (len l) i -> exists x, py_index l i = Ok x.
Proof.
  unfold in_bounds, len, py_index. intros Hi.
  set (j := if i <? 0 then i + Z.of_nat (List.length l) else i).
  assert (Hj : 0 <= j < Z.of_nat (List.length l)).
  { unfold j. destruct (i <? 0) eqn:E;
      [apply Z.ltb_lt in E | apply Z.ltb_ge in E]; lia. }
  replace (j <? 0) with false by (symmetry; apply Z.ltb_ge; lia).
  replace (Z.of_nat (List.length l) <=? j) with false by (symmetry; apply Z.leb_gt; lia).
  simpl. destruct (nth_error l (Z.to_nat j)) as [x|] eqn:Hn; [eauto|].
  apply nth_error_None in Hn. lia.
Qed.

Lemma py_index_out_of_bounds {A} (l : list A) i :
  ~ in_bounds (len l) i -> py_index l i = Raise IndexError.
Proof.
  unfold in_bounds, len, py_index. intros Hi.
  set (j := if i <? 0 then i + Z.of_nat (List.length l) else i).
  assert (Hj : j < 0 \/ Z.of_nat (List.length l) <= j).
  { unfold j. destruct (i <? 0) eqn:E;
      [apply Z.ltb_lt in E | apply Z.ltb_ge in E]; lia. }
  destruct Hj as [Hj | Hj].
  - now apply Z.ltb_lt in Hj as ->.
  - apply Z.leb_le in Hj as ->. now rewrite orb_true_r.
Qed.

Lemma mapM_all_ok {A B} (f : A -> result B) xs :
  (forall x, In x xs -> exists y, f x = Ok y) -> exists ys, mapM f xs = Ok ys.
Proof.
  induction xs as [|x xs IH]; simpl; intros Hall; [eauto|].
  destruct (Hall x (or_introl eq_refl)) as [y ->].
  destruct IH as [ys ->]; [auto|]. simpl. eauto.
Qed.

Lemma mapM_raises {A B} (f : A -> result B) e xs :
  (forall x e', In x xs -> f x = Raise e' -> e' = e) ->
  (exists x, In x xs /\ f x = Raise e) ->
  mapM f xs = Raise e.
Proof.
  induction xs as [|x xs IH]; simpl; intros Hsame (x0 & Hin & Hx0); [destruct Hin|].
  destruct (f x) as [y|e'] eqn:Hx.
  - destruct Hin as [<- | Hin]; [congruence|]. simpl.
    rewrite IH; [reflexivity | eauto | eauto].
  - simpl. f_equal. eauto.
Qed.

Section AccessorFacts.


(** X10. With a non-empty filter, [get_raw_documents] returns exactly when
    every index of the filter lies between minus the number of documents
    and that number less one, with one document per distinct index; a
    single index outside raises [IndexError]. *)
Theorem get_raw_documents_bounds
    (db : DocumentVectorDB.t) (ind : Z) (indices : list Z) :
  (Forall (in_bounds (len (DocumentVectorDB.__documents db))) (ind :: indices) ->
   exists docs,
     DocumentVectorDB.get_raw_documents db (Some (ind :: indices)) = Ok docs
     /\ List.length docs = List.length (first_occurrences (ind :: indices)))
  /\ (Exists (fun i => ~ in_bounds (len (DocumentVectorDB.__documents db)) i)
             (ind :: indices) ->
      DocumentVectorDB.get_raw_documents db (Some (ind :: indices)) = Raise IndexError).
Proof.
  cbn [DocumentVectorDB.get_raw_documents].
  rewrite unique_indices_first_occurrences. split.
  - intros Hall.
    destruct (mapM_all_ok (py_index (DocumentVectorDB.__documents db))
                (first_occurrences (ind :: indices))) as [docs Hdocs].
    + intros i Hin. apply py_index_in_bounds.
      apply (proj1 (first_occurrences_In _ _)) in Hin.
      exact (proj1 (Forall_forall _ _) Hall i Hin).
    + exists docs. split; [assumption|]. now apply mapM_ok_length in Hdocs.
  - intros Hex. apply Exists_exists in Hex. destruct Hex as (i & Hin & Hout).
    apply mapM_raises.
    + intros x e' _ Hx.
      destruct (Z_lt_dec x (- len (DocumentVectorDB.__documents db))) as [Hlo|Hlo];
        [|destruct (Z_lt_dec x (len (DocumentVectorDB.__documents db))) as [Hhi|Hhi]].
      * rewrite py_index_out_of_bounds in Hx by (unfold in_bounds; lia). congruence.
      * destruct (py_index_in_bounds (DocumentVectorDB.__documents db) x) as [y Hy];
          [unfold in_bounds; lia | congruence].
      * rewrite py_index_out_of_bounds in Hx by (unfold in_bounds; lia). congruence.
    + exists i. split; [exact (proj2 (first_occurrences_In _ _) Hin)|].
      now apply py_index_out_of_bounds.
Qed.

(** X11. A negative index counts from the end of the document list, and
    the filter is freed of repeated indices, not of repeated documents: an
    index and its negative twin return the same document twice. *)
Theorem get_raw_documents_negative_index (db : DocumentVectorDB.t) (i : Z) :
  0 <= i < len (DocumentVectorDB.__documents db) ->
  DocumentVectorDB.get_raw_documents db
    (Some [i - len (DocumentVectorDB.__documents db)]) = Ok [doc_at db i]
  /\ DocumentVectorDB.get_raw_documents db
       (Some [i; i - len (DocumentVectorDB.__documents db)])
     = Ok [doc_at db i; doc_at db i].
Proof.
  intros Hi. set (n := len (DocumentVectorDB.__documents db)) in *.
  assert (Hneg : py_index (DocumentVectorDB.__documents db) (i - n) = Ok (doc_at db i)).
  { unfold py_index. fold (len (DocumentVectorDB.__documents db)). fold n.
    replace (i - n <? 0) with true by (symmetry; apply Z.ltb_lt; lia).
    replace (i - n + n) with i by lia.
    replace (i <? 0) with false by (symmetry; apply Z.ltb_ge; lia).
    replace (n <=? i) with false by (symmetry; apply Z.leb_gt; lia).
    simpl. unfold doc_at. rewrite (nth_error_nth' _ ""%string); [reflexivity|].
    unfold n, len in Hi. lia. }
  assert (Hpos : py_index (DocumentVectorDB.__documents db) i = Ok (doc_at db i))
    by (apply py_index_doc_at; exact Hi).
  cbn [DocumentVectorDB.get_raw_documents DocumentVectorDB.unique_indices fold_left
       in_Z existsb app mapM orb].
  split.
  - now rewrite Hneg.
  - replace (Z.eqb (i - n) i) with false by (symmetry; apply Z.eqb_neq; lia).
    cbn [orb app mapM]. now rewrite Hpos, Hneg.
Qed.

End AccessorFacts.

(** ** KMeans: more on training *)

Lemma Forall_set_nth {A} (P : A -> Prop) l n x :
  Forall P l -> P x -> Forall P (set_nth l n x).
Proof.
  intros Hall Hx; revert n; induction Hall as [|y t Hy Ht IH]; intros n; [constructor|].
  destruct n; simpl; constructor; auto.
Qed.

Lemma py_setitem_ok {A} (l l' : list A) i x :
  py_setitem l i x = Ok l' -> exists n, l' = set_nth l n x.
Proof.
  unfold py_setitem. destruct (_ || _); [discriminate|].
  intros Hs. inversion Hs. eauto.
Qed.

Lemma add_document_index_NoDup cluster index cluster' :
  ClusterDTO.add_document_index cluster index = Ok cluster' ->
  NoDup (ClusterDTO.get_indices cluster) -> NoDup (ClusterDTO.get_indices cluster').
Proof.
  unfold ClusterDTO.add_document_index, ClusterDTO.get_indices.
  destruct (index <? 0); [discriminate|].
  destruct (in_Z index (ClusterDTO.__indices cluster)) eqn:Hin;
    intros Hok Hnd; inversion Hok; subst; [assumption|]. simpl.
  apply in_Z_false_iff in Hin.
  apply NoDup_app; [assumption | repeat constructor; auto |].
  intros x Hx [-> | []]. contradiction.
Qed.

Lemma zip_cons_nth row cols j col :
  nth_error (zip_cons row cols) j = Some col ->
  exists x c, nth_error row j = Some x /\ nth_error cols j = Some c /\ col = x :: c.
Proof.
  revert cols j; induction row as [|x row IH]; intros cols j; simpl;
    [now destruct j|].
  destruct cols as [|c cols]; [now destruct j|].
  destruct j as [|j]; simpl.
  - intros Hc. inversion Hc. eauto.
  - apply IH.
Qed.

Lemma zip_cons_nth_total row cols j x c :
  nth_error row j = Some x -> nth_error cols j = Some c ->
  nth_error (zip_cons row cols) j = Some (x :: c).
Proof.
  revert cols j; induction row as [|y row IH]; intros cols j; [now destruct j|].
  destruct cols as [|c0 cols]; [now destruct j|].
  destruct j as [|j]; simpl; [congruence | apply IH].
Qed.

Lemma zip_star_nth rows j col :
  nth_error (zip_star rows) j = Some col ->
  col = column j rows /\ Forall (fun row => (j < List.length row)%nat) rows.
Proof.
  revert col; induction rows as [|row rows IH]; intros col; [now destruct j|].
  destruct rows as [|row2 rows].
  - cbn [zip_star]. rewrite nth_error_map.
    destruct (nth_error row j) as [x|] eqn:Hx; [|discriminate].
    intros Hc. inversion Hc; subst. unfold column. simpl.
    rewrite (nth_error_nth _ _ 0%Q Hx). split; [reflexivity|].
    constructor; [|constructor]. apply nth_error_Some. congruence.
  - change (zip_star (row :: row2 :: rows))
      with (zip_cons row (zip_star (row2 :: rows))).
    intros Hc. apply zip_cons_nth in Hc. destruct Hc as (x & c & Hx & Hc & ->).
    destruct (IH c Hc) as [-> Hall]. unfold column. cbn [map].
    rewrite (nth_error_nth _ _ 0%Q Hx). split; [reflexivity|].
    constructor; [|assumption]. apply nth_error_Some. congruence.
Qed.

Lemma zip_star_nth_total rows j :
  rows <> [] -> Forall (fun row => (j < List.length row)%nat) rows ->
  nth_error (zip_star rows) j = Some (column j rows).
Proof.
  induction rows as [|row rows IH]; intros Hne Hall; [congruence|].
  inversion Hall as [|? ? Hrow Hrest]; subst.
  destruct (nth_error row j) as [x|] eqn:Hx; [|apply nth_error_None in Hx; lia].
  destruct rows as [|row2 rows].
  - cbn [zip_star]. rewrite nth_error_map, Hx. unfold column. simpl.
    now rewrite (nth_error_nth _ _ 0%Q Hx).
  - change (zip_star (row :: row2 :: rows))
      with (zip_cons row (zip_star (row2 :: rows))).
    rewrite (zip_cons_nth_total _ _ _ x (column j (row2 :: rows)) Hx);
      [|apply IH; [discriminate | assumption]].
    unfold column. cbn [map]. now rewrite (nth_error_nth _ _ 0%Q Hx).
Qed.

Section TrainingFacts.
Context `{Collaborators}.

(** X12. The convergence check of [train] reads the clusters the iteration
    has just updated on both of its sides.  With a distance that puts every
    vector within 1e-07 of itself, [train] therefore ends with its first
    iteration whatever the data: more fuel changes nothing, and it returns
    exactly when that iteration returns at least one cluster. *)
Theorem train_runs_one_iteration (fuel : nat) (self : KMeans.t) :
  self_distance_small ->
  KMeans.train (S fuel) self = KMeans.train 1 self
  /\ KMeans.train 1 self <> None
  /\ forall self',
       KMeans.train (S fuel) self = Some (Ok self') <->
       KMeans.run_single_train_iteration (KMeans.seed_clusters self) = Ok self'
       /\ KMeans.__clusters self' <> [].
Proof.
  intros Hself. unfold KMeans.train.
  rewrite !(train_loop_first_iteration _ _ Hself).
  split; [reflexivity|].
  destruct (KMeans.run_single_train_iteration (KMeans.seed_clusters self))
    as [next|e].
  2: { split; [discriminate|]. intros self'.
       split; [discriminate | intros [Hr _]; discriminate]. }
  destruct (is_empty (KMeans.__clusters next)) eqn:Hcl.
  - split; [discriminate|]. intros self'. split; [discriminate|].
    intros [Hr Hne]. inversion Hr; subst next. exfalso.
    destruct (KMeans.__clusters self'); [congruence | discriminate].
  - apply is_empty_false in Hcl. split; [discriminate|]. intros self'. split.
    + intros Hs. inversion Hs; subst. auto.
    + intros [Hr Hne]. congruence.
Qed.

(** X13. A training that returns leaves the database and the requested
    number of clusters alone, and has added one cluster per seed to the
    clusters that were there: as many as [n_clusters], at most the number
    of stored vectors, and all stored vectors but the last [-n_clusters]
    for a negative [n_clusters]. *)
Theorem train_cluster_growth (fuel : nat) (self self' : KMeans.t) :
  KMeans.train fuel self = Some (Ok self') ->
  KMeans._db self' = KMeans._db self
  /\ KMeans._n_clusters self' = KMeans._n_clusters self
  /\ len (KMeans.__clusters self') =
     len (KMeans.__clusters self)
     + (if KMeans._n_clusters self <? 0
        then Z.max 0 (len (DocumentVectorDB.__vectors (KMeans._db self))
                      + KMeans._n_clusters self)
        else Z.min (KMeans._n_clusters self)
                   (len (DocumentVectorDB.__vectors (KMeans._db self)))).
Proof.
  intros Ht. assert (Hcount := train_cluster_count _ _ _ Ht).
  unfold KMeans.train in Ht. apply train_loop_ok in Ht.
  destruct Ht as (last & Hlast & Hdb & Hn & _).
  apply run_single_train_iteration_ok in Hlast.
  destruct Hlast as (_ & _ & Hdb' & Hn').
  split; [now rewrite Hdb', Hdb|]. split; [now rewrite Hn', Hn|].
  unfold len. rewrite Hcount, Nat2Z.inj_add. f_equal.
  unfold py_slice_to. destruct (KMeans._n_clusters self <? 0) eqn:Hneg;
    rewrite length_firstn; [apply Z.ltb_lt in Hneg | apply Z.ltb_ge in Hneg]; lia.
Qed.

(** X14. Training cannot start from nothing: with no cluster yet, [train]
    raises a [ValueError] over a database without vectors (the convergence
    check refuses the empty cluster list) and, over any other database,
    for zero requested clusters (there is no minimum over no centroid). *)
Theorem train_without_clusters (fuel : nat) (self : KMeans.t) :
  KMeans.__clusters self = [] ->
  (DocumentVectorDB.__vectors (KMeans._db self) = [] ->
   KMeans.train (S fuel) self = Some (Raise (ValueError "Invalid input argument(s)")))
  /\ (DocumentVectorDB.__vectors (KMeans._db self) <> [] ->
      KMeans._n_clusters self = 0 ->
      KMeans.train (S fuel) self =
      Some (Raise (ValueError "min() arg is an empty sequence"))).
Proof.
  intros Hcl. split.
  - intros Hvec. unfold KMeans.train, KMeans.seed_clusters. cbn [KMeans.train_loop].
    unfold KMeans.run_single_train_iteration.
    cbn [KMeans.set_clusters KMeans.__clusters KMeans._db DocumentVectorDB.get_vectors].
    rewrite Hcl, Hvec. unfold py_slice_to.
    destruct (KMeans._n_clusters self <? 0); rewrite firstn_nil; reflexivity.
  - intros Hvec Hn. unfold KMeans.train, KMeans.seed_clusters. cbn [KMeans.train_loop].
    unfold KMeans.run_single_train_iteration.
    cbn [KMeans.set_clusters KMeans.__clusters KMeans._db DocumentVectorDB.get_vectors].
    rewrite Hcl, Hn.
    destruct (DocumentVectorDB.__vectors (KMeans._db self)) as [|vector vectors];
      [congruence|].
    reflexivity.
Qed.

(** X15. An iteration that returns leaves the database, the requested and
    the actual number of clusters as they were, and every cluster with a
    member list that has no repetition and holds nothing but positions of
    stored vectors. *)
Theorem iteration_keeps_members_valid (self self' : KMeans.t) :
  KMeans.run_single_train_iteration self = Ok self' ->
  KMeans._db self' = KMeans._db self
  /\ KMeans._n_clusters self' = KMeans._n_clusters self
  /\ List.length (KMeans.__clusters self') = List.length (KMeans.__clusters self)
  /\ Forall (valid_members (len (DocumentVectorDB.__vectors (KMeans._db self))))
            (KMeans.__clusters self').
Proof.
  intros Hrun. destruct (run_single_train_iteration_ok _ _ Hrun) as (_ & Hlen & Hdb & Hn).
  split; [assumption|]. split; [assumption|]. split; [assumption|].
  unfold KMeans.run_single_train_iteration in Hrun.
  bind_inv Hrun. rename a into assigned_clusters. bind_inv Hrun. rename a into updated.
  inversion Hrun; subst self'; clear Hrun.
  cbn [KMeans.set_clusters KMeans.__clusters].
  cbn [DocumentVectorDB.get_vectors] in Hstep, Hstep0.
  set (vectors := DocumentVectorDB.__vectors (KMeans._db self)) in *.
  assert (Hassigned : Forall (valid_members (len vectors)) assigned_clusters).
  { refine (foldM_invariant (Forall (valid_members (len vectors))) _ _ _ _ _ _ Hstep).
    - intros clusters vector clusters' Hall Ha. apply assign_vector_ok in Ha.
      destruct Ha as (k & position & cluster & cluster' & _ & Hpos & Hc & Hadd & Hset).
      apply py_setitem_ok in Hset. destruct Hset as [n ->].
      apply Forall_set_nth; [assumption|].
      apply py_index_ok, nth_error_In in Hc.
      destruct (proj1 (Forall_forall _ _) Hall _ Hc) as [Hnd Hrange]. split.
      + eapply add_document_index_NoDup; eassumption.
      + intros p Hp. apply add_document_index_ok in Hadd.
        apply (proj2 Hadd) in Hp. destruct Hp as [Hp | ->]; [auto|].
        apply list_index_spec in Hpos. destruct Hpos as (Hp0 & (y & Hy & _) & _).
        split; [assumption|].
        assert ((Z.to_nat position < List.length vectors)%nat)
          by (apply nth_error_Some; congruence).
        unfold len. lia.
    - apply Forall_map. apply Forall_forall. intros c _. split; [constructor|].
      intros p []. }
  apply mapM_ok_Forall2 in Hstep0. clear Hstep Hlen Hdb Hn.
  induction Hstep0 as [|c c' cs cs' Hc _ IH]; [constructor|].
  inversion Hassigned; subst. constructor; [|auto].
  apply update_centroid_ok in Hc. destruct Hc as [Hidx _].
  unfold valid_members. now rewrite Hidx.
Qed.

(** The mean of one score is that score: it is added to 0 and divided by
    1. *)
Lemma mean_of_one (v c : Vector) :
  mapM (fun scores => py_div (Qsum scores) (len scores)) (map (fun x => [x]) v) = Ok c ->
  Forall2 Qeq c v.
Proof.
  revert c. induction v as [|x v IH]; simpl; intros c Hc.
  - injection Hc as <-. constructor.
  - bind_inv Hc. rename a into means. injection Hc as <-.
    constructor; [|now apply IH].
    unfold Qsum. cbn [fold_left]. change (inject_Z (len [x])) with 1%Q. field.
Qed.

(** X16. A cluster whose centroid an iteration updates has at least one
    member, and keeps its members.  The new centroid is never empty and has
    a coordinate exactly where all vectors at the member positions have one:
    it is as long as the shortest of them.  For a cluster with a single
    member the new centroid is the vector of that member, coordinate by
    coordinate: one score is added to 0 and divided by 1. *)
Theorem update_centroid_shape
    (vectors : list (Z * Vector)) (cluster cluster' : ClusterDTO.t) :
  KMeans.update_centroid vectors cluster = Ok cluster' ->
  (exists members,
     members <> []
     /\ Forall2 (fun ind v => exists key, py_index vectors ind = Ok (key, v))
                (ClusterDTO.get_indices cluster) members
     /\ ClusterDTO.get_indices cluster' = ClusterDTO.get_indices cluster
     /\ ClusterDTO.get_centroid cluster' <> []
     /\ (forall j,
           (j < List.length (ClusterDTO.get_centroid cluster'))%nat <->
           Forall (fun v => (j < List.length v)%nat) members))
  /\ (forall ind key v,
        ClusterDTO.get_indices cluster = [ind] ->
        py_index vectors ind = Ok (key, v) ->
        Forall2 Qeq (ClusterDTO.get_centroid cluster') v).
Proof.
  intros Hup. destruct (update_centroid_ok _ _ _ Hup) as [Hidx [Hmem _]].
  unfold KMeans.update_centroid in Hup.
  bind_inv Hup. rename a into members. bind_inv Hup. rename a into new_centroid.
  unfold ClusterDTO.set_new_centroid in Hup.
  destruct (is_empty new_centroid) eqn:Hempty; [discriminate|].
  inversion Hup; subst cluster'; clear Hup.
  cbn [ClusterDTO.get_centroid ClusterDTO.__centroid].
  assert (Hne : members <> []).
  { intros ->. apply mapM_ok_length in Hstep. rewrite Hidx in Hmem.
    destruct (ClusterDTO.get_indices cluster); [congruence | discriminate]. }
  split.
  - exists members. split; [assumption|]. split.
    { apply mapM_ok_Forall2 in Hstep. clear - Hstep.
      induction Hstep as [|ind v inds vs Hv _ IH]; constructor; [|assumption].
      bind_inv Hv. inversion Hv; subst v. destruct a as [key v]. eauto. }
    split; [assumption|]. split; [now apply is_empty_false|].
    apply mapM_ok_Forall2 in Hstep0. intros j. split.
    + intros Hj. apply nth_error_Some in Hj.
      destruct (nth_error new_centroid j) as [x|] eqn:Hx; [|congruence].
      destruct (Forall2_nth_error_r _ _ _ _ _ Hstep0 Hx) as (col & Hcol & _).
      apply zip_star_nth in Hcol. now destruct Hcol.
    + intros Hall.
      destruct (Forall2_nth_error_l _ _ _ _ _ Hstep0 (zip_star_nth_total _ _ Hne Hall))
        as (y & Hy & _).
      apply nth_error_Some. congruence.
  - intros ind key v Hone Hv. rewrite Hone in Hstep. cbn [mapM] in Hstep.
    rewrite Hv in Hstep. cbn [bind snd] in Hstep. injection Hstep as <-.
    cbn [zip_star] in Hstep0. now apply mean_of_one.
Qed.

End TrainingFacts.

(** ** KMeans: more on inference *)

Lemma Forall2_In_r {A B} (R : A -> B -> Prop) xs ys y :
  Forall2 R xs ys -> In y ys -> exists x, In x xs /\ R x y.
Proof.
  intros Hall Hin. apply In_nth_error in Hin. destruct Hin as [n Hn].
  destruct (Forall2_nth_error_r _ _ _ _ _ Hall Hn) as (x & Hx & HR).
  exists x. split; [eapply nth_error_In; eassumption | assumption].
Qed.

Lemma Forall2_In_l {A B} (R : A -> B -> Prop) xs ys x :
  Forall2 R xs ys -> In x xs -> exists y, In y ys /\ R x y.
Proof.
  intros Hall Hin. apply In_nth_error in Hin. destruct Hin as [n Hn].
  destruct (Forall2_nth_error_l _ _ _ _ _ Hall Hn) as (y & Hy & HR).
  exists y. split; [eapply nth_error_In; eassumption | assumption].
Qed.

Lemma StronglySorted_app_le {A} (R : A -> A -> Prop) l1 l2 :
  StronglySorted R (l1 ++ l2) -> forall x y, In x l1 -> In y l2 -> R x y.
Proof.
  induction l1 as [|a l1 IH]; simpl; intros Hs x y Hx Hy; [destruct Hx|].
  inversion Hs as [|? ? Hs' Ha]; subst. destruct Hx as [<- | Hx].
  - apply (proj1 (Forall_forall _ _) Ha). apply in_or_app. now right.
  - now apply IH.
Qed.

Section InferenceFacts.
Context `{Collaborators}.

Lemma doc_distances_of_spec query_vector doc_vectors doc_distances :
  KMeans.doc_distances_of query_vector doc_vectors = Ok doc_distances ->
  Forall2 (fun vector entry =>
             calculate_distance query_vector (snd vector) = Some (fst entry)
             /\ snd entry = fst vector)
          doc_vectors doc_distances.
Proof.
  unfold KMeans.doc_distances_of. rewrite mapM_ok_Forall2.
  induction 1 as [|vector entry vs es Hv _ IH]; constructor; [|assumption].
  destruct (calculate_distance query_vector (snd vector)); [|discriminate].
  now inversion Hv.
Qed.

(** X17. What [infer] returns is the head of a ranking of the candidates,
    the stored vectors that [get_vectors] gives for the members of one
    cluster: as many pairs as requested or as there are candidates, each
    the distance of the query to a candidate together with its key, in
    ascending order of distance, no key twice, and no candidate left out
    that is nearer than a returned one. *)
Theorem infer_ranks_candidates
    (self : KMeans.t) (query_vector : Vector) (n_neighbours : Z)
    (res : list (Q * Z)) :
  KMeans.infer self query_vector n_neighbours = Ok res ->
  exists cluster candidates,
    In cluster (KMeans.__clusters self)
    /\ candidates = DocumentVectorDB.get_vectors (KMeans._db self)
                      (Some (ClusterDTO.get_indices cluster))
    /\ List.length res = Nat.min (Z.to_nat n_neighbours) (List.length candidates)
    /\ StronglySorted Qle (map fst res)
    /\ (forall d i, In (d, i) res ->
          exists v, In (i, v) candidates
                    /\ calculate_distance query_vector v = Some d)
    /\ (forall i v, In (i, v) candidates -> ~ In i (map snd res) ->
          exists d', calculate_distance query_vector v = Some d'
                     /\ forall d, In d (map fst res) -> (d <= d')%Q)
    /\ (NoDup (map fst (DocumentVectorDB.__vectors (KMeans._db self))) ->
        NoDup (map snd res)).
Proof.
  intros Hinfer. apply infer_ok in Hinfer.
  destruct Hinfer as (j & cluster & doc_distances & _ & _ & _ & Hc & Hdd & ->).
  exists cluster, (DocumentVectorDB.get_vectors (KMeans._db self)
                     (Some (ClusterDTO.get_indices cluster))).
  set (candidates := DocumentVectorDB.get_vectors (KMeans._db self)
                       (Some (ClusterDTO.get_indices cluster))) in *.
  assert (Hspec := doc_distances_of_spec _ _ _ Hdd).
  assert (Hperm := sorted_by_key_perm doc_distances).
  split; [apply py_index_ok in Hc; eapply nth_error_In; eassumption|].
  split; [reflexivity|]. split; [|split; [|split; [|split]]].
  - rewrite length_firstn, (Permutation_length Hperm).
    now rewrite (Forall2_length Hspec).
  - apply StronglySorted_scores, StronglySorted_firstn, sorted_by_key_sorted.
  - intros d i Hin. apply In_firstn in Hin. apply (Permutation_in _ Hperm) in Hin.
    destruct (Forall2_In_r _ _ _ _ Hspec Hin) as ([i' v] & Hv & Hd & Hi).
    simpl in Hd, Hi. subst i'. eauto.
  - intros i v Hin Hout.
    destruct (Forall2_In_l _ _ _ _ Hspec Hin) as ([d' i'] & Hentry & Hd & Hi).
    simpl in Hd, Hi. subst i'. exists d'. split; [assumption|].
    apply (Permutation_in _ (Permutation_sym Hperm)) in Hentry.
    rewrite <- (firstn_skipn (Z.to_nat n_neighbours) (sorted_by_key doc_distances))
      in Hentry.
    apply in_app_or in Hentry. destruct Hentry as [Hhead | Htail].
    + exfalso. apply Hout. apply in_map_iff. now exists (d', i).
    + intros d Hd'. apply in_map_iff in Hd'. destruct Hd' as ([d0 i0] & <- & Hin0).
      assert (Hsorted := sorted_by_key_sorted doc_distances).
      rewrite <- (firstn_skipn (Z.to_nat n_neighbours) (sorted_by_key doc_distances))
        in Hsorted.
      exact (StronglySorted_app_le _ _ _ Hsorted _ _ Hin0 Htail).
  - intros Hnd. rewrite <- firstn_map. apply NoDup_firstn.
    apply (Permutation_NoDup (l := map snd doc_distances)).
    + apply Permutation_map. now symmetry.
    + rewrite (doc_distances_of_keys _ _ _ Hdd). unfold candidates.
      unfold DocumentVectorDB.get_vectors.
      destruct (ClusterDTO.get_indices cluster); [assumption|].
      now apply NoDup_map_filter.
Qed.

(** X18. When the cluster that [infer] selects has no member, its empty
    member list reaches [get_vectors] as a filter that selects everything:
    the candidates are all stored vectors, and a count as large as the
    database returns every key. *)
Theorem infer_memberless_ranks_everything
    (self : KMeans.t) (query_vector : Vector) (n_neighbours : Z)
    (res : list (Q * Z)) (j : Z) (cluster : ClusterDTO.t) :
  KMeans.closest_cluster_of query_vector (KMeans.__clusters self) = Ok j ->
  py_index (KMeans.__clusters self) j = Ok cluster ->
  ClusterDTO.get_indices cluster = [] ->
  KMeans.infer self query_vector n_neighbours = Ok res ->
  List.length res =
  Nat.min (Z.to_nat n_neighbours)
          (List.length (DocumentVectorDB.__vectors (KMeans._db self)))
  /\ ((List.length (DocumentVectorDB.__vectors (KMeans._db self))
       <= Z.to_nat n_neighbours)%nat ->
      forall i v, In (i, v) (DocumentVectorDB.__vectors (KMeans._db self)) ->
                  In i (map snd res)).
Proof.
  intros Hj Hc Hidx Hinfer. apply infer_ok in Hinfer.
  destruct Hinfer as (j' & cluster' & doc_distances & _ & _ & Hj' & Hc' & Hdd & ->).
  assert (j' = j) by congruence. subst j'.
  assert (cluster' = cluster) by congruence. subst cluster'.
  rewrite Hidx in Hdd. cbn [DocumentVectorDB.get_vectors] in Hdd.
  assert (Hkeys := doc_distances_of_keys _ _ _ Hdd).
  assert (Hperm := sorted_by_key_perm doc_distances).
  assert (Hlen : List.length (sorted_by_key doc_distances) =
                 List.length (DocumentVectorDB.__vectors (KMeans._db self))).
  { rewrite (Permutation_length Hperm), <- (length_map snd doc_distances), Hkeys.
    apply length_map. }
  split.
  - now rewrite length_firstn, Hlen.
  - intros Hall i v Hin. rewrite firstn_all2 by lia.
    apply (Permutation_in (l := map snd doc_distances)).
    + apply Permutation_map. now symmetry.
    + rewrite Hkeys. apply in_map_iff. now exists (i, v).
Qed.

Lemma cent_distances_undefined query_vector clusters : forall k acc,
  (exists cluster, In cluster clusters
                   /\ ClusterDTO.get_centroid cluster <> []
                   /\ calculate_distance query_vector (ClusterDTO.get_centroid cluster)
                      = None) ->
  foldM (KMeans.add_cent_distance query_vector) (enumerate_from k clusters) acc =
  Raise (ValueError "Failed to calculate distance between query vector and centroid").
Proof.
  induction clusters as [|c rest IH]; intros k acc (cluster & Hin & Hne & Hnone);
    [destruct Hin|].
  cbn [enumerate_from foldM]. unfold KMeans.add_cent_distance at 1.
  destruct (is_empty (ClusterDTO.get_centroid c)) eqn:Hce.
  - cbn [bind]. apply IH. destruct Hin as [-> | Hin]; [|eauto].
    apply is_empty_false in Hne. congruence.
  - destruct (calculate_distance query_vector (ClusterDTO.get_centroid c)) eqn:Hd;
      [|reflexivity].
    cbn [bind]. apply IH. destruct Hin as [-> | Hin]; [congruence | eauto].
Qed.

(** X19. [infer] raises the input error for an empty query vector and for a
    count that is not positive; on a state without clusters, as before any
    training, it raises [IndexError]; and it raises a [ValueError] as soon
    as one cluster has a centroid whose distance from the query is
    undefined, whichever cluster would have been the nearest. *)
Theorem infer_rejects
    (self : KMeans.t) (query_vector : Vector) (n_neighbours : Z) :
  (query_vector = [] \/ n_neighbours <= 0 ->
   KMeans.infer self query_vector n_neighbours =
   Raise (ValueError "Invalid input argument(s)"))
  /\ (query_vector <> [] -> 0 < n_neighbours ->
      KMeans.__clusters self = [] ->
      KMeans.infer self query_vector n_neighbours = Raise IndexError)
  /\ (query_vector <> [] -> 0 < n_neighbours ->
      (exists cluster,
         In cluster (KMeans.__clusters self)
         /\ ClusterDTO.get_centroid cluster <> []
         /\ calculate_distance query_vector (ClusterDTO.get_centroid cluster) = None) ->
      KMeans.infer self query_vector n_neighbours =
      Raise (ValueError
               "Failed to calculate distance between query vector and centroid")).
Proof.
  unfold KMeans.infer. split; [|split].
  - intros [-> | Hn]; [reflexivity|].
    apply Z.leb_le in Hn as ->. now rewrite orb_true_r.
  - intros Hq Hn Hcl. apply is_empty_false in Hq. rewrite Hq.
    replace (n_neighbours <=? 0) with false by (symmetry; apply Z.leb_gt; lia).
    rewrite Hcl. reflexivity.
  - intros Hq Hn Hex. apply is_empty_false in Hq. rewrite Hq.
    replace (n_neighbours <=? 0) with false by (symmetry; apply Z.leb_gt; lia).
    cbn [orb]. unfold KMeans.closest_cluster_of, KMeans.cent_distances_of, enumerate.
    now rewrite (cent_distances_undefined _ _ 0 [] Hex).
Qed.

End InferenceFacts.

(** ** KMeans: the report and the sum of squares *)

Lemma fold_left_growing {B} (F : Q -> B -> Q) (P : B -> Prop) l :
  (forall acc x, (acc <= F acc x)%Q) ->
  (forall acc x, (F acc x <= acc)%Q <-> P x) ->
  forall acc,
    (acc <= fold_left F l acc)%Q
    /\ ((fold_left F l acc <= acc)%Q <-> Forall P l).
Proof.
  intros Hgrow Hzero. induction l as [|x t IH]; intros acc; simpl.
  - split; [lra|]. split; [constructor | lra].
  - destruct (IH (F acc x)) as [Hle Hiff]. pose proof (Hgrow acc x) as Hstep.
    split; [lra|]. split.
    + intros Hback. constructor.
      * apply (Hzero acc). lra.
      * apply Hiff. lra.
    + intros Hall. inversion Hall as [|? ? Hx Ht]; subst.
      apply (Hzero acc) in Hx. apply Hiff in Ht. lra.
Qed.

(** A sum that only grows is at least as large as what any one step adds. *)
Lemma fold_left_term_bound {B} (F : Q -> B -> Q) l x (t : Q) :
  (forall acc y, (acc <= F acc y)%Q) ->
  In x l ->
  (forall acc, (acc + t <= F acc x)%Q) ->
  forall acc, (acc + t <= fold_left F l acc)%Q.
Proof.
  intros Hgrow Hin Hstep. induction l as [|y l IH]; [destruct Hin|].
  intros acc. cbn [fold_left]. destruct Hin as [-> | Hin].
  - assert (Hrest : forall l' a, (a <= fold_left F l' a)%Q).
    { induction l' as [|z l' IH']; intros a; cbn [fold_left]; [lra|].
      specialize (IH' (F a z)). specialize (Hgrow a z). lra. }
    specialize (Hrest l (F acc x)). specialize (Hstep acc). lra.
  - specialize (IH Hin (F acc y)). specialize (Hgrow acc y). lra.
Qed.

Lemma fold_left_Qplus_map {B} (g : B -> Q) l : forall acc,
  fold_left Qplus (map g l) acc = fold_left (fun s y => (s + g y)%Q) l acc.
Proof. induction l as [|x t IH]; intros acc; simpl; [reflexivity | apply IH]. Qed.

Lemma square_growing (s a b : Q) :
  (s <= s + (a - b) ^ 2)%Q /\ ((s + (a - b) ^ 2 <= s)%Q <-> (a == b)%Q).
Proof.
  change ((a - b) ^ 2)%Q with ((a - b) * (a - b))%Q.
  assert (Hx : forall x : Q, (0 <= x * x)%Q) by (intros x; nra).
  assert (Hz : forall x : Q, (x * x <= 0)%Q -> (x == 0)%Q) by (intros x Hle; nra).
  pose proof (Hx (a - b)%Q) as Hsq. split; [lra|]. split.
  - intros Hle. assert (Hd : (a - b == 0)%Q) by (apply Hz; lra). lra.
  - intros Heq. assert (Hd : ((a - b) * (a - b) == 0)%Q).
    { setoid_replace (a - b)%Q with 0%Q by lra. ring. }
    lra.
Qed.

Lemma squared_distance_growing centroid vector acc :
  (acc <= acc + KMeans.squared_distance centroid vector)%Q
  /\ ((acc + KMeans.squared_distance centroid vector <= acc)%Q <->
      Forall (fun pair => (fst pair == snd pair)%Q) (combine centroid vector)).
Proof.
  unfold KMeans.squared_distance, Qsum. rewrite fold_left_Qplus_map.
  destruct (fold_left_growing
              (fun s pair => (s + (fst pair - snd pair) ^ 2)%Q)
              (fun pair => (fst pair == snd pair)%Q)
              (combine centroid vector)) with (acc := 0%Q) as [Hle Hiff].
  - intros s pair. apply square_growing.
  - intros s pair. apply square_growing.
  - split; [lra|]. rewrite <- Hiff. split; intros Hs; lra.
Qed.

Lemma get_raw_documents_valid db keys :
  keys_valid db -> NoDup keys -> keys <> [] ->
  (forall k, In k keys -> In k (map fst (DocumentVectorDB.__vectors db))) ->
  DocumentVectorDB.get_raw_documents db (Some keys) = Ok (map (doc_at db) keys).
Proof.
  intros [_ Hrange] Hnd Hne Hkeys. unfold DocumentVectorDB.get_raw_documents.
  destruct keys as [|k ks] eqn:E; [congruence|]. rewrite <- E in *.
  rewrite (unique_indices_NoDup_id _ Hnd).
  apply mapM_total. intros i Hin. apply py_index_doc_at. auto.
Qed.

Section ReportFacts.
Context `{Collaborators}.

(** X20. The sum of squares is never negative and at least as large as the
    squared distance of any single vector that a cluster selects from that
    cluster's centroid.  It is zero whenever every coordinate of every
    selected vector equals the coordinate of the centroid it is paired
    with. *)
Theorem calculate_square_sum_bounds (self : KMeans.t) :
  (0 <= KMeans.calculate_square_sum self)%Q
  /\ (forall cluster i v,
        In cluster (KMeans.__clusters self) ->
        In (i, v) (DocumentVectorDB.get_vectors (KMeans._db self)
                     (Some (ClusterDTO.get_indices cluster))) ->
        (KMeans.squared_distance (ClusterDTO.get_centroid cluster) v
         <= KMeans.calculate_square_sum self)%Q)
  /\ ((forall cluster i v,
         In cluster (KMeans.__clusters self) ->
         In (i, v) (DocumentVectorDB.get_vectors (KMeans._db self)
                      (Some (ClusterDTO.get_indices cluster))) ->
         Forall (fun pair => (fst pair == snd pair)%Q)
                (combine (ClusterDTO.get_centroid cluster) v)) ->
      (KMeans.calculate_square_sum self == 0)%Q).
Proof.
  pose (candidates := fun cluster =>
          DocumentVectorDB.get_vectors (KMeans._db self)
            (Some (ClusterDTO.get_indices cluster))).
  pose (inner := fun sse cluster =>
          fold_left (fun sse vector =>
                       (sse + KMeans.squared_distance (ClusterDTO.get_centroid cluster)
                                                      (snd vector))%Q)
                    (candidates cluster) sse).
  change (KMeans.calculate_square_sum self)
    with (fold_left inner (KMeans.__clusters self) 0%Q).
  fold candidates.
  assert (Hinner : forall cluster acc,
            (acc <= inner acc cluster)%Q
            /\ ((inner acc cluster <= acc)%Q <->
                Forall (fun vector =>
                          Forall (fun pair => (fst pair == snd pair)%Q)
                                 (combine (ClusterDTO.get_centroid cluster) (snd vector)))
                       (candidates cluster))).
  { intros cluster acc. unfold inner. apply fold_left_growing.
    - intros s vector. apply squared_distance_growing.
    - intros s vector. apply squared_distance_growing. }
  destruct (fold_left_growing inner
              (fun cluster =>
                 Forall (fun vector =>
                           Forall (fun pair => (fst pair == snd pair)%Q)
                                  (combine (ClusterDTO.get_centroid cluster) (snd vector)))
                        (candidates cluster))
              (KMeans.__clusters self)) with (acc := 0%Q) as [Hle Hiff].
  - intros acc cluster. apply Hinner.
  - intros acc cluster. apply Hinner.
  - split; [exact Hle|]. split.
    + intros cluster i v Hc Hv.
      assert (Hterm : (0 + KMeans.squared_distance (ClusterDTO.get_centroid cluster) v
                       <= fold_left inner (KMeans.__clusters self) 0)%Q).
      { apply (fold_left_term_bound inner _ cluster);
          [intros acc y; apply Hinner | assumption |].
        intros acc. unfold inner.
        apply (fold_left_term_bound _ _ (i, v));
          [|assumption | intros s; cbn [snd]; lra].
        intros s vector. apply squared_distance_growing. }
      lra.
    + intros Hall. assert (Hback : (fold_left inner (KMeans.__clusters self) 0 <= 0)%Q).
      { apply Hiff. apply Forall_forall. intros cluster Hc.
        apply Forall_forall. intros [i v] Hv. exact (Hall cluster i v Hc Hv). }
      lra.
Qed.

Lemma cluster_info_ok self m index cluster info :
  0 < m ->
  KMeans.cluster_info self m (index, cluster) = Ok info ->
  KMeans.cluster_id info = index
  /\ (List.length (KMeans.documents info) <= Z.to_nat m)%nat
  /\ (keys_valid (KMeans._db self) ->
      DocumentVectorDB.get_vectors (KMeans._db self)
        (Some (ClusterDTO.get_indices cluster)) <> [] ->
      forall doc, In doc (KMeans.documents info) ->
        exists i v,
          In (i, v) (DocumentVectorDB.get_vectors (KMeans._db self)
                       (Some (ClusterDTO.get_indices cluster)))
          /\ doc = doc_at (KMeans._db self) i).
Proof.
  intros Hm Hinfo. unfold KMeans.cluster_info in Hinfo.
  set (candidates := DocumentVectorDB.get_vectors (KMeans._db self)
                       (Some (ClusterDTO.get_indices cluster))) in *.
  bind_inv Hinfo. rename a into distances. bind_inv Hinfo. rename a into docs.
  inversion Hinfo; subst info; clear Hinfo. cbn [KMeans.cluster_id KMeans.documents].
  unfold py_slice_to. replace (m <? 0) with false by (symmetry; apply Z.ltb_ge; lia).
  split; [reflexivity|]. split; [rewrite length_firstn; lia|].
  intros Hvalid Hne doc Hdoc. apply In_firstn in Hdoc.
  assert (Hkeys : map snd distances = map fst candidates).
  { apply mapM_ok_Forall2 in Hstep. clear - Hstep.
    induction Hstep as [|vector entry vs es Hv _ IH]; simpl; [reflexivity|].
    destruct (calculate_distance _ _); [|discriminate].
    inversion Hv; subst. simpl. now rewrite IH. }
  assert (Hperm : Permutation (map snd (sorted_by_key distances)) (map fst candidates)).
  { rewrite <- Hkeys. apply Permutation_map, sorted_by_key_perm. }
  assert (Hsub : forall k, In k (map fst candidates) ->
                           In k (map fst (DocumentVectorDB.__vectors (KMeans._db self)))).
  { intros k Hk. unfold candidates, DocumentVectorDB.get_vectors in Hk.
    destruct (ClusterDTO.get_indices cluster); [assumption|].
    apply in_map_iff in Hk. destruct Hk as (pair & <- & Hin).
    apply filter_In in Hin. apply in_map. tauto. }
  rewrite get_raw_documents_valid in Hstep0; try assumption.
  - inversion Hstep0; subst docs. apply in_map_iff in Hdoc.
    destruct Hdoc as (k & <- & Hk). apply (Permutation_in _ Hperm) in Hk.
    apply in_map_iff in Hk. destruct Hk as ([i v] & <- & Hin). eauto.
  - apply (Permutation_NoDup (Permutation_sym Hperm)).
    unfold candidates, DocumentVectorDB.get_vectors.
    destruct (ClusterDTO.get_indices cluster); [apply Hvalid|].
    apply NoDup_map_filter, Hvalid.
  - intros Hnil. rewrite Hnil in Hperm. apply Permutation_nil in Hperm.
    destruct candidates; [congruence | discriminate].
  - intros k Hk. apply Hsub. now apply (Permutation_in _ Hperm).
Qed.

(** X21. [get_clusters_info] gives one entry per cluster, numbered by the
    position of the cluster, each with at most the requested number of
    documents.  Over a database with valid keys, the documents of an entry
    whose cluster has candidate vectors are the documents of such
    candidates. *)
Theorem get_clusters_info_shape
    (self : KMeans.t) (num_examples : Z) (infos : list KMeans.ClusterInfo) :
  KMeans.get_clusters_info self (PyInt num_examples) = Ok infos ->
  0 < num_examples
  /\ map KMeans.cluster_id infos = map fst (enumerate (KMeans.__clusters self))
  /\ Forall (fun info =>
               (List.length (KMeans.documents info) <= Z.to_nat num_examples)%nat)
            infos
  /\ (keys_valid (KMeans._db self) ->
      Forall2 (fun cluster info =>
                 DocumentVectorDB.get_vectors (KMeans._db self)
                   (Some (ClusterDTO.get_indices cluster)) <> [] ->
                 forall doc, In doc (KMeans.documents info) ->
                   exists i v,
                     In (i, v) (DocumentVectorDB.get_vectors (KMeans._db self)
                                  (Some (ClusterDTO.get_indices cluster)))
                     /\ doc = doc_at (KMeans._db self) i)
              (KMeans.__clusters self) infos).
Proof.
  unfold KMeans.get_clusters_info.
  destruct (num_examples <=? 0) eqn:Hm; [discriminate|]. apply Z.leb_gt in Hm.
  intros Hinfos. apply mapM_ok_Forall2 in Hinfos. split; [assumption|].
  unfold enumerate in *. revert Hinfos. generalize 0.
  generalize (KMeans.__clusters self). intros clusters.
  revert infos; induction clusters as [|cluster clusters IH]; intros infos k Hall;
    inversion Hall as [|? info ? infos' Hinfo Hrest]; subst.
  - repeat split; constructor.
  - destruct (cluster_info_ok _ _ _ _ _ Hm Hinfo) as (Hid & Hlen & Hdocs).
    destruct (IH _ _ Hrest) as (Hids & Hlens & Hdocss).
    cbn [map enumerate_from fst]. split; [now rewrite Hid, Hids|].
    split; [now constructor|]. intros Hvalid. constructor; auto.
Qed.

End ReportFacts.

(** ** The two engines over the database *)

Lemma nodup_length_le (l : list Z) :
  (List.length (nodup Z.eq_dec l) <= List.length l)%nat.
Proof.
  induction l as [|x l IH]; simpl; [lia|].
  destruct (in_dec Z.eq_dec x l); simpl; lia.
Qed.

Lemma nodup_length_NoDup (l : list Z) :
  List.length (nodup Z.eq_dec l) = List.length l -> NoDup l.
Proof.
  induction l as [|x l IH]; simpl; [constructor|].
  pose proof (nodup_length_le l) as Hle.
  destruct (in_dec Z.eq_dec x l) as [Hin|Hnin]; simpl; intros Hlen; [lia|].
  constructor; [assumption | apply IH; lia].
Qed.

Lemma first_occurrences_length (l : list Z) :
  (List.length (first_occurrences l) <= List.length l)%nat
  /\ (List.length (first_occurrences l) = List.length l -> NoDup l).
Proof.
  unfold first_occurrences. rewrite length_rev.
  pose proof (nodup_length_le (rev l)) as Hle. rewrite length_rev in Hle.
  split; [assumption|]. intros Hlen.
  rewrite <- (rev_involutive l). apply NoDup_rev, nodup_length_NoDup.
  now rewrite length_rev.
Qed.

Lemma Forall2_strengthen {A B} (R T : A -> B -> Prop) xs ys :
  Forall2 R xs ys ->
  (forall p x y, nth_error xs p = Some x -> nth_error ys p = Some y -> T x y) ->
  Forall2 (fun x y => R x y /\ T x y) xs ys.
Proof.
  induction 1 as [|x y xs ys HR _ IH]; intros Hnth; constructor.
  - split; [assumption|]. exact (Hnth O x y eq_refl eq_refl).
  - apply IH. intros p x' y' Hx Hy. exact (Hnth (S p) x' y' Hx Hy).
Qed.

Lemma paired_with_positions (docs : Corpus) (knn : list (Z * Q)) : forall k res,
  mapM (fun '(ind, neighbour) => doc <- py_index docs ind ;; Ok (snd neighbour, doc))
       (enumerate_from (Z.of_nat k) knn) = Ok res ->
  Forall2 (fun neighbour entry => fst entry = snd neighbour) knn res
  /\ forall p neighbour entry,
       nth_error knn p = Some neighbour -> nth_error res p = Some entry ->
       nth_error docs (k + p) = Some (snd entry).
Proof.
  induction knn as [|nb knn IH]; intros k res; cbn [enumerate_from mapM].
  - intros Hr. inversion Hr; subst. split; [constructor|]. intros p ? ? Hp. now destruct p.
  - intros Hr. bind_inv Hr. bind_inv Hstep. rename a0 into doc.
    inversion Hstep; subst a; clear Hstep. bind_inv Hr. rename a into rest.
    inversion Hr; subst res; clear Hr.
    replace (Z.of_nat k + 1) with (Z.of_nat (S k)) in Hstep by lia.
    destruct (IH _ _ Hstep) as [Hall Hnth].
    apply py_index_nonneg_inv in Hstep0; [|lia]. rewrite Nat2Z.id in Hstep0.
    split; [constructor; [reflexivity | assumption]|].
    intros [|p] neighbour entry Hn He; simpl in Hn, He.
    + inversion He; subst. simpl. now rewrite Nat.add_0_r.
    + replace (k + S p)%nat with (S k + p)%nat by lia. eauto.
Qed.

Section EngineFacts.
Context `{Collaborators} `{KnnSearch}.

(** X22. A result of the exact engine lists the neighbours that
    [_calculate_knn] has found, in its order and with its distances, each
    beside the document at the neighbour's index.  It exists only for
    neighbours with distinct indices: the documents are fetched once per
    distinct index and then read by position. *)
Theorem exact_retrieval_pairs
    (self : VectorDBSearchEngine.t) (query n_neighbours : PyVal)
    (res : list (Q * string)) :
  VectorDBSearchEngine.retrieve_relevant_documents self query n_neighbours = Ok res ->
  exists text tokens query_vector count knn,
    query = PyStr text /\ tokenize text = Some tokens
    /\ BM25Vectorizer.vectorize
         (DocumentVectorDB.get_vectorizer (VectorDBSearchEngine._db self)) tokens
       = Ok query_vector
    /\ ClusteringSearchEngine.checked_count n_neighbours = Some count
    /\ _calculate_knn query_vector
         (map snd (DocumentVectorDB.__vectors (VectorDBSearchEngine._db self))) count
       = Some knn
    /\ knn <> []
    /\ NoDup (map fst knn)
    /\ Forall2 (fun neighbour entry =>
                  fst entry = snd neighbour
                  /\ py_index (DocumentVectorDB.__documents (VectorDBSearchEngine._db self))
                              (fst neighbour) = Ok (snd entry))
               knn res.
Proof.
  unfold VectorDBSearchEngine.retrieve_relevant_documents.
  destruct (ClusteringSearchEngine.checked_query query) as [text|] eqn:Hq;
    [|discriminate].
  destruct (ClusteringSearchEngine.checked_count n_neighbours) as [count|];
    [|discriminate].
  destruct (tokenize text) as [[|tok toks]|] eqn:Htok; [discriminate| |discriminate].
  destruct (BM25Vectorizer.vectorize _ (tok :: toks)) as [query_vector|e] eqn:Hv;
    [|discriminate].
  cbn [bind]. destruct (is_empty query_vector); [discriminate|].
  cbn [DocumentVectorDB.get_vectors].
  destruct (_calculate_knn query_vector _ count) as [[|nb knn]|] eqn:Hknn;
    [discriminate| |discriminate].
  intros Hres. bind_inv Hres. rename a into docs.
  unfold VectorDBSearchEngine.pair_documents, enumerate in Hres.
  destruct (paired_with_positions docs (nb :: knn) 0 res Hres) as [Hscores Hdocs].
  cbn [DocumentVectorDB.get_raw_documents map] in Hstep.
  change (fst nb :: map fst knn) with (map fst (nb :: knn)) in Hstep.
  rewrite unique_indices_first_occurrences in Hstep.
  assert (Hnd : NoDup (map fst (nb :: knn))).
  { apply first_occurrences_length.
    destruct (first_occurrences_length (map fst (nb :: knn))) as [Hle _].
    apply Nat.le_antisymm; [assumption|].
    rewrite <- (mapM_ok_length _ _ _ Hstep), length_map.
    destruct (nth_error res (List.length knn)) as [entry|] eqn:He.
    - assert (Hlast : exists last, nth_error (nb :: knn) (List.length knn) = Some last).
      { destruct (nth_error (nb :: knn) (List.length knn)) eqn:E; [eauto|].
        apply nth_error_None in E. simpl in E. lia. }
      destruct Hlast as [last Hlast].
      specialize (Hdocs _ _ _ Hlast He). simpl in Hdocs.
      assert ((List.length knn < List.length docs)%nat)
        by (apply nth_error_Some; congruence).
      simpl. lia.
    - apply nth_error_None in He. apply Forall2_length in Hscores.
      simpl in Hscores. lia. }
  rewrite <- unique_indices_first_occurrences in Hstep.
  rewrite (unique_indices_NoDup_id _ Hnd) in Hstep.
  apply mapM_ok_Forall2 in Hstep.
  destruct query as [| | | |text']; try discriminate.
  assert (text' = text).
  { destruct text'; simpl in Hq; [discriminate | congruence]. }
  subst text'.
  exists text, (tok :: toks), query_vector, count, (nb :: knn).
  repeat (split; [first [reflexivity | assumption | discriminate]|]).
  apply Forall2_strengthen; [assumption|].
  intros p neighbour entry Hn He. specialize (Hdocs _ _ _ Hn He). simpl in Hdocs.
  assert (Hkey : nth_error (map fst (nb :: knn)) p = Some (fst neighbour))
    by (now apply map_nth_error).
  destruct (Forall2_nth_error_l _ _ _ _ _ Hstep Hkey) as (doc & Hdoc & Hidx).
  congruence.
Qed.

(** X23. Over a database with valid keys, every (score, text) pair of a
    clustering retrieval is made of the document at the key of a stored
    vector and of the distance between the query's vector and that vector,
    and all these keys are members of one cluster of the engine after the
    call.  The database of the engine stays the same. *)
Theorem clustering_retrieval_pairs
    (fuel : nat) (self self' : ClusteringSearchEngine.t) (query : PyVal) (n : Z)
    (res : list (Q * string)) :
  keys_valid (ClusteringSearchEngine._db self) ->
  ClusteringSearchEngine.retrieve_relevant_documents fuel self query (PyInt n)
  = Some (Ok (self', res)) ->
  ClusteringSearchEngine._db self' = ClusteringSearchEngine._db self
  /\ exists text tokens query_vector cluster,
       query = PyStr text /\ tokenize text = Some tokens
       /\ BM25Vectorizer.vectorize
            (DocumentVectorDB.get_vectorizer (ClusteringSearchEngine._db self)) tokens
          = Ok query_vector
       /\ In cluster (KMeans.__clusters (ClusteringSearchEngine.__algo self'))
       /\ forall score doc, In (score, doc) res ->
            exists i v,
              In (i, v) (DocumentVectorDB.__vectors (ClusteringSearchEngine._db self))
              /\ In i (ClusterDTO.get_indices cluster)
              /\ doc = doc_at (ClusteringSearchEngine._db self) i
              /\ calculate_distance query_vector v = Some score.
Proof.
  intros Hvalid. unfold ClusteringSearchEngine.retrieve_relevant_documents.
  destruct (ClusteringSearchEngine.prepare_query self query (PyInt n))
    as [[query_vector m]|e] eqn:Hprep; [|discriminate].
  destruct (KMeans.train fuel (ClusteringSearchEngine.__algo self))
    as [[algo|e]|] eqn:Htrain; [|discriminate|discriminate].
  destruct (ClusteringSearchEngine.rank_documents algo query_vector m)
    as [docs|e] eqn:Hrank; [|discriminate].
  cbn [bind]. intros Hres. inversion Hres; subst; clear Hres.
  destruct (trained_clusters_populated _ _ _ Htrain) as [Hpop Hdb].
  unfold ClusteringSearchEngine._db in *. cbn [ClusteringSearchEngine.__algo].
  split; [assumption|]. rewrite <- Hdb in Hvalid |- *.
  assert (Hrank' := Hrank). unfold ClusteringSearchEngine.rank_documents in Hrank'.
  bind_inv Hrank'. rename a into inference. clear Hrank'.
  rewrite (rank_documents_valid _ _ _ _ Hvalid Hstep) in Hrank.
  injection Hrank as <-.
  destruct (infer_ok _ _ _ _ Hstep)
    as (j & cluster & doc_distances & _ & _ & _ & Hc & Hdd & Hinf).
  assert (Hcin : In cluster (KMeans.__clusters algo))
    by (apply py_index_ok in Hc; eapply nth_error_In; eassumption).
  assert (Hmem : ClusterDTO.get_indices cluster <> [])
    by (apply (proj1 (Forall_forall _ _) Hpop) in Hcin; apply Hcin).
  unfold ClusteringSearchEngine.prepare_query in Hprep.
  destruct (ClusteringSearchEngine.checked_query query) as [text|] eqn:Hq;
    [|discriminate].
  cbn [ClusteringSearchEngine.checked_count] in Hprep.
  destruct (n <=? 0); [discriminate|].
  destruct (tokenize text) as [[|tok toks]|] eqn:Htok; [discriminate| |discriminate].
  unfold ClusteringSearchEngine._db in Hprep. rewrite <- Hdb in Hprep.
  destruct (BM25Vectorizer.vectorize _ (tok :: toks)) as [qv|e] eqn:Hv; [|discriminate].
  cbn [bind] in Hprep. destruct (is_empty qv); [discriminate|].
  inversion Hprep; subst qv m; clear Hprep.
  destruct query as [| | | |text']; try discriminate.
  assert (text' = text).
  { destruct text'; simpl in Hq; [discriminate | congruence]. }
  subst text'.
  exists text, (tok :: toks), query_vector, cluster.
  split; [reflexivity|]. split; [assumption|]. split; [assumption|].
  split; [assumption|].
  intros score doc Hin. apply in_map_iff in Hin.
  destruct Hin as ([d i] & Heq & Hin). simpl in Heq. inversion Heq; subst score doc.
  rewrite Hinf in Hin.
  destruct (infer_result_indices _ _ _ _ _ _ _ Hdd Hin) as [_ Hmember].
  apply In_firstn in Hin.
  apply (Permutation_in _ (sorted_by_key_perm doc_distances)) in Hin.
  destruct (Forall2_In_r _ _ _ _ (doc_distances_of_spec _ _ _ Hdd) Hin)
    as ([i' v] & Hv' & Hd & Hi).
  simpl in Hd, Hi. subst i'. exists i, v.
  split.
  - unfold DocumentVectorDB.get_vectors in Hv'.
    destruct (ClusterDTO.get_indices cluster); [assumption|].
    now apply filter_In in Hv'.
  - split; [auto|]. split; [reflexivity | assumption].
Qed.

End EngineFacts.

(** ** BM25Vectorizer: the scores of a vector *)

Section ScoreFacts.
Context `{Collaborators}.

Lemma score_loop (bm25 : list (string * Q)) (n : nat) : forall entries vector vector',
  foldM (fun vector '(term, index) =>
           score <- dict_get bm25 term ;;
           py_setitem vector index score)
        entries vector = Ok vector' ->
  List.length vector = n ->
  NoDup (map snd entries) ->
  Forall (fun entry => 0 <= snd entry < Z.of_nat n) entries ->
  List.length vector' = n
  /\ (forall term index, In (term, index) entries ->
        exists score, dict_get bm25 term = Ok score
                      /\ nth_error vector' (Z.to_nat index) = Some score)
  /\ (forall j, ~ In (Z.of_nat j) (map snd entries) ->
                nth_error vector' j = nth_error vector j).
Proof.
  induction entries as [|[term index] entries IH]; intros vector vector' Hf Hlen Hnd Hrange.
  - inversion Hf; subst vector'. split; [assumption|].
    split; [intros ? ? []|reflexivity].
  - cbn [foldM] in Hf. bind_inv Hf. rename a into next. bind_inv Hstep.
    rename a into score.
    assert (Hidx := Forall_inv Hrange). apply Forall_inv_tail in Hrange.
    simpl in Hidx. cbn [map snd] in Hnd. apply NoDup_cons_iff in Hnd.
    destruct Hnd as [Hfresh Hnd].
    unfold py_setitem in Hstep.
    replace (index <? 0) with false in Hstep by (symmetry; apply Z.ltb_ge; lia).
    replace (index <? 0) with false in Hstep by (symmetry; apply Z.ltb_ge; lia).
    replace (Z.of_nat (List.length vector) <=? index) with false in Hstep
      by (symmetry; apply Z.leb_gt; lia).
    simpl in Hstep. inversion Hstep; subst next; clear Hstep.
    destruct (IH _ _ Hf) as (Hlen' & Hscores & Hrest);
      [now rewrite set_nth_length | assumption | assumption |].
    split; [assumption|]. split.
    + intros term' index' [Heq | Hin]; [|eauto].
      inversion Heq; subst term' index'. exists score. split; [assumption|].
      rewrite Hrest by (now rewrite Z2Nat.id by lia).
      apply set_nth_same. lia.
    + intros j Hj. rewrite Hrest by (intros Hin; apply Hj; now right).
      apply set_nth_other. intros ->. apply Hj. left. simpl. lia.
Qed.

(** X24. When [calculate_bm25] has scores to give and the token positions
    are distinct positions of the vocabulary, the vector that
    [_calculate_bm25] returns has, at the position of every token, the
    score of that token, and 0.0 at every other position of the
    vocabulary. *)
Theorem calculate_bm25_scores
    (self : BM25Vectorizer.t) (doc : list string) (bm25 : list (string * Q))
    (vector : Vector) :
  calculate_bm25 (_vocabulary self) doc (_idf_values self) (_avg_doc_len self) (len doc)
  = Some bm25 ->
  bm25 <> [] ->
  NoDup (map snd (_token2ind self)) ->
  Forall (fun entry => 0 <= snd entry < len (_vocabulary self)) (_token2ind self) ->
  BM25Vectorizer._calculate_bm25 self doc = Ok vector ->
  List.length vector = List.length (_vocabulary self)
  /\ (forall term index, In (term, index) (_token2ind self) ->
        exists score, dict_get bm25 term = Ok score
                      /\ nth_error vector (Z.to_nat index) = Some score)
  /\ (forall j, (j < List.length (_vocabulary self))%nat ->
                ~ In (Z.of_nat j) (map snd (_token2ind self)) ->
                nth_error vector j = Some 0%Q).
Proof.
  intros Hbm Hne Hnd Hrange. unfold BM25Vectorizer._calculate_bm25.
  destruct (is_empty doc); [discriminate|]. rewrite Hbm.
  destruct bm25 as [|entry rest]; [congruence|]. intros Hv.
  destruct (score_loop _ (List.length (_vocabulary self)) _ _ _ Hv
              (repeat_length _ _) Hnd Hrange) as (Hlen & Hscores & Hrest).
  split; [assumption|]. split; [assumption|].
  intros j Hj Hout. rewrite (Hrest j Hout).
  rewrite nth_error_repeat by assumption. reflexivity.
Qed.

End ScoreFacts.

(** ** KMeans: equal centroids *)

Lemma vec_eqb_trans u v w :
  vec_eqb u v = true -> vec_eqb v w = true -> vec_eqb u w = true.
Proof.
  revert v w; induction u as [|a u IH]; intros [|b v] [|c w]; simpl;
    try discriminate; [reflexivity|].
  intros Huv Hvw. apply andb_prop in Huv, Hvw.
  destruct Huv as [Hab Huv], Hvw as [Hbc Hvw].
  apply Qeq_bool_iff in Hab, Hbc. apply andb_true_intro. split.
  - apply Qeq_bool_iff. now rewrite Hab.
  - eauto.
Qed.

Lemma vec_eqb_sym u v : vec_eqb u v = true -> vec_eqb v u = true.
Proof.
  revert v; induction u as [|a u IH]; intros [|b v]; simpl; try discriminate;
    [reflexivity|].
  intros Huv. apply andb_prop in Huv. destruct Huv as [Hab Huv].
  apply Qeq_bool_iff in Hab. apply andb_true_intro. split; [|auto].
  apply Qeq_bool_iff. now symmetry.
Qed.

Section EqualCentroids.
Context `{Collaborators}.

Lemma closest_centroid_is_first centroids vector k :
  KMeans.closest_centroid_of centroids vector = Ok k ->
  forall j cj ck,
    (j < Z.to_nat k)%nat ->
    nth_error centroids j = Some cj -> nth_error centroids (Z.to_nat k) = Some ck ->
    vec_eqb cj ck = false.
Proof.
  unfold KMeans.closest_centroid_of, KMeans.centroid_distances.
  intros Hc j cj ck Hlt Hj Hk. bind_inv Hc. rename a into distances.
  bind_inv Hc. rename a into m. inversion Hc; subst k; clear Hc.
  apply mapM_ok_Forall2 in Hstep. apply py_min_spec in Hstep0.
  destruct Hstep0 as [Hin _].
  destruct (Forall2_In_r _ _ _ _ Hstep Hin) as (cm & _ & Hentry).
  destruct (calculate_distance (snd vector) cm); [|discriminate].
  bind_inv Hentry. inversion Hentry; subst m; clear Hentry. simpl in *.
  apply list_index_spec in Hstep0.
  destruct Hstep0 as (Hk0 & (y & Hy & Hycm) & Hfirst).
  assert (y = ck) by congruence. subst y.
  destruct (vec_eqb cj ck) eqn:Heq; [|reflexivity]. exfalso.
  specialize (Hfirst j cj Hj (vec_eqb_trans _ _ _ Heq Hycm)). lia.
Qed.

Lemma iteration_centroids_differ
    (self self' : KMeans.t) (j j' : nat) (cluster cluster' : ClusterDTO.t) :
  KMeans.run_single_train_iteration self = Ok self' ->
  (j < j')%nat ->
  nth_error (KMeans.__clusters self) j = Some cluster ->
  nth_error (KMeans.__clusters self) j' = Some cluster' ->
  vec_eqb (ClusterDTO.get_centroid cluster) (ClusterDTO.get_centroid cluster') = false.
Proof.
  intros Hrun Hlt Hj Hj'. unfold KMeans.run_single_train_iteration in Hrun.
  bind_inv Hrun. rename a into assigned_clusters. bind_inv Hrun. rename a into updated.
  clear Hrun. cbn [DocumentVectorDB.get_vectors] in Hstep, Hstep0.
  set (centroids := map ClusterDTO.get_centroid (KMeans.__clusters self)) in *.
  set (vectors := DocumentVectorDB.__vectors (KMeans._db self)) in *.
  assert (Hlen : List.length assigned_clusters = List.length (KMeans.__clusters self)).
  { rewrite <- (length_map ClusterDTO.erase_indices (KMeans.__clusters self)).
    refine (foldM_invariant
              (fun cl => List.length cl =
                         List.length (map ClusterDTO.erase_indices (KMeans.__clusters self)))
              _ _ _ _ _ eq_refl Hstep).
    intros a x a' Ha Hx. apply assign_vector_length in Hx. congruence. }
  destruct (assignment_loop centroids vectors vectors [] _ _
              (erased_clusters_assigned centroids vectors (KMeans.__clusters self))
              Hstep) as [_ Hbwd].
  destruct (nth_error assigned_clusters j') as [c1|] eqn:Hc1.
  2: { apply nth_error_None in Hc1.
       assert ((j' < List.length (KMeans.__clusters self))%nat)
         by (apply nth_error_Some; congruence).
       lia. }
  apply mapM_ok_Forall2 in Hstep0.
  destruct (Forall2_nth_error_l _ _ _ _ _ Hstep0 Hc1) as (c2 & _ & Hup).
  apply update_centroid_ok in Hup. destruct Hup as [Hidx [Hmem _]].
  rewrite Hidx in Hmem.
  destruct (ClusterDTO.get_indices c1) as [|p ps] eqn:Hps; [congruence|].
  destruct (Hbwd j' c1 p Hc1) as (vector & _ & _ & Hclosest);
    [rewrite Hps; now left|].
  apply (closest_centroid_is_first _ _ _ Hclosest j); rewrite ?Nat2Z.id.
  - assumption.
  - unfold centroids. now apply map_nth_error.
  - unfold centroids. now apply map_nth_error.
Qed.

(** X25. An iteration over clusters two of which have numerically equal
    centroids never returns: every vector that is nearest to them goes to
    the earlier of the two, the later one stays without members, and its
    centroid update is refused.  So after an iteration has returned, the
    centroids it started from were pairwise different. *)
Theorem iteration_needs_distinct_centroids
    (self self' : KMeans.t) (j j' : nat) (cluster cluster' : ClusterDTO.t) :
  KMeans.run_single_train_iteration self = Ok self' ->
  (j < j')%nat ->
  nth_error (KMeans.__clusters self) j = Some cluster ->
  nth_error (KMeans.__clusters self) j' = Some cluster' ->
  vec_eqb (ClusterDTO.get_centroid cluster) (ClusterDTO.get_centroid cluster') = false
  /\ vec_eqb (ClusterDTO.get_centroid cluster') (ClusterDTO.get_centroid cluster) = false.
Proof.
  intros Hrun Hlt Hj Hj'. split.
  - exact (iteration_centroids_differ _ _ _ _ _ _ Hrun Hlt Hj Hj').
  - destruct (vec_eqb (ClusterDTO.get_centroid cluster')
                      (ClusterDTO.get_centroid cluster)) eqn:Heq; [|reflexivity].
    rewrite <- (iteration_centroids_differ _ _ _ _ _ _ Hrun Hlt Hj Hj').
    symmetry. now apply vec_eqb_sym.
Qed.

Lemma train_loop_first_ok fuel self self' :
  KMeans.train_loop fuel self = Some (Ok self') ->
  exists next, KMeans.run_single_train_iteration self = Ok next.
Proof.
  destruct fuel as [|fuel]; cbn [KMeans.train_loop]; [discriminate|].
  destruct (KMeans.run_single_train_iteration self) as [next|e]; [eauto | discriminate].
Qed.

(** X26. [train] takes its seeds as they come: when two of the first
    [n_clusters] stored vectors are numerically equal, or one of them
    equals the centroid of a cluster that is already there, the first
    iteration raises.  So a training that returns had seeds that differ
    from one another and from the centroids present before. *)
Theorem train_needs_distinct_seeds
    (fuel : nat) (self self' : KMeans.t) (j j' : nat) (c c' : Vector) :
  KMeans.train fuel self = Some (Ok self') ->
  (j < j')%nat ->
  nth_error (map ClusterDTO.get_centroid (KMeans.__clusters self)
             ++ map snd (py_slice_to (DocumentVectorDB.__vectors (KMeans._db self))
                                     (KMeans._n_clusters self))) j = Some c ->
  nth_error (map ClusterDTO.get_centroid (KMeans.__clusters self)
             ++ map snd (py_slice_to (DocumentVectorDB.__vectors (KMeans._db self))
                                     (KMeans._n_clusters self))) j' = Some c' ->
  vec_eqb c c' = false.
Proof.
  unfold KMeans.train. intros Ht Hlt Hj Hj'. apply train_loop_first_ok in Ht.
  destruct Ht as [next Hrun].
  assert (Hcentroids :
            map ClusterDTO.get_centroid (KMeans.__clusters (KMeans.seed_clusters self)) =
            map ClusterDTO.get_centroid (KMeans.__clusters self)
            ++ map snd (py_slice_to (DocumentVectorDB.__vectors (KMeans._db self))
                                    (KMeans._n_clusters self))).
  { unfold KMeans.seed_clusters. cbn [KMeans.set_clusters KMeans.__clusters].
    cbn [DocumentVectorDB.get_vectors]. rewrite map_app, map_map. reflexivity. }
  rewrite <- Hcentroids in Hj, Hj'. rewrite nth_error_map in Hj, Hj'.
  destruct (nth_error (KMeans.__clusters (KMeans.seed_clusters self)) j)
    as [cluster|] eqn:Hc; [|discriminate].
  destruct (nth_error (KMeans.__clusters (KMeans.seed_clusters self)) j')
    as [cluster'|] eqn:Hc'; [|discriminate].
  simpl in Hj, Hj'. inversion Hj; inversion Hj'; subst c c'.
  exact (iteration_centroids_differ _ _ _ _ _ _ Hrun Hlt Hc Hc').
Qed.

End EqualCentroids.

(** ** The code on concrete inputs *)

Import Sample.

(** The sample distance gives equal results on equal centroids. *)
Lemma manhattan_respects_equality : distance_respects_equality.
Proof.
  unfold distance_respects_equality.
  change (@calculate_distance collaborators) with manhattan.
  induction v as [|a v IH]; intros c c' d Heq Hd.
  - destruct c, c'; try discriminate. exists d. split; [assumption | reflexivity].
  - destruct c as [|b c], c' as [|b' c']; try discriminate.
    cbn [vec_eqb] in Heq. apply andb_prop in Heq. destruct Heq as [Hb Hc].
    apply Qeq_bool_iff in Hb. cbn [manhattan] in Hd |- *.
    destruct (manhattan v c') as [d0'|] eqn:Hd0'; [|discriminate].
    destruct (IH c c' d0' Hc Hd0') as (d0 & -> & Hd0).
    assert (Hd' : d = Qred (Qabs (a - b') + d0')) by congruence.
    subst d. eexists. split; [reflexivity|].
    rewrite !Qred_correct, Hb, Hd0. reflexivity.
Qed.

(** Every vector is at distance 0 from itself under the sample distance. *)
Lemma manhattan_self_distance : self_distance_small.
Proof.
  unfold self_distance_small. change (@calculate_distance collaborators) with manhattan.
  assert (Hzero : forall v, exists d, manhattan v v = Some d /\ (d == 0)%Q).
  { induction v as [|a v [d0 [Hd0 Hz]]]; [exists 0%Q; split; reflexivity|].
    cbn [manhattan]. rewrite Hd0. eexists. split; [reflexivity|].
    rewrite Qred_correct, Hz.
    assert (Ha : (a - a == 0)%Q) by ring. rewrite Ha. reflexivity. }
  intros v. destruct (Hzero v) as (d & Hd & Hz). exists d. split; [assumption|].
  rewrite Hz. discriminate.
Qed.

Lemma sample_db_put : DocumentVectorDB.put_corpus DocumentVectorDB.init sample_corpus
                      = Ok sample_db.
Proof. vm_compute. reflexivity. Qed.

Lemma sample_kmeans_trained : KMeans.train 1 sample_kmeans = Some (Ok sample_trained).
Proof. vm_compute. reflexivity. Qed.

(** Inference on the trained sample: the query (5) is served from the
    cluster of the vectors 1 and 3. *)
Lemma infer_restricted_to_nearest_cluster_witness :
  KMeans.train 1 sample_kmeans = Some (Ok sample_trained)
  /\ KMeans.infer sample_trained [5%Q] 3 = Ok [(0%Q, 3); (1%Q, 1)]
  /\ Forall populated (KMeans.__clusters sample_trained)
  /\ exists j cluster,
       nearest_cluster [5%Q] (KMeans.__clusters sample_trained) j cluster
       /\ ClusterDTO.get_indices cluster <> []
       /\ forall d i, In (d, i) [(0%Q, 3); (1%Q, 1)] ->
                      In i (ClusterDTO.get_indices cluster).
Proof.
  assert (Hinfer : KMeans.infer sample_trained [5%Q] 3 = Ok [(0%Q, 3); (1%Q, 1)])
    by (vm_compute; reflexivity).
  split; [exact sample_kmeans_trained|]. split; [exact Hinfer|].
  destruct (infer_restricted_to_nearest_cluster sample_trained [5%Q] 3 _ Hinfer)
    as (j & cluster & _ & Hin & _ & Htrained).
  destruct (Htrained 1%nat sample_kmeans sample_kmeans_trained) as (Hpop & Hnear & Hne).
  split; [exact Hpop|]. exists j, cluster.
  split; [exact Hnear|]. split; [exact Hne | exact (Hin Hne)].
Defined.

(** The restriction fails on the object that a [train] call leaves behind
    when it raises.  Over the corpus (a, a, a a a a a), with the vectors
    (1), (1), (5) and two clusters, both seeds are (1): the three vectors go
    to cluster 0, whose centroid becomes (7/3), cluster 1 stays without
    members, and its centroid update raises.  For the query (1) the nearest
    cluster is then cluster 1, and [infer] returns the keys 0, 1 and 2, none
    of which is a member of it. *)
Lemma infer_beyond_memberless_cluster :
  KMeans.train_state 1 (KMeans.init echo_db 2)
  = Some (aborted_kmeans, Some (ValueError "Invalid input argument"))
  /\ map ClusterDTO.get_indices (KMeans.__clusters aborted_kmeans) = [[0; 1; 2]; []]
  /\ KMeans.closest_cluster_of [1%Q] (KMeans.__clusters aborted_kmeans) = Ok 1
  /\ KMeans.infer aborted_kmeans [1%Q] 3 = Ok [(0%Q, 0); (0%Q, 1); (4%Q, 2)]
  /\ ~ restricted_to_nearest_cluster aborted_kmeans [1%Q] 3.
Proof.
  assert (Hj : KMeans.closest_cluster_of [1%Q] (KMeans.__clusters aborted_kmeans) = Ok 1)
    by (vm_compute; reflexivity).
  assert (Hinfer : KMeans.infer aborted_kmeans [1%Q] 3
                   = Ok [(0%Q, 0); (0%Q, 1); (4%Q, 2)]) by (vm_compute; reflexivity).
  split; [vm_compute; reflexivity|]. split; [reflexivity|].
  split; [exact Hj|]. split; [exact Hinfer|].
  intros Hrestricted.
  destruct (closest_cluster_of_spec _ _ _ Hj) as [[Hzero _] | (cluster & Hnear)];
    [discriminate|].
  assert (Hcluster : nth_error (KMeans.__clusters aborted_kmeans) 1 = Some cluster)
    by (apply Hnear).
  assert (Hin : In 0 (ClusterDTO.get_indices cluster))
    by (apply (Hrestricted _ 1 cluster Hinfer Hnear 0%Q 0); now left).
  cbn in Hcluster. injection Hcluster as <-. exact Hin.
Qed.

(** The first iteration over the sample vectors: where the vector (3) of
    index 2 goes. *)
Lemma vectors_assigned_to_nearest_centroid_witness :
  dense_keys (DocumentVectorDB.__vectors (KMeans._db (KMeans.seed_clusters sample_kmeans)))
  /\ KMeans.run_single_train_iteration (KMeans.seed_clusters sample_kmeans)
     = Ok sample_trained
  /\ In (2, [3%Q])
        (DocumentVectorDB.__vectors (KMeans._db (KMeans.seed_clusters sample_kmeans)))
  /\ exists k cluster',
       nearest_centroid
         (map ClusterDTO.get_centroid (KMeans.__clusters (KMeans.seed_clusters sample_kmeans)))
         [3%Q] k
       /\ nth_error (KMeans.__clusters sample_trained) (Z.to_nat k) = Some cluster'
       /\ In 2 (ClusterDTO.get_indices cluster')
       /\ forall n cluster,
            nth_error (KMeans.__clusters sample_trained) n = Some cluster ->
            In 2 (ClusterDTO.get_indices cluster) -> n = Z.to_nat k.
Proof.
  assert (Hdense : dense_keys (DocumentVectorDB.__vectors
                                 (KMeans._db (KMeans.seed_clusters sample_kmeans))))
    by reflexivity.
  assert (Hrun : KMeans.run_single_train_iteration (KMeans.seed_clusters sample_kmeans)
                 = Ok sample_trained) by (vm_compute; reflexivity).
  assert (Hin : In (2, [3%Q]) (DocumentVectorDB.__vectors
                                 (KMeans._db (KMeans.seed_clusters sample_kmeans))))
    by (simpl; auto).
  split; [exact Hdense|]. split; [exact Hrun|]. split; [exact Hin|].
  exact (vectors_assigned_to_nearest_centroid (KMeans.seed_clusters sample_kmeans)
           sample_trained 2 [3%Q] Hdense manhattan_respects_equality Hrun Hin).
Defined.

(** Ingestion of the sample corpus. *)
Lemma put_corpus_index_alignment_witness :
  DocumentVectorDB.put_corpus DocumentVectorDB.init sample_corpus = Ok sample_db
  /\ (List.length (DocumentVectorDB.__vectors sample_db)
        <= List.length (kept_documents sample_corpus))%nat
  /\ DocumentVectorDB.__documents sample_db =
     DocumentVectorDB.__documents DocumentVectorDB.init ++ kept_documents sample_corpus.
Proof.
  assert (Hput : DocumentVectorDB.put_corpus DocumentVectorDB.init sample_corpus
                 = Ok sample_db) by (vm_compute; reflexivity).
  split; [exact Hput|].
  destruct (put_corpus_index_alignment DocumentVectorDB.init sample_corpus sample_db Hput)
    as (Hlen & Hdocs & _).
  split; [exact Hlen | exact Hdocs].
Defined.

(** Retrieval with the empty query. *)
Lemma retrieve_rejects_bad_input_witness :
  invalid_arguments (PyStr "") (PyInt 3)
  /\ (exists msg,
        ClusteringSearchEngine.retrieve_relevant_documents
          0 sample_engine (PyStr "") (PyInt 3) = Some (Raise (ValueError msg)))
  /\ (invalid_arguments (PyStr "") (PyInt 3) ->
      ClusteringSearchEngine.retrieve_relevant_documents
        0 sample_engine (PyStr "") (PyInt 3)
      = Some (Raise (ValueError "Invalid Input argument(s)"))).
Proof.
  assert (Hinv : invalid_arguments (PyStr "") (PyInt 3)) by (right; left; reflexivity).
  split; [exact Hinv|].
  exact (retrieve_rejects_bad_input 0 sample_engine (PyStr "") (PyInt 3) (or_introl Hinv)).
Defined.

(** A retrieval of the sample engine that asks for more pairs than the
    chosen cluster has vectors: both pairs come back, in ascending order, and
    a count of 1 gives the first of them. *)
Lemma retrieve_sorted_and_bounded_witness :
  ClusteringSearchEngine.retrieve_relevant_documents
    5 sample_engine (PyStr "a a a a") (PyInt 5)
  = Some (Ok (sample_engine_1,
              [(1%Q, "a a a a a"%string); (2%Q, "a a a a a a"%string)]))
  /\ (List.length [(1%Q, "a a a a a"%string); (2%Q, "a a a a a a"%string)]
      <= Z.to_nat 5)%nat
  /\ StronglySorted Qle
       (map fst [(1%Q, "a a a a a"%string); (2%Q, "a a a a a a"%string)])
  /\ ClusteringSearchEngine.retrieve_relevant_documents
       1 sample_engine (PyStr "a a a a") (PyInt 1)
     = Some (Ok (sample_engine_1, [(1%Q, "a a a a a"%string)])).
Proof.
  assert (Hret : ClusteringSearchEngine.retrieve_relevant_documents
                   1 sample_engine (PyStr "a a a a") (PyInt 5)
                 = Some (Ok (sample_engine_1,
                             [(1%Q, "a a a a a"%string); (2%Q, "a a a a a a"%string)])))
    by (vm_compute; reflexivity).
  assert (Hvalid : keys_valid (ClusteringSearchEngine._db sample_engine))
    by exact (put_corpus_keys_valid _ _ _ sample_db_put).
  destruct (retrieve_sorted_and_bounded 4 sample_engine (PyStr "a a a a") 5)
    as [Hback Hresult].
  destruct (Hback manhattan_self_distance) as (Hfuel & _).
  destruct (Hresult 1%nat _ _ Hret) as (_ & Hlen & Hsorted & Hranking).
  destruct (Hranking Hvalid) as (cluster & available & _ & _ & Hres & Hany).
  destruct (Hany 1 eq_refl) as [Hone _].
  split; [rewrite Hfuel; exact Hret|]. split; [exact Hlen|]. split; [exact Hsorted|].
  change (Z.to_nat 5) with 5%nat in Hres.
  destruct available as [|first [|second [|third rest]]];
    cbn [firstn] in Hres; try discriminate Hres.
  injection Hres as <- <-. exact Hone.
Defined.

(** C2. A cluster that receives no member makes the iteration raise: over
    two equal vectors seeding two clusters, both vectors go to cluster 0,
    the mean over the no members of cluster 1 is the empty tuple, and
    [set_new_centroid] refuses it with a [ValueError]; so do [train] and a
    retrieval over a corpus that holds the same text twice.  The iteration
    does not complete. *)
Theorem empty_cluster_aborts_iteration :
  map ClusterDTO.get_centroid (KMeans.__clusters twin_kmeans) = [[1%Q]; [1%Q]]
  /\ foldM (KMeans.assign_vector [[1%Q]; [1%Q]]
              (DocumentVectorDB.__vectors (KMeans._db twin_kmeans)))
           (DocumentVectorDB.__vectors (KMeans._db twin_kmeans))
           (map ClusterDTO.erase_indices (KMeans.__clusters twin_kmeans))
     = Ok [ {| ClusterDTO.__centroid := [1%Q]; ClusterDTO.__indices := [0; 1] |};
            {| ClusterDTO.__centroid := [1%Q]; ClusterDTO.__indices := [] |} ]
  /\ KMeans.run_single_train_iteration twin_kmeans
     = Raise (ValueError "Invalid input argument")
  /\ KMeans.train 1 (KMeans.init (db_of [1; 1]%Q) 2)
     = Some (Raise (ValueError "Invalid input argument"))
  /\ DocumentVectorDB.put_corpus DocumentVectorDB.init ["a"; "a"]%string = Ok twin_db
  /\ DocumentVectorDB.__vectors twin_db = [(0, [1%Q]); (1, [1%Q])]
  /\ ClusteringSearchEngine.retrieve_relevant_documents
       1 (ClusteringSearchEngine.init twin_db 2) (PyStr "a") (PyInt 1)
     = Some (Raise (ValueError "Invalid input argument")).
Proof. repeat split; vm_compute; reflexivity. Qed.

(** C3. Every [train] appends its seed clusters to the clusters already
    there: an engine built for 2 clusters holds 2 clusters after the first
    retrieval and 4 after the second, and answers the same query
    differently. *)
Theorem retraining_appends_clusters :
  DocumentVectorDB.put_corpus DocumentVectorDB.init sample_corpus = Ok sample_db
  /\ DocumentVectorDB.__vectors sample_db
     = [(0, [1%Q]); (1, [6%Q]); (2, [3%Q]); (3, [5%Q])]
  /\ KMeans._n_clusters (ClusteringSearchEngine.__algo sample_engine) = 2
  /\ List.length (KMeans.__clusters (ClusteringSearchEngine.__algo sample_engine)) = 0%nat
  /\ ClusteringSearchEngine.retrieve_relevant_documents
       1 sample_engine (PyStr "a a a a") (PyInt 1)
     = Some (Ok (sample_engine_1, [(1%Q, "a a a a a"%string)]))
  /\ List.length (KMeans.__clusters (ClusteringSearchEngine.__algo sample_engine_1)) = 2%nat
  /\ ClusteringSearchEngine.retrieve_relevant_documents
       1 sample_engine_1 (PyStr "a a a a") (PyInt 1)
     = Some (Ok (sample_engine_2, [(1%Q, "a a a"%string)]))
  /\ List.length (KMeans.__clusters (ClusteringSearchEngine.__algo sample_engine_2)) = 4%nat.
Proof. repeat split; vm_compute; reflexivity. Qed.

(** On a state whose nearest cluster has no member, [infer] hands the empty
    member list to [get_vectors], which takes it for no filter: every stored
    vector is ranked.  No training returns such a state
    ([trained_clusters_populated]). *)
Example infer_memberless_cluster :
  KMeans.infer memberless_kmeans [5%Q] 4
  = Ok [(0%Q, 3); (1%Q, 1); (2%Q, 2); (4%Q, 0)].
Proof. vm_compute. reflexivity. Qed.

(** The paragraphs of the sample text. *)
Lemma get_paragraphs_blank_lines_witness :
  get_paragraphs (PyStr sample_text) = Ok ["first"; ""; ""; "last"]%string
  /\ In EmptyString ["first"; ""; ""; "last"]%string.
Proof.
  assert (Hps : get_paragraphs (PyStr sample_text)
                = Ok ["first"; ""; ""; "last"]%string) by (vm_compute; reflexivity).
  split; [exact Hps|].
  apply (proj1 (get_paragraphs_blank_lines sample_text _ Hps) EmptyString).
  - vm_compute. right. left. reflexivity.
  - reflexivity.
  - discriminate.
Defined.

(** The keys of the sample database. *)
Lemma put_corpus_keys_without_gaps_witness :
  DocumentVectorDB.put_corpus DocumentVectorDB.init sample_corpus = Ok sample_db
  /\ map fst (DocumentVectorDB.__vectors sample_db) =
     map Z.of_nat (seq 0 (List.length (kept_documents sample_corpus))).
Proof.
  split; [exact sample_db_put|].
  exact (proj1 (put_corpus_keys_without_gaps _ _ _ sample_db_put)).
Defined.

(** Two corpora put into one database. *)
Lemma put_corpus_twice_witness :
  DocumentVectorDB.put_corpus DocumentVectorDB.init sample_corpus = Ok sample_db
  /\ DocumentVectorDB.put_corpus sample_db ["a a"; "a a a a"]%string = Ok sample_db_twice
  /\ DocumentVectorDB.__documents sample_db_twice =
     kept_documents sample_corpus ++ kept_documents ["a a"; "a a a a"]%string.
Proof.
  assert (H2 : DocumentVectorDB.put_corpus sample_db ["a a"; "a a a a"]%string
               = Ok sample_db_twice) by (vm_compute; reflexivity).
  split; [exact sample_db_put|]. split; [exact H2|].
  exact (proj1 (put_corpus_twice _ _ _ _ sample_db_put H2)).
Defined.

(** The second document of the sample database, by its negative index. *)
Lemma get_raw_documents_negative_index_witness :
  0 <= 1 < len (DocumentVectorDB.__documents sample_db)
  /\ DocumentVectorDB.get_raw_documents sample_db
       (Some [1 - len (DocumentVectorDB.__documents sample_db)])
     = Ok [doc_at sample_db 1].
Proof.
  assert (Hi : 0 <= 1 < len (DocumentVectorDB.__documents sample_db))
    by (vm_compute; split; [discriminate | reflexivity]).
  split; [exact Hi|].
  exact (proj1 (get_raw_documents_negative_index sample_db 1 Hi)).
Defined.

(** Training of the sample with more fuel than it needs. *)
Lemma train_runs_one_iteration_witness :
  KMeans.train 5 sample_kmeans = KMeans.train 1 sample_kmeans
  /\ KMeans.train 1 sample_kmeans <> None.
Proof.
  destruct (train_runs_one_iteration 4 sample_kmeans manhattan_self_distance)
    as (Hsame & Hsome & _).
  split; [exact Hsame | exact Hsome].
Defined.

Lemma sample_iteration :
  KMeans.run_single_train_iteration (KMeans.seed_clusters sample_kmeans)
  = Ok sample_trained.
Proof. vm_compute. reflexivity. Qed.

(** The clusters of the trained sample. *)
Lemma train_cluster_growth_witness :
  KMeans.train 1 sample_kmeans = Some (Ok sample_trained)
  /\ len (KMeans.__clusters sample_trained) =
     len (KMeans.__clusters sample_kmeans)
     + (if KMeans._n_clusters sample_kmeans <? 0
        then Z.max 0 (len (DocumentVectorDB.__vectors (KMeans._db sample_kmeans))
                      + KMeans._n_clusters sample_kmeans)
        else Z.min (KMeans._n_clusters sample_kmeans)
                   (len (DocumentVectorDB.__vectors (KMeans._db sample_kmeans)))).
Proof.
  split; [exact sample_kmeans_trained|].
  exact (proj2 (proj2 (train_cluster_growth 1 _ _ sample_kmeans_trained))).
Defined.

(** Training over a database without vectors. *)
Lemma train_without_clusters_witness :
  KMeans.__clusters (KMeans.init (db_of []) 2) = []
  /\ KMeans.train 1 (KMeans.init (db_of []) 2)
     = Some (Raise (ValueError "Invalid input argument(s)")).
Proof.
  split; [reflexivity|].
  exact (proj1 (train_without_clusters 0 (KMeans.init (db_of []) 2) eq_refl) eq_refl).
Defined.

(** The members after the first iteration over the sample. *)
Lemma iteration_keeps_members_valid_witness :
  KMeans.run_single_train_iteration (KMeans.seed_clusters sample_kmeans)
  = Ok sample_trained
  /\ Forall (valid_members
               (len (DocumentVectorDB.__vectors
                       (KMeans._db (KMeans.seed_clusters sample_kmeans)))))
            (KMeans.__clusters sample_trained).
Proof.
  split; [exact sample_iteration|].
  exact (proj2 (proj2 (proj2 (iteration_keeps_members_valid _ _ sample_iteration)))).
Defined.

(** The centroid of a cluster whose only member is the vector (3). *)
Lemma update_centroid_shape_witness :
  KMeans.update_centroid (DocumentVectorDB.__vectors (db_of [1; 6; 3; 5]%Q))
    {| ClusterDTO.__centroid := [1%Q]; ClusterDTO.__indices := [2] |}
  = Ok {| ClusterDTO.__centroid := [3%Q]; ClusterDTO.__indices := [2] |}
  /\ Forall2 Qeq [3%Q] [3%Q].
Proof.
  assert (Hup : KMeans.update_centroid
                  (DocumentVectorDB.__vectors (db_of [1; 6; 3; 5]%Q))
                  {| ClusterDTO.__centroid := [1%Q]; ClusterDTO.__indices := [2] |}
                = Ok {| ClusterDTO.__centroid := [3%Q]; ClusterDTO.__indices := [2] |})
    by (vm_compute; reflexivity).
  split; [exact Hup|].
  exact (proj2 (update_centroid_shape _ _ _ Hup) 2 2 [3%Q] eq_refl eq_refl).
Defined.

Lemma sample_inference :
  KMeans.infer sample_trained [5%Q] 3 = Ok [(0%Q, 3); (1%Q, 1)].
Proof. vm_compute. reflexivity. Qed.

(** The ranking behind the inference on the trained sample. *)
Lemma infer_ranks_candidates_witness :
  KMeans.infer sample_trained [5%Q] 3 = Ok [(0%Q, 3); (1%Q, 1)]
  /\ exists cluster candidates,
       In cluster (KMeans.__clusters sample_trained)
       /\ candidates = DocumentVectorDB.get_vectors (KMeans._db sample_trained)
                         (Some (ClusterDTO.get_indices cluster))
       /\ List.length [(0%Q, 3); (1%Q, 1)] =
          Nat.min (Z.to_nat 3) (List.length candidates).
Proof.
  split; [exact sample_inference|].
  destruct (infer_ranks_candidates _ _ _ _ sample_inference)
    as (cluster & candidates & Hin & Hcand & Hlen & _).
  exists cluster, candidates. split; [exact Hin|]. split; [exact Hcand | exact Hlen].
Defined.

(** Inference on the state whose only cluster has no member. *)
Lemma infer_memberless_ranks_everything_witness :
  KMeans.closest_cluster_of [5%Q] (KMeans.__clusters memberless_kmeans) = Ok 0
  /\ py_index (KMeans.__clusters memberless_kmeans) 0 = Ok (ClusterDTO.init [5%Q])
  /\ ClusterDTO.get_indices (ClusterDTO.init [5%Q]) = []
  /\ KMeans.infer memberless_kmeans [5%Q] 4
     = Ok [(0%Q, 3); (1%Q, 1); (2%Q, 2); (4%Q, 0)]
  /\ List.length [(0%Q, 3); (1%Q, 1); (2%Q, 2); (4%Q, 0)] =
     Nat.min (Z.to_nat 4)
             (List.length (DocumentVectorDB.__vectors (KMeans._db memberless_kmeans))).
Proof.
  assert (Hj : KMeans.closest_cluster_of [5%Q] (KMeans.__clusters memberless_kmeans)
               = Ok 0) by (vm_compute; reflexivity).
  assert (Hc : py_index (KMeans.__clusters memberless_kmeans) 0
               = Ok (ClusterDTO.init [5%Q])) by reflexivity.
  assert (Hi : KMeans.infer memberless_kmeans [5%Q] 4
               = Ok [(0%Q, 3); (1%Q, 1); (2%Q, 2); (4%Q, 0)])
    by (vm_compute; reflexivity).
  split; [exact Hj|]. split; [exact Hc|]. split; [reflexivity|]. split; [exact Hi|].
  exact (proj1 (infer_memberless_ranks_everything _ _ _ _ _ _ Hj Hc eq_refl Hi)).
Defined.

(** The report over the trained sample, one example per cluster. *)
Lemma get_clusters_info_shape_witness :
  KMeans.get_clusters_info sample_trained (PyInt 1)
  = Ok [ {| KMeans.cluster_id := 0; KMeans.documents := ["doc"%string] |};
         {| KMeans.cluster_id := 1; KMeans.documents := ["doc"%string] |} ]
  /\ 0 < 1
  /\ map KMeans.cluster_id
         [ {| KMeans.cluster_id := 0; KMeans.documents := ["doc"%string] |};
           {| KMeans.cluster_id := 1; KMeans.documents := ["doc"%string] |} ]
     = map fst (enumerate (KMeans.__clusters sample_trained)).
Proof.
  assert (Hinfo : KMeans.get_clusters_info sample_trained (PyInt 1)
                  = Ok [ {| KMeans.cluster_id := 0; KMeans.documents := ["doc"%string] |};
                         {| KMeans.cluster_id := 1; KMeans.documents := ["doc"%string] |} ])
    by (vm_compute; reflexivity).
  split; [exact Hinfo|].
  destruct (get_clusters_info_shape _ _ _ Hinfo) as (Hm & Hids & _).
  split; [exact Hm | exact Hids].
Defined.

(** The exact engine over the sample database. *)
Lemma exact_retrieval_pairs_witness :
  VectorDBSearchEngine.retrieve_relevant_documents
    (VectorDBSearchEngine.init sample_db) (PyStr "a a a a") (PyInt 2)
  = Ok [(1%Q, "a a a"%string); (1%Q, "a a a a a"%string)]
  /\ exists knn,
       knn <> [] /\ NoDup (map fst knn)
       /\ Forall2 (fun neighbour entry =>
                     fst entry = snd neighbour
                     /\ py_index (DocumentVectorDB.__documents
                                    (VectorDBSearchEngine._db
                                       (VectorDBSearchEngine.init sample_db)))
                                 (fst neighbour) = Ok (snd entry))
                  knn [(1%Q, "a a a"%string); (1%Q, "a a a a a"%string)].
Proof.
  assert (Hret : VectorDBSearchEngine.retrieve_relevant_documents
                   (VectorDBSearchEngine.init sample_db) (PyStr "a a a a") (PyInt 2)
                 = Ok [(1%Q, "a a a"%string); (1%Q, "a a a a a"%string)])
    by (vm_compute; reflexivity).
  split; [exact Hret|].
  destruct (exact_retrieval_pairs _ _ _ _ Hret)
    as (text & tokens & qv & count & knn & _ & _ & _ & _ & _ & Hne & Hnd & Hall).
  exists knn. split; [exact Hne|]. split; [exact Hnd | exact Hall].
Defined.

(** The first retrieval of the sample engine, pair by pair. *)
Lemma clustering_retrieval_pairs_witness :
  keys_valid (ClusteringSearchEngine._db sample_engine)
  /\ ClusteringSearchEngine.retrieve_relevant_documents
       1 sample_engine (PyStr "a a a a") (PyInt 1)
     = Some (Ok (sample_engine_1, [(1%Q, "a a a a a"%string)]))
  /\ ClusteringSearchEngine._db sample_engine_1 = ClusteringSearchEngine._db sample_engine.
Proof.
  assert (Hvalid : keys_valid (ClusteringSearchEngine._db sample_engine))
    by exact (put_corpus_keys_valid _ _ _ sample_db_put).
  assert (Hret : ClusteringSearchEngine.retrieve_relevant_documents
                   1 sample_engine (PyStr "a a a a") (PyInt 1)
                 = Some (Ok (sample_engine_1, [(1%Q, "a a a a a"%string)])))
    by (vm_compute; reflexivity).
  split; [exact Hvalid|]. split; [exact Hret|].
  exact (proj1 (clustering_retrieval_pairs _ _ _ _ _ _ Hvalid Hret)).
Defined.

(** The vector of the token list (a, a) under the sample vectorizer. *)
Lemma calculate_bm25_scores_witness :
  calculate_bm25 (_vocabulary (DocumentVectorDB._vectorizer sample_db))
                 ["a"; "a"]%string
                 (_idf_values (DocumentVectorDB._vectorizer sample_db))
                 (_avg_doc_len (DocumentVectorDB._vectorizer sample_db))
                 (len ["a"; "a"]%string)
  = Some [("a"%string, 2%Q)]
  /\ BM25Vectorizer._calculate_bm25 (DocumentVectorDB._vectorizer sample_db)
       ["a"; "a"]%string = Ok [2%Q]
  /\ List.length [2%Q] =
     List.length (_vocabulary (DocumentVectorDB._vectorizer sample_db)).
Proof.
  assert (Hbm : calculate_bm25 (_vocabulary (DocumentVectorDB._vectorizer sample_db))
                  ["a"; "a"]%string
                  (_idf_values (DocumentVectorDB._vectorizer sample_db))
                  (_avg_doc_len (DocumentVectorDB._vectorizer sample_db))
                  (len ["a"; "a"]%string)
                = Some [("a"%string, 2%Q)]) by (vm_compute; reflexivity).
  assert (Hv : BM25Vectorizer._calculate_bm25 (DocumentVectorDB._vectorizer sample_db)
                 ["a"; "a"]%string = Ok [2%Q]) by (vm_compute; reflexivity).
  split; [exact Hbm|]. split; [exact Hv|].
  refine (proj1 (calculate_bm25_scores _ _ _ _ Hbm _ _ _ Hv)).
  - discriminate.
  - vm_compute. repeat constructor. intros [].
  - vm_compute. repeat constructor; discriminate.
Defined.

(** The two seeds of the sample differ. *)
Lemma iteration_needs_distinct_centroids_witness :
  KMeans.run_single_train_iteration (KMeans.seed_clusters sample_kmeans)
  = Ok sample_trained
  /\ (0 < 1)%nat
  /\ vec_eqb (ClusterDTO.get_centroid (ClusterDTO.init [1%Q]))
             (ClusterDTO.get_centroid (ClusterDTO.init [6%Q])) = false.
Proof.
  split; [exact sample_iteration|]. split; [constructor|].
  exact (proj1 (iteration_needs_distinct_centroids
                  (KMeans.seed_clusters sample_kmeans) sample_trained 0 1
                  (ClusterDTO.init [1%Q]) (ClusterDTO.init [6%Q])
                  sample_iteration (le_n 1) eq_refl eq_refl)).
Defined.

(** The seeds of the sample training differ. *)
Lemma train_needs_distinct_seeds_witness :
  KMeans.train 1 sample_kmeans = Some (Ok sample_trained)
  /\ vec_eqb [1%Q] [6%Q] = false.
Proof.
  split; [exact sample_kmeans_trained|].
  exact (train_needs_distinct_seeds 1 sample_kmeans sample_trained 0 1 [1%Q] [6%Q]
           sample_kmeans_trained (le_n 1) eq_refl eq_refl).
Defined.
